(** * OOI M2M request / poll / collect / normalize pipeline

    A shallow embedding of [instruments/python/common.py]: the export request
    ([m2m_request]), the THREDDS catalog scan ([list_files]), the per-file
    clean-up ([process_file]), the merge ([m2m_collect]) and the metadata
    rewrite ([update_dataset], [dt64_epoch]).

    Library calls the module relies on (requests, re, BeautifulSoup, xarray,
    numpy) are modelled by small executable definitions; each one states which
    library behaviour it stands for. *)

From Stdlib Require Import ZArith List Bool Ascii String Lia.
From Stdlib Require Import Sorting.Sorted Sorting.Permutation.
From Stdlib Require Import Floats.SpecFloat.
Import ListNotations.


(* ================================================================== *)
(** * IEEE-754 binary64, as numpy's [float] dtype                      *)
(* ================================================================== *)

Module F64.
Local Open Scope Z_scope.

Definition prec : Z := 53.
Definition emax : Z := 1024.

(** [ndarray.astype(float)] on an int64 value and Python's [float(int)]:
    the nearest binary64, ties to even. *)
Definition of_int (z : Z) : spec_float := binary_normalize prec emax z 0 false.

Definition div : spec_float -> spec_float -> spec_float := SFdiv prec emax.
Definition mul : spec_float -> spec_float -> spec_float := SFmul prec emax.

(** The integer a float denotes, when it denotes one exactly. *)
Definition to_int_exact (f : spec_float) : option Z :=
  match f with
  | S754_zero _ => Some 0
  | S754_finite s m e =>
      if 0 <=? e then Some (cond_Zopp s (Zpos m * 2 ^ e))
      else if Zpos m mod 2 ^ (- e) =? 0
           then Some (cond_Zopp s (Zpos m / 2 ^ (- e)))
           else None
  | _ => None
  end.

(** C conversion of a finite float to an integer: the fraction is dropped. *)
Definition trunc (f : spec_float) : option Z :=
  match f with
  | S754_zero _ => Some 0
  | S754_finite s m e =>
      Some (cond_Zopp s (if 0 <=? e then Zpos m * 2 ^ e else Zpos m / 2 ^ (- e)))
  | _ => None
  end.

(** [10.0 ** 9] *)
Definition ten_pow_9 : spec_float := of_int (10 ^ 9).

(** Number of binary digits of a non-negative integer. *)
Definition digits (u : Z) : Z := Zdigits2 u.

(** The canonical binary64 of [± u * 2^k] for a mantissa [u] of at most 53
    bits: the mantissa is shifted up to exactly 53 bits. *)
Definition fnorm (sx : bool) (u k : Z) : spec_float :=
  S754_finite sx (Z.to_pos (u * 2 ^ (prec - digits u))) (k + digits u - prec).

(** A shift record that has lost nothing so far. *)
Definition exact_rec (m : Z) : shr_record := Build_shr_record m false false.

(** Seconds as [dt64_epoch] computes them from one timestamp, and the way
    back: multiply by [10.0 ** 9]. *)
Definition to_seconds (t : Z) : spec_float := div (of_int t) ten_pow_9.
Definition to_nanoseconds (f : spec_float) : spec_float := mul f ten_pow_9.

End F64.

(* ================================================================== *)
(** * Python values: exceptions, dictionaries, strings                   *)
(* ================================================================== *)

Module Py.

(** The exceptions the modelled code can raise. *)
Inductive exn : Type :=
| KeyError (key : string)
| IndexError
| ValueError (what : string)
| MergeError (name : string)
| AttributeError (name : string)
| UnboundLocalError (name : string)
| TypeError (what : string)
| IOError (url : string)
| ReError (pattern : string).

(** A computation without side effects that may raise. *)
Inductive res (A : Type) : Type :=
| Ok (a : A)
| Raise (e : exn).
Arguments Ok {A} a.
Arguments Raise {A} e.

Definition rbind {A B : Type} (m : res A) (f : A -> res B) : res B :=
  match m with
  | Ok a => f a
  | Raise e => Raise e
  end.

Definition is_ok {A : Type} (m : res A) : bool :=
  match m with Ok _ => true | Raise _ => false end.

(** [for x in l: body], threading an accumulator, stopping at the first
    exception. *)
Fixpoint rfold {A B : Type} (f : B -> A -> res B) (l : list A) (b : B) : res B :=
  match l with
  | [] => Ok b
  | x :: l' => rbind (f b x) (rfold f l')
  end.

Fixpoint rmap {A B : Type} (f : A -> res B) (l : list A) : res (list B) :=
  match l with
  | [] => Ok []
  | x :: l' => rbind (f x) (fun y => rbind (rmap f l') (fun ys => Ok (y :: ys)))
  end.

Local Open Scope string_scope.

(** ** Ordered dictionaries (a Python [dict] / [OrderedDict] with string
    keys): insertion order is kept, assignment to an existing key keeps its
    place. *)
Section Dict.
Variable V : Type.
Definition dict : Type := list (string * V).

Fixpoint get (k : string) (d : dict) : option V :=
  match d with
  | [] => None
  | (k', v) :: d' => if String.eqb k k' then Some v else get k d'
  end.

Definition mem (k : string) (d : dict) : bool :=
  match get k d with Some _ => true | None => false end.

Fixpoint set (k : string) (v : V) (d : dict) : dict :=
  match d with
  | [] => [(k, v)]
  | (k', v') :: d' =>
      if String.eqb k k' then (k, v) :: d' else (k', v') :: set k v d'
  end.

Definition del (k : string) (d : dict) : dict :=
  filter (fun kv => negb (String.eqb k (fst kv))) d.

Definition keys (d : dict) : list string := map fst d.

(** [d[k]] *)
Definition getitem (k : string) (d : dict) : res V :=
  match get k d with
  | Some v => Ok v
  | None => Raise (KeyError k)
  end.
End Dict.
Arguments get {V} k d.
Arguments mem {V} k d.
Arguments set {V} k v d.
Arguments del {V} k d.
Arguments keys {V} d.
Arguments getitem {V} k d.

Definition str_in (k : string) (l : list string) : bool :=
  existsb (String.eqb k) l.

(** ** String methods *)

Definition is_lower (c : ascii) : bool :=
  let n := nat_of_ascii c in (97 <=? n)%nat && (n <=? 122)%nat.
Definition is_upper (c : ascii) : bool :=
  let n := nat_of_ascii c in (65 <=? n)%nat && (n <=? 90)%nat.
Definition is_digit (c : ascii) : bool :=
  let n := nat_of_ascii c in (48 <=? n)%nat && (n <=? 57)%nat.
Definition is_alpha (c : ascii) : bool := is_lower c || is_upper c.
Definition to_upper (c : ascii) : ascii :=
  if is_lower c then ascii_of_nat (nat_of_ascii c - 32) else c.
Definition to_lower (c : ascii) : ascii :=
  if is_upper c then ascii_of_nat (nat_of_ascii c + 32) else c.

(** [s.upper()] on ASCII text. *)
Fixpoint upper (s : string) : string :=
  match s with
  | EmptyString => EmptyString
  | String c s' => String (to_upper c) (upper s')
  end.

(** [s.title()] on ASCII text: a letter that follows a non-letter is
    upper-cased, every other letter is lower-cased. *)
Fixpoint title_from (after_letter : bool) (s : string) : string :=
  match s with
  | EmptyString => EmptyString
  | String c s' =>
      String (if after_letter then to_lower c else to_upper c)
             (title_from (is_alpha c) s')
  end.
Definition title (s : string) : string := title_from false s.

(** [needle in s] *)
Fixpoint contains (needle s : string) : bool :=
  String.prefix needle s
  || match s with
     | EmptyString => false
     | String _ s' => contains needle s'
     end.

(** [s.split(' ')] *)
Fixpoint split_from (sep : ascii) (cur : string) (s : string) : list string :=
  match s with
  | EmptyString => [cur]
  | String c s' =>
      if Ascii.eqb c sep then cur :: split_from sep EmptyString s'
      else split_from sep (cur ++ String c EmptyString) s'
  end.
Definition split (sep : ascii) (s : string) : list string :=
  split_from sep EmptyString s.

End Py.

(* ================================================================== *)
(** * The [re] module                                                   *)
(* ================================================================== *)

(** Patterns are kept as syntax trees.  [compile] reads the part of the
    pattern language that [common.py] writes (literals, escaped
    punctuation, [.], [^], [$] and the greedy postfix operators [*], [+],
    [?]); matching follows the backtracking order of [re], which fixes the
    extent of each match and so what [re.sub] replaces.  A pattern the
    caller supplies ([list_files]) may use the rest of the language: what
    [re] does with it is a parameter, see [library]. *)
Module Re.
Import Py.
Local Open Scope string_scope.

Inductive regex : Type :=
| Empty
| Chr (c : ascii)
| AnyChar                       (* [.]: anything but a newline *)
| Bol                           (* [^] *)
| Eol                           (* [$]: at the end, or before a final newline *)
| Seq (r1 r2 : regex)
| Alt (r1 r2 : regex)
| Star (r : regex)
| Plus (r : regex)
| Opt (r : regex).

Definition newline : ascii := ascii_of_nat 10.

Definition or_else {A : Type} (a b : option A) : option A :=
  match a with Some _ => a | None => b end.

(** A matcher in continuation style: the subject's position (at its start
    or not), the rest of the subject, and what to do with what is left. *)
Definition matcher : Type :=
  bool -> string -> (bool -> string -> option string) -> option string.

(** Greedy repetition of [m1]: as many rounds as possible first, each round
    having to consume something; [n] bounds the rounds by the length of the
    subject. *)
Fixpoint star_loop (m1 : matcher) (k : bool -> string -> option string)
         (n : nat) (b0 : bool) (s0 : string) {struct n} : option string :=
  match n with
  | O => k b0 s0
  | S n' =>
      or_else
        (m1 b0 s0
            (fun b' s' =>
               if (String.length s' <? String.length s0)%nat
               then star_loop m1 k n' b' s' else None))
        (k b0 s0)
  end.

(** [matchk r bol s k]: match [r] at the head of [s] ([bol] tells whether
    this is the start of the subject) and hand the rest to [k]; alternatives
    are tried in the order [re] tries them. *)
Fixpoint matchk (r : regex) (bol : bool) (s : string)
         (k : bool -> string -> option string) {struct r} : option string :=
  match r with
  | Empty => k bol s
  | Chr c =>
      match s with
      | String c' s' => if Ascii.eqb c c' then k false s' else None
      | EmptyString => None
      end
  | AnyChar =>
      match s with
      | String c' s' => if Ascii.eqb c' newline then None else k false s'
      | EmptyString => None
      end
  | Bol => if bol then k bol s else None
  | Eol =>
      match s with
      | EmptyString => k bol s
      | String c' EmptyString => if Ascii.eqb c' newline then k bol s else None
      | _ => None
      end
  | Seq r1 r2 => matchk r1 bol s (fun b' s' => matchk r2 b' s' k)
  | Alt r1 r2 => or_else (matchk r1 bol s k) (matchk r2 bol s k)
  | Star r1 => star_loop (matchk r1) k (String.length s) bol s
  | Plus r1 =>
      matchk r1 bol s
        (fun b1 s1 => star_loop (matchk r1) k (String.length s1) b1 s1)
  | Opt r1 => or_else (matchk r1 bol s k) (k bol s)
  end.

(** What is left of [s] after the first match of [r] at its head. *)
Definition ret_rest : bool -> string -> option string := fun _ rest => Some rest.
Definition match_at (r : regex) (bol : bool) (s : string) : option string :=
  matchk r bol s ret_rest.

(** [pattern.match(s)] as a truth value. *)
Definition re_match (r : regex) (s : string) : bool :=
  match match_at r true s with Some _ => true | None => false end.

(** [pattern.search(s)] as a truth value: a match at some position. *)
Fixpoint search_from (r : regex) (bol : bool) (s : string) : bool :=
  match match_at r bol s with
  | Some _ => true
  | None =>
      match s with
      | EmptyString => false
      | String _ s' => search_from r false s'
      end
  end.
Definition re_search (r : regex) (s : string) : bool := search_from r true s.

(** [re.sub(pattern, repl, s)] for a replacement text without backslashes:
    every leftmost non-overlapping match is replaced.  [skip] counts the
    characters of [s] that belong to the match just replaced. *)
Fixpoint sub_from (r : regex) (repl : string) (bol : bool) (skip : nat)
         (s : string) : string :=
  match skip with
  | S skip' =>
      match s with
      | EmptyString => EmptyString
      | String _ s' => sub_from r repl false skip' s'
      end
  | O =>
      match match_at r bol s with
      | Some rest =>
          match (String.length s - String.length rest)%nat, s with
          | S n, String _ s' => repl ++ sub_from r repl false n s'
          | _, String c s' => repl ++ String c (sub_from r repl false 0 s')
          | _, EmptyString => repl
          end
      | None =>
          match s with
          | EmptyString => EmptyString
          | String c s' => String c (sub_from r repl false 0 s')
          end
      end
  end.
Definition re_sub (r : regex) (repl s : string) : string :=
  sub_from r repl true 0 s.

(** ** [re.compile] *)

Inductive quant : Type := QStar | QPlus | QOpt.

Inductive token : Type :=
| TAtom (r : regex)
| TAnchor (r : regex)
| TQuant (q : quant).

Definition quantify (q : quant) (r : regex) : regex :=
  match q with
  | QStar => Star r
  | QPlus => Plus r
  | QOpt => Opt r
  end.

Definition token_of (c : ascii) : option token :=
  if Ascii.eqb c "." then Some (TAtom AnyChar)
  else if Ascii.eqb c "^" then Some (TAnchor Bol)
  else if Ascii.eqb c "$" then Some (TAnchor Eol)
  else if Ascii.eqb c "*" then Some (TQuant QStar)
  else if Ascii.eqb c "+" then Some (TQuant QPlus)
  else if Ascii.eqb c "?" then Some (TQuant QOpt)
  else if str_in (String c EmptyString) ["["; "]"; "("; ")"; "{"; "}"; "|"]
       then None
  else Some (TAtom (Chr c)).

(** A backslash makes the next punctuation character a literal; escapes
    that name a class or a group ([\d], [\w], [\1], ...) are not read. *)
Fixpoint tokenize (s : string) : option (list token) :=
  match s with
  | EmptyString => Some []
  | String c s' =>
      if Ascii.eqb c "\" then
        match s' with
        | EmptyString => None
        | String c' s'' =>
            if is_alpha c' || is_digit c' then None
            else option_map (cons (TAtom (Chr c'))) (tokenize s'')
        end
      else
        match token_of c with
        | None => None
        | Some t => option_map (cons t) (tokenize s')
        end
  end.

(** An atom takes at most one postfix operator; [re] rejects an operator
    with nothing to repeat (at the start, after an anchor) and this reading
    leaves out a second operator (lazy and possessive forms). *)
Fixpoint build (ts : list token) : option regex :=
  match ts with
  | [] => Some Empty
  | TQuant _ :: _ => None
  | TAnchor a :: rest =>
      match rest with
      | TQuant _ :: _ => None
      | _ => option_map (Seq a) (build rest)
      end
  | TAtom a :: TQuant q :: rest =>
      match rest with
      | TQuant _ :: _ => None
      | _ => option_map (Seq (quantify q a)) (build rest)
      end
  | TAtom a :: rest => option_map (Seq a) (build rest)
  end.

Definition compile (pattern : string) : res regex :=
  match tokenize pattern with
  | None => Raise (ReError pattern)
  | Some ts =>
      match build ts with
      | None => Raise (ReError pattern)
      | Some r => Ok r
      end
  end.

(** ** Patterns supplied by the caller

    [compile] reads the part of the pattern language the module's own
    patterns are written in.  What [re] makes of any other pattern text
    (character classes, groups, alternation, counted and lazy repetition,
    class escapes, look-around, ...) is left open: for a pattern text, a
    [library] tells whether [re.compile] accepts it and, if so, what
    [pattern.search] answers on a subject. *)
Definition library : Type := string -> option (string -> bool).

Inductive pattern : Type :=
| Parsed (r : regex)
| Foreign (search : string -> bool).

(** [re.compile(tag)] for a pattern of the caller's. *)
Definition compile_tag (lib : library) (tag : string) : res pattern :=
  match compile tag with
  | Ok r => Ok (Parsed r)
  | Raise e =>
      match lib tag with
      | Some search => Ok (Foreign search)
      | None => Raise e
      end
  end.

(** [pattern.search(s)] as a truth value. *)
Definition pattern_search (p : pattern) (s : string) : bool :=
  match p with
  | Parsed r => re_search r s
  | Foreign search => search s
  end.

(** ** The patterns of [update_dataset], and what they accept *)

(** The pattern that reads the text [l] and goes on with [r]. *)
Fixpoint lit (l : string) (r : regex) : regex :=
  match l with
  | EmptyString => r
  | String c l' => Seq (Chr c) (lit l' r)
  end.

(** [^.+_qc_.+$], [^.+_qc_executed$] and [^.+_qc_results$] as [compile]
    reads them. *)
Definition qc_regex : regex :=
  Seq Bol (Seq (Plus AnyChar) (lit "_qc_" (Seq (Plus AnyChar) (Seq Eol Empty)))).
Definition executed_regex : regex :=
  Seq Bol (Seq (Plus AnyChar) (lit "_qc_executed" (Seq Eol Empty))).
Definition results_regex : regex :=
  Seq Bol (Seq (Plus AnyChar) (lit "_qc_results" (Seq Eol Empty))).

(** Greedy [.*] by recursion on the subject: after the longest run of
    characters other than newline first, then after shorter ones. *)
Fixpoint any_star (k : bool -> string -> option string) (b : bool) (s : string)
  : option string :=
  match s with
  | String c s' =>
      if Ascii.eqb c newline then k b s
      else or_else (any_star k false s') (k b s)
  | EmptyString => k b s
  end.

Fixpoint newline_free (s : string) : bool :=
  match s with
  | EmptyString => true
  | String c s' => negb (Ascii.eqb c newline) && newline_free s'
  end.

(** [x] is what is left of [s] from some position on. *)
Fixpoint is_suffix (x s : string) : bool :=
  String.eqb x s
  || match s with
     | String _ s' => is_suffix x s'
     | EmptyString => false
     end.

End Re.

(* ================================================================== *)
(** * xarray datasets                                                   *)
(* ================================================================== *)

(** A dataset is an ordered dictionary of named variables, each an
    n-dimensional array with named dimensions and attributes, a set of
    names marked as coordinates, and global attributes.  Every operation
    returns a new dataset, as in xarray. *)
Module Xr.
Import Py.
Local Open Scope string_scope.

(** Array elements.  [STime] is a [datetime64[ns]] value, nanoseconds since
    1970-01-01. *)
Inductive scalar : Type :=
| SInt (z : Z)
| SU8 (z : Z)
| STime (ns : Z)
| SFloat (f : spec_float)
| SStr (s : string).

Unset Elimination Schemes.
Inductive ndarray : Type :=
| Item (v : scalar)
| Arr (items : list ndarray).
Set Elimination Schemes.

Inductive attr : Type :=
| AStr (s : string)
| AArr (a : ndarray).

Record Var : Type := mkVar {
  dims : list string;
  values : ndarray;
  var_attrs : dict attr
}.

Record Dataset : Type := mkDs {
  variables : dict Var;
  coord_names : list string;
  attrs : dict attr
}.

Definition items_of (a : ndarray) : list ndarray :=
  match a with
  | Arr l => l
  | Item _ => []
  end.

(** [a[0]] on a numpy array. *)
Definition index0 (a : ndarray) : res ndarray :=
  match a with
  | Arr (x :: _) => Ok x
  | _ => Raise IndexError
  end.

Definition is_nan (v : scalar) : bool :=
  match v with
  | SFloat S754_nan => true
  | _ => false
  end.

Definition scalar_eqb (x y : scalar) : bool :=
  match x, y with
  | SInt a, SInt b | SU8 a, SU8 b | STime a, STime b
  | SInt a, SU8 b | SU8 a, SInt b => Z.eqb a b
  | SFloat a, SFloat b => SFeqb a b
  | SStr a, SStr b => String.eqb a b
  | _, _ => false
  end.

(** Element equality of [Variable.equals]: two missing values agree. *)
Definition equiv (x y : scalar) : bool :=
  scalar_eqb x y || (is_nan x && is_nan y).

(** Element equality of [Variable.no_conflicts]: a missing value agrees
    with anything. *)
Definition notnull_equiv (x y : scalar) : bool :=
  scalar_eqb x y || is_nan x || is_nan y.

Fixpoint array_all2 (eqv : scalar -> scalar -> bool) (a b : ndarray) {struct a} : bool :=
  match a, b with
  | Item x, Item y => eqv x y
  | Arr la, Arr lb =>
      (fix go (la lb : list ndarray) {struct la} : bool :=
         match la, lb with
         | [], [] => true
         | x :: la', y :: lb' => array_all2 eqv x y && go la' lb'
         | _, _ => false
         end) la lb
  | _, _ => false
  end.

(** [a.fillna(b)] on arrays of one shape. *)
Fixpoint fillna (a b : ndarray) {struct a} : ndarray :=
  match a, b with
  | Item x, Item y => if is_nan x then Item y else Item x
  | Arr la, Arr lb =>
      Arr ((fix go (la lb : list ndarray) {struct la} : list ndarray :=
              match la, lb with
              | x :: la', y :: lb' => fillna x y :: go la' lb'
              | _, _ => la
              end) la lb)
  | _, _ => a
  end.

Definition str_list_eqb (a b : list string) : bool :=
  if list_eq_dec string_dec a b then true else false.

Definition var_equals (v w : Var) : bool :=
  str_list_eqb (dims v) (dims w) && array_all2 equiv (values v) (values w).

Fixpoint opt_all {A : Type} (l : list (option A)) : option (list A) :=
  match l with
  | [] => Some []
  | Some x :: l' => option_map (cons x) (opt_all l')
  | None :: _ => None
  end.

(** [v] broadcast to the dimensions and shape of [o], when the dimensions
    of [v] appear among those of [o] in the same order. *)
Fixpoint broadcast_like (odims : list string) (o : ndarray)
         (vdims : list string) (v : ndarray) {struct odims} : option ndarray :=
  match odims with
  | [] => match vdims with [] => Some v | _ => None end
  | d :: odims' =>
      match o with
      | Item _ => None
      | Arr lo =>
          match vdims, v with
          | d' :: vdims', Arr lv =>
              if String.eqb d d' then
                if (List.length lo =? List.length lv)%nat
                then option_map Arr
                       (opt_all (map (fun ov => broadcast_like odims' (fst ov) vdims' (snd ov))
                                     (combine lo lv)))
                else None
              else option_map Arr
                     (opt_all (map (fun oi => broadcast_like odims' oi vdims v) lo))
          | _, _ =>
              option_map Arr
                (opt_all (map (fun oi => broadcast_like odims' oi vdims v) lo))
          end
      end
  end.

(** Apply [f] to the list of slices along dimension [d]. *)
Fixpoint along (d : string) (ds : list string)
         (f : list ndarray -> list ndarray) (a : ndarray) {struct ds} : ndarray :=
  match ds, a with
  | x :: ds', Arr l =>
      if String.eqb x d then Arr (f l) else Arr (map (along d ds' f) l)
  | _, _ => a
  end.

(** Length of [a] along dimension [d]. *)
Fixpoint size_along (d : string) (ds : list string) (a : ndarray) {struct ds} : option nat :=
  match ds, a with
  | x :: ds', Arr l =>
      if String.eqb x d then Some (List.length l)
      else match l with
           | y :: _ => size_along d ds' y
           | [] => Some O
           end
  | _, _ => None
  end.

(** [ds.dims[d]]: the length of dimension [d], read off the first variable
    that has it. *)
Fixpoint dim_size_in (d : string) (vars : dict Var) : option nat :=
  match vars with
  | [] => None
  | (_, v) :: vars' =>
      if str_in d (dims v) then size_along d (dims v) (values v)
      else dim_size_in d vars'
  end.
Definition dim_size (d : string) (ds : Dataset) : option nat :=
  dim_size_in d (variables ds).

Definition has_dim (d : string) (ds : Dataset) : bool :=
  existsb (fun kv => str_in d (dims (snd kv))) (variables ds).

Definition add_name (k : string) (l : list string) : list string :=
  if str_in k l then l else (l ++ [k])%list.

(** [ds[k]] *)
Definition getvar (k : string) (ds : Dataset) : res Var :=
  getitem k (variables ds).

Definition set_var (k : string) (v : Var) (ds : Dataset) : Dataset :=
  mkDs (set k v (variables ds)) (coord_names ds) (attrs ds).

Definition set_attrs (a : dict attr) (ds : Dataset) : Dataset :=
  mkDs (variables ds) (coord_names ds) a.

(** [ds[k].attrs[a] = x] *)
Definition set_var_attr (k a : string) (x : attr) (ds : Dataset) : res Dataset :=
  rbind (getvar k ds) (fun v =>
  Ok (set_var k (mkVar (dims v) (values v) (set a x (var_attrs v))) ds)).

(** [ds[k].attrs = d] *)
Definition replace_var_attrs (k : string) (d : dict attr) (ds : Dataset) : res Dataset :=
  rbind (getvar k ds) (fun v => Ok (set_var k (mkVar (dims v) (values v) d) ds)).

(** ** Dataset methods *)

(** The variable with dimension [old] renamed to [new]. *)
Definition rename_dim (old new : string) (v : Var) : Var :=
  mkVar (map (fun d => if String.eqb d old then new else d) (dims v))
        (values v) (var_attrs v).

(** [ds.swap_dims({old: new})] *)
Definition swap_dims (old new : string) (ds : Dataset) : res Dataset :=
  if negb (has_dim old ds)
  then Raise (ValueError "cannot swap from a dimension that does not exist")
  else
    rbind (getvar new ds) (fun v =>
    if str_list_eqb (dims v) [old] then
      Ok (mkDs
            (map (fun kv => (fst kv, rename_dim old new (snd kv))) (variables ds))
            (add_name new (coord_names ds))
            (attrs ds))
    else Raise (ValueError "replacement dimension is not a 1D variable along the old dimension")).

(** [ds.drop(names)]: every name must be a variable of the dataset. *)
Definition drop (names : list string) (ds : Dataset) : res Dataset :=
  if forallb (fun n => mem n (variables ds)) names then
    Ok (mkDs (filter (fun kv => negb (str_in (fst kv) names)) (variables ds))
             (filter (fun c => negb (str_in c names)) (coord_names ds))
             (attrs ds))
  else Raise (ValueError "One or more of the specified variables cannot be found in this dataset").

(** The sort key of an element: integers and timestamps. *)
Definition sort_key (a : ndarray) : option Z :=
  match a with
  | Item (STime z) | Item (SInt z) | Item (SU8 z) => Some z
  | _ => None
  end.

Fixpoint insert_key (x : Z * nat) (l : list (Z * nat)) : list (Z * nat) :=
  match l with
  | [] => [x]
  | y :: l' => if (fst x <=? fst y)%Z then x :: l else y :: insert_key x l'
  end.

(** [np.lexsort] on one key: the positions in ascending key order, equal
    keys in their original order. *)
Definition sort_pairs (l : list (Z * nat)) : list (Z * nat) :=
  fold_right insert_key [] l.
Definition argsort (keys : list Z) : list nat :=
  map snd (sort_pairs (combine keys (seq 0 (List.length keys)))).

(** The order the keyed positions are sorted by. *)
Definition le_key (a b : Z * nat) : Prop := (fst a <= fst b)%Z.

(** [a[order]] along the first axis. *)
Definition take (order : list nat) (l : list ndarray) : list ndarray :=
  map (fun i => nth i l (Arr [])) order.

(** [v.isel(key=order)]: [v] reordered along dimension [key]. *)
Definition isel (key : string) (order : list nat) (v : Var) : Var :=
  mkVar (dims v) (along key (dims v) (take order) (values v)) (var_attrs v).

(** The sort keys a variable holds along its first axis. *)
Definition var_keys (v : Var) : option (list Z) :=
  opt_all (map sort_key (items_of (values v))).

(** The time coordinate of a dataset as integers (nanoseconds). *)
Definition time_keys (ds : Dataset) : option (list Z) :=
  match get "time" (variables ds) with
  | Some v => var_keys v
  | None => None
  end.




(** Dataset [ds] holds variable [k] along time and then along [rest], as
    the array of the rows [items]: each row is one value for a plain
    column, an array over [rest] otherwise. *)
Definition rows_of (k : string) (rest : list string) (ds : Dataset)
           (items : list ndarray) : Prop :=
  exists v, get k (variables ds) = Some v /\ dims v = "time" :: rest /\
            values v = Arr items.


(** [ds.sortby(name)]: the key must be a 1-D variable; every variable is
    reordered along the key's dimension. *)
Definition sortby (name : string) (ds : Dataset) : res Dataset :=
  rbind (getvar name ds) (fun v =>
  match dims v with
  | [key] =>
      match var_keys v with
      | Some keys =>
          let order := argsort keys in
          Ok (mkDs
                (map (fun kv => (fst kv, isel key order (snd kv))) (variables ds))
                (coord_names ds)
                (attrs ds))
      | None => Raise (ValueError "sort key is not an array of integers or timestamps")
      end
  | _ => Raise (ValueError "Input DataArray is not 1-D.")
  end).

(** *** [xr.concat(frames, d)] with the defaults [data_vars='all'],
    [coords='different'].  Dimensions other than [d] are taken to carry no
    index, so that aligning the frames changes nothing. *)

(** [ds.dims.get(d, 1)] *)
Definition frame_len (d : string) (ds : Dataset) : nat :=
  match dim_size d ds with
  | Some n => n
  | None => 1%nat
  end.

(** A variable without dimension [d] is repeated along a new leading [d]. *)
Definition with_dim (d : string) (n : nat) (v : Var) : Var :=
  if str_in d (dims v) then v
  else mkVar (d :: dims v) (Arr (repeat (values v) n)) (var_attrs v).

(** Two arrays joined along dimension [d]. *)
Fixpoint concat_arrays (d : string) (ds : list string) (a b : ndarray)
         {struct ds} : option ndarray :=
  match ds, a, b with
  | x :: ds', Arr la, Arr lb =>
      if String.eqb x d then Some (Arr (la ++ lb)%list)
      else if (List.length la =? List.length lb)%nat
           then option_map Arr
                  (opt_all (map (fun ab => concat_arrays d ds' (fst ab) (snd ab))
                                (combine la lb)))
           else None
  | _, _, _ => None
  end.

Definition concat_vars (d : string) (acc w : Var) : res Var :=
  if str_list_eqb (dims acc) (dims w) then
    match concat_arrays d (dims acc) (values acc) (values w) with
    | Some a => Ok (mkVar (dims acc) a (var_attrs acc))
    | None => Raise (ValueError "arrays to concatenate differ in shape")
    end
  else Raise (ValueError "inconsistent dimensions").

(** Is variable [k] of the first frame stacked along [d]?  It is when some
    frame has it along [d], when it is a data variable, or when it is a
    coordinate whose value differs in a later frame. *)
Definition concat_over (d : string) (first : Dataset) (others : list Dataset)
           (k : string) (v : Var) : res bool :=
  if existsb (fun ds => match get k (variables ds) with
                        | Some w => str_in d (dims w)
                        | None => false
                        end) (first :: others)
  then Ok true
  else if String.eqb k d then Ok true
  else if negb (str_in k (coord_names first)) then Ok (negb (has_dim k first))
  else
    rfold (fun differs ds =>
             if differs : bool then Ok true
             else rbind (getvar k ds) (fun w => Ok (negb (var_equals v w))))
          others false.

(** The names some frame holds along [d]: all of them are stacked. *)
Definition along_dim (d : string) (frames : list Dataset) : list string :=
  List.concat
    (map (fun ds => map fst (filter (fun kv => str_in d (dims (snd kv))) (variables ds)))
         frames).

(** The checks on the variables of a later frame.  A name the first frame
    lacks passes when it is among the stacked names [over], which is the
    case as soon as some frame holds it along the concatenation
    dimension. *)
Definition check_frame (first : Dataset) (over : list string) (ds : Dataset) : res unit :=
  rfold (fun _ kv =>
           let k := fst kv in
           if negb (mem k (variables first)) && negb (str_in k over)
           then Raise (ValueError "encountered unexpected variable")
           else if negb (Bool.eqb (str_in k (coord_names first)) (str_in k (coord_names ds)))
           then Raise (ValueError "coordinate in some datasets but not others")
           else Ok tt)
        (variables ds) tt.

(** One stacked variable: the frames' variables, each brought to the
    common dimensions, joined in frame order. *)
Definition stack (d : string) (first : Dataset) (others : list Dataset)
           (k : string) (v : Var) : res Var :=
  rfold (fun acc ds =>
           rbind (getvar k ds) (fun w =>
           concat_vars d acc (with_dim d (frame_len d ds) w)))
        others (with_dim d (frame_len d first) v).

(** The result is built from the variables of the first frame.  A name
    that only later frames hold along [d] passes the checks and is left
    out, as in the releases of xarray up to 2022 (later ones keep it, with
    missing values for the frames without it); a stacked name that a later
    frame lacks is an error. *)
Definition concat (frames : list Dataset) (d : string) : res Dataset :=
  match frames with
  | [] => Raise (ValueError "must supply at least one object to concatenate")
  | first :: others =>
      rbind (rmap (fun kv => rbind (concat_over d first others (fst kv) (snd kv))
                                   (fun b => Ok (fst kv, b)))
                  (variables first)) (fun flags =>
      let over := (map fst (filter snd flags) ++ along_dim d (first :: others))%list in
      rbind (rfold (fun _ ds => check_frame first over ds) others tt) (fun _ =>
      rbind (rmap (fun kv => rbind (stack d first others (fst kv) (snd kv))
                                   (fun w => Ok (fst kv, w)))
                  (filter (fun kv => str_in (fst kv) over) (variables first)))
            (fun stacked =>
      Ok (mkDs (filter (fun kv => negb (str_in (fst kv) over)) (variables first)
                ++ stacked)%list
               (coord_names first)
               (attrs first)))))
  end.

(** [ds.coords[k] = x] for a scalar [x]. *)
Definition set_scalar_coord (k : string) (x : scalar) (ds : Dataset) : Dataset :=
  mkDs (set k (mkVar [] (Item x) []) (variables ds))
       (add_name k (coord_names ds))
       (attrs ds).

(** [ds.expand_dims(d)]: a scalar coordinate [d] becomes the index of the
    new dimension, coordinates are left alone, every data variable gets
    the new dimension in front. *)
Definition expand_dims (d : string) (ds : Dataset) : res Dataset :=
  if has_dim d ds then Raise (ValueError "Dimension already exists.")
  else if match get d (variables ds) with
          | Some v => match dims v with [] => false | _ => true end
          | None => false
          end
  then Raise (ValueError "already exists as coordinate or variable name.")
  else
    Ok (mkDs
          (map (fun kv =>
                  let v := snd kv in
                  if String.eqb (fst kv) d
                  then (fst kv, mkVar [d] (Arr [values v]) (var_attrs v))
                  else if str_in (fst kv) (coord_names ds) then kv
                  else (fst kv, mkVar (d :: dims v) (Arr [values v]) (var_attrs v)))
               (variables ds))
          (coord_names ds)
          (attrs ds)).

(** *** [ds.merge(other)] with the default [compat='no_conflicts'] *)

Definition is_index (k : string) (v : Var) : bool := str_list_eqb (dims v) [k].

(** The variable kept for a name both datasets have. *)
Definition merge_var (k : string) (out var : Var) : res Var :=
  if is_index k out && is_index k var then
    if var_equals out var then Ok out else Raise (MergeError k)
  else if is_index k out then Ok out
  else if is_index k var then Ok var
  else
    match broadcast_like (dims out) (values out) (dims var) (values var) with
    | Some b =>
        if array_all2 notnull_equiv (values out) b
        then Ok (mkVar (dims out) (fillna (values out) b) (var_attrs var))
        else Raise (MergeError k)
    | None => Raise (ValueError "operands could not be broadcast together")
    end.

Definition is_data_var (k : string) (ds : Dataset) : bool :=
  mem k (variables ds) && negb (str_in k (coord_names ds)).

Definition merge (ds other : Dataset) : res Dataset :=
  if existsb (fun c => is_data_var c other) (coord_names ds)
     || existsb (fun c => is_data_var c ds) (coord_names other)
  then Raise (MergeError "unable to determine if these variables should be coordinates or not")
  else
    rbind (rmap (fun kv =>
                   match get (fst kv) (variables other) with
                   | Some w => rbind (merge_var (fst kv) (snd kv) w)
                                     (fun m => Ok (fst kv, m))
                   | None => Ok kv
                   end) (variables ds)) (fun merged =>
    Ok (mkDs (merged ++ filter (fun kv => negb (mem (fst kv) (variables ds)))
                               (variables other))%list
             (fold_right add_name (coord_names ds) (rev (coord_names other)))
             (attrs ds))).

(** [ds[k] = (dims, data)]: the new variable must agree with the lengths
    the other variables give its dimensions. *)
Definition sizes_agree (k : string) (v : Var) (ds : Dataset) : bool :=
  forallb (fun d =>
             forallb (fun kw =>
                        String.eqb (fst kw) k
                        || negb (str_in d (dims (snd kw)))
                        || match size_along d (dims v) (values v),
                                 size_along d (dims (snd kw)) (values (snd kw)) with
                           | Some n, Some m => (n =? m)%nat
                           | _, _ => false
                           end)
                     (variables ds))
          (dims v).

Definition setitem (k : string) (v : Var) (ds : Dataset) : res Dataset :=
  if sizes_agree k v ds then Ok (set_var k v ds)
  else Raise (ValueError "conflicting sizes for dimension").

(** [np.uint8(x)] for a numpy scalar [x]. *)
Definition np_uint8 (x : ndarray) : res ndarray :=
  match x with
  | Item (SInt z) | Item (SU8 z) => Ok (Item (SU8 (z mod 256)))
  | Item (SFloat f) =>
      match F64.trunc f with
      | Some z => Ok (Item (SU8 (z mod 256)))
      | None => Ok (Item (SU8 0))
      end
  | _ => Raise (ValueError "value cannot be converted to uint8")
  end.

(** [a.astype(float)] for one element. *)
Definition as_float (x : ndarray) : res spec_float :=
  match x with
  | Item (SInt z) | Item (SU8 z) | Item (STime z) => Ok (F64.of_int z)
  | Item (SFloat f) => Ok f
  | _ => Raise (ValueError "could not convert to float")
  end.

End Xr.

(* ================================================================== *)
(** * [common.py]                                                       *)
(* ================================================================== *)

Module Common.
Import Py Re Xr.
Local Open Scope string_scope.

(** ** The outside world: OOINet, the THREDDS catalog, the OPeNDAP server *)

(** A JSON object, as far as the module reads it: keys to lists of text. *)
Definition Json : Type := dict (list string).

(** An [<a>] element of a parsed page: its [href] attribute and its
    [.string] (absent unless the element has exactly one text child). *)
Record Anchor : Type := mkAnchor {
  href : option string;
  text : option string
}.

Inductive Body : Type :=
| JsonBody (j : Json)
| HtmlBody (anchors : list Anchor)
| PlainBody.

Record Response : Type := mkResponse {
  status_code : Z;
  body : Body
}.

(** [requests.codes.ok] *)
Definition codes_ok : Z := 200.

(** What the servers answer: [respond n url] is the answer to a GET of
    [url] sent after [n] earlier requests; [opendap url] is the dataset
    served at [url], if any. *)
Record Remote : Type := mkRemote {
  respond : nat -> string -> Response;
  opendap : string -> option Dataset
}.

Inductive message : Type :=
| Waiting
| Completed (elapsed : spec_float).

Inductive event : Type :=
| Get (url : string)
| Open (url : string)
| Sleep (seconds : Z)
| Print (msg : message)
| BarUpdate (n : Z)
| BarFinish.

(** The requests sent so far and everything done to the world, latest
    first. *)
Record State : Type := mkState {
  sent : nat;
  log : list event
}.

Definition M (A : Type) : Type := State -> res A * State.

Definition ret {A : Type} (a : A) : M A := fun st => (Ok a, st).
Definition raise {A : Type} (e : exn) : M A := fun st => (Raise e, st).
Definition lift {A : Type} (m : res A) : M A := fun st => (m, st).
Definition bind {A B : Type} (m : M A) (f : A -> M B) : M B :=
  fun st =>
    match m st with
    | (Ok a, st') => f a st'
    | (Raise e, st') => (Raise e, st')
    end.
Definition emit (e : event) : M unit :=
  fun st => (Ok tt, mkState (sent st) (e :: log st)).

Declare Scope io_scope.
Delimit Scope io_scope with io.
Notation "x <- m ;; k" := (bind m (fun x => k))
  (at level 61, m at next level, right associativity) : io_scope.
Notation "m ;; k" := (bind m (fun _ => k))
  (at level 61, right associativity) : io_scope.

Declare Scope res_scope.
Delimit Scope res_scope with res.
Notation "x <- m ;; k" := (rbind m (fun x => k))
  (at level 61, m at next level, right associativity) : res_scope.
Notation "m ;; k" := (rbind m (fun _ => k))
  (at level 61, right associativity) : res_scope.

Fixpoint mapM {A B : Type} (f : A -> M B) (l : list A) : M (list B) :=
  match l with
  | [] => ret []
  | x :: l' => (y <- f x ;; ys <- mapM f l' ;; ret (y :: ys))%io
  end.

Section WithRemote.
Variable remote : Remote.
Variable lib : library.

(** [requests.get(url)] *)
Definition requests_get (url : string) : M Response :=
  fun st => (Ok (respond remote (sent st) url),
             mkState (S (sent st)) (Get url :: log st)).

(** [xr.open_dataset(url, cache=False)] followed by [.load()] *)
Definition open_dataset (url : string) : M Dataset :=
  fun st =>
    (match opendap remote url with
     | Some ds => Ok ds
     | None => Raise (IOError url)
     end,
     mkState (sent st) (Open url :: log st)).

(** [r.json()] *)
Definition json (r : Response) : res Json :=
  match body r with
  | JsonBody j => Ok j
  | _ => Raise (ValueError "No JSON object could be decoded")
  end.

(** [BeautifulSoup(r.text, 'html.parser').find_all('a')] *)
Definition find_all_a (r : Response) : list Anchor :=
  match body r with
  | HtmlBody anchors => anchors
  | _ => []
  end.

(** [l[i]] *)
Definition list_index {A : Type} (l : list A) (i : nat) : res A :=
  match nth_error l i with
  | Some x => Ok x
  | None => Raise IndexError
  end.

Definition BASE_URL : string := "https://ooinet.oceanobservatories.org/api/m2m/".
Definition SENSOR_URL : string := "12576/sensor/inv/".

(** ** [m2m_request] *)

(** [begin_date + end_date + '&format=application/netcdf'].  A [None] and an
    empty text are both false for [if start:]. *)
Definition request_options (start stop : option string) : string :=
  let begin_date :=
    match start with
    | Some s => if String.eqb s "" then "?beginDT=0" else "?beginDT=" ++ s
    | None => "?beginDT=0"
    end in
  let end_date :=
    match stop with
    | Some s => if String.eqb s "" then "" else "&endDT=" ++ s
    | None => ""
    end in
  begin_date ++ end_date ++ "&format=application/netcdf".

(** [for i in range(200): ...] with [n] iterations left, [i] the loop
    index and [elapsed] the local variable of that name, unbound until the
    first assignment. *)
Fixpoint poll (check_complete : string) (n : nat) (i : Z)
         (elapsed : option spec_float) {struct n} : M unit :=
  match n with
  | O => ret tt
  | S n' =>
      (r <- requests_get check_complete ;;
       emit (BarUpdate 1) ;;
       if (status_code r =? codes_ok)%Z then
         emit BarFinish ;;
         match elapsed with
         | Some e => emit (Print (Completed e))
         | None => raise (UnboundLocalError "elapsed")
         end
       else
         emit (Sleep 3) ;;
         poll check_complete n' (i + 1)%Z
              (Some (F64.div (F64.of_int (i * 3)) (F64.of_int 60))))%io
  end.

(** The address of the export request. *)
Definition request_url (site node sensor method stream : string)
           (start stop : option string) : string :=
  let options := request_options start stop in
  BASE_URL ++ SENSOR_URL ++ site ++ "/" ++ node ++ "/" ++ sensor
  ++ "/" ++ method ++ "/" ++ stream ++ options.

Definition m2m_request (site node sensor method stream : string)
           (start stop : option string) : M (option Json) :=
  (r <- requests_get (request_url site node sensor method stream start stop) ;;
   if (status_code r =? codes_ok)%Z then
     data <- lift (json r) ;;
     emit (Print Waiting) ;;
     check_complete <- lift (urls <- getitem "allURLs" data ;;
                             u <- list_index urls 1 ;;
                             Ok (u ++ "/status.txt"))%res ;;
     poll check_complete 200 0%Z None ;;
     ret (Some data)
   else ret None)%io.

(** ** [list_files] *)

(** An anchor is kept when it has a [.string] and the pattern finds a
    match in it; one without a [.string] is never kept. *)
Definition list_files (url tag : string) : M (list (option string)) :=
  (page <- requests_get url ;;
   let soup := find_all_a page in
   pattern <- lift (compile_tag lib tag) ;;
   ret (map href
            (filter (fun node => match text node with
                                 | Some t => pattern_search pattern t
                                 | None => false
                                 end) soup)))%io.

(** ** [process_file] *)

Definition dods_url : string := "https://opendap.oceanobservatories.org/thredds/dodsC/".

Definition bookkeeping : list string :=
  ["obs"; "id"; "driver_timestamp"; "ingestion_timestamp"; "port_timestamp";
   "preferred_timestamp"].

Definition stale_keys : list string :=
  ["DODS.strlen"; "DODS.dimName"; "DODS_EXTRA.Unlimited_Dimension"; "_NCProperties";
   "feature_Type"].

(** The assignments to [ds.attrs] at the end of [process_file]. *)
Definition file_attrs (a : dict attr) : dict attr :=
  let a := set "cdm_data_type" (AStr "Station") a in
  let a := set "featureType" (AStr "timeSeries") a in
  let a := fold_left (fun a key => if mem key a then del key a else a) stale_keys a in
  let a := set "acknowledgement" (AStr "National Science Foundation") a in
  let a := set "comment"
             (AStr "Data collected from the OOI M2M API and reworked for use in locally stored NetCDF files.") a in
  let a := set "publisher_email" (AStr "ooice.platforms@gmail.com") a in
  set "creator_email" (AStr "ooice.platforms@gmail.com") a.

(** The href of an anchor without that attribute is [None], which [re.sub]
    refuses. *)
Definition process_file (catalog_file : option string) : M Dataset :=
  match catalog_file with
  | None => raise (TypeError "expected string or bytes-like object")
  | Some f =>
      (pat <- lift (compile "catalog.html\?dataset=") ;;
       let url := re_sub pat dods_url f in
       xrd <- open_dataset url ;;
       lift (ds <- swap_dims "obs" "time" xrd ;;
             ds <- drop bookkeeping ds ;;
             ds <- sortby "time" ds ;;
             Ok (set_attrs (file_attrs (attrs ds)) ds))%res)%io
  end.

(** ** [m2m_collect] *)

Definition m2m_collect (data : Json) (tag : string) : M Dataset :=
  (url <- lift (urls <- getitem "allURLs" data ;; list_index urls 0)%res ;;
   files <- list_files url tag ;;
   frames <- mapM process_file files ;;
   m2m <- lift (concat frames "time") ;;
   lift (sortby "time" m2m))%io.


End WithRemote.

(** ** [dt64_epoch] *)

(** [dt64.values.astype(float) / 10.0 ** 9], element by element. *)
Definition dt64_epoch (dt64 : Var) : res (list spec_float) :=
  rmap (fun x => (f <- as_float x ;; Ok (F64.div f F64.ten_pow_9))%res)
       (items_of (values dt64)).

(** ** [update_dataset] *)

Definition geo_attrs (subsite : string) : dict (dict attr) :=
  [("station", [("cf_role", AStr "timeseries_id");
                ("long_name", AStr "Station Identifier");
                ("comment", AStr subsite)]);
   ("lon", [("long_name", AStr "Longitude");
            ("standard_name", AStr "longitude");
            ("units", AStr "degrees_east");
            ("axis", AStr "X");
            ("comment", AStr "Deployment location")]);
   ("lat", [("long_name", AStr "Latitude");
            ("standard_name", AStr "latitude");
            ("units", AStr "degrees_north");
            ("axis", AStr "Y");
            ("comment", AStr "Deployment location")]);
   ("z", [("long_name", AStr "Depth");
          ("standard_name", AStr "depth");
          ("units", AStr "m");
          ("comment", AStr "Instrument deployment depth");
          ("positive", AStr "down");
          ("axis", AStr "Z")])].

(** [ds.attrs[k].upper()] *)
Definition attr_upper (k : string) (ds : Dataset) : res string :=
  (a <- getitem k (attrs ds) ;;
   match a with
   | AStr s => Ok (upper s)
   | AArr _ => Raise (AttributeError "upper")
   end)%res.

(** [ds.<name>.values[0][0]] *)
Definition first_value (name : string) (ds : Dataset) : res ndarray :=
  match get name (variables ds) with
  | None => Raise (AttributeError name)
  | Some v => (row <- index0 (values v) ;; index0 row)%res
  end.

(** The value of a global attribute as an array element. *)
Definition attr_value (a : attr) : ndarray :=
  match a with
  | AStr s => Item (SStr s)
  | AArr x => x
  end.

(** [('station', [x])]: one value along the station dimension. *)
Definition station_var (x : ndarray) (a : dict attr) : res Var :=
  match x with
  | Item _ => Ok (mkVar ["station"] (Arr [x]) a)
  | Arr _ => Raise (ValueError "dimensions must have the same length as the number of data dimensions")
  end.

(** [xr.Dataset({'lat': ..., 'lon': ..., 'z': ...}, coords={'station': [0]})]
    with the attributes of [geo_attrs] attached. *)
Definition geo_coords (subsite : string) (lat lon depth : ndarray) : res Dataset :=
  (let ga := geo_attrs subsite in
   a_lat <- getitem "lat" ga ;;
   a_lon <- getitem "lon" ga ;;
   a_z <- getitem "z" ga ;;
   a_station <- getitem "station" ga ;;
   v_lat <- station_var lat a_lat ;;
   v_lon <- station_var lon a_lon ;;
   v_z <- station_var depth a_z ;;
   Ok (mkDs [("lat", v_lat); ("lon", v_lon); ("z", v_z);
             ("station", mkVar ["station"] (Arr [Item (SInt 0)]) a_station)]
            ["station"] []))%res.

Definition flag_masks : ndarray :=
  Arr (map (fun z => Item (SU8 z)) [1; 2; 4; 8; 16; 32; 64; 128]%Z).

Definition executed_meanings : string :=
  "global_range_test local_range_test spike_test poly_trend_test " ++
  "stuck_value_test gradient_test propogate_flags".

Definition results_meanings : string :=
  "global_range_test_passed local_range_test_passed spike_test_passed " ++
  "poly_trend_test_passed stuck_value_test_passed gradient_test_passed " ++
  "all_tests_passed".

(** The attributes shared by the two kinds of QC variable: masks, meanings,
    comment, the back-reference and the derived standard name. *)
Definition qc_flags (v meanings comment suffix_pattern standard_suffix : string)
           (ds : Dataset) : res Dataset :=
  (ds <- set_var_attr v "flag_masks" (AArr flag_masks) ds ;;
   ds <- set_var_attr v "flag_meanings" (AStr meanings) ds ;;
   ds <- set_var_attr v "comment" (AStr comment) ds ;;
   pat <- compile suffix_pattern ;;
   let ancillary := re_sub pat "" v in
   ds <- set_var_attr v "ancillary_variables" (AStr ancillary) ds ;;
   anc <- getvar ancillary ds ;;
   match get "standard_name" (var_attrs anc) with
   | Some (AStr sn) => set_var_attr v "standard_name" (AStr (sn ++ standard_suffix)) ds
   | Some (AArr _) => Raise (TypeError "unsupported operand type(s) for +")
   | None => Ok ds
   end)%res.

(** The body of the loop over the QC variables. *)
Definition update_qc (qc_pattern executed_pattern results_pattern : regex)
           (ds : Dataset) (v : string) : res Dataset :=
  if re_match qc_pattern v then
    (var <- getvar v ds ;;
     row <- index0 (values var) ;;
     match row with
     | Item _ => Raise (TypeError "object is not iterable")
     | Arr xs =>
         bytes <- rmap np_uint8 xs ;;
         ds <- setitem v (mkVar ["station"; "time"] (Arr [Arr bytes]) []) ds ;;
         p_title <- compile "_" ;;
         p_qc <- compile "Qc" ;;
         ds <- set_var_attr v "long_name"
                 (AStr (re_sub p_qc "QC" (re_sub p_title " " (title v)))) ds ;;
         ds <- (if re_match executed_pattern v then
                  qc_flags v executed_meanings
                    "Automated QC tests executed for the associated named variable."
                    "_qc_executed" " qc_tests_executed" ds
                else Ok ds) ;;
         if re_match results_pattern v then
           qc_flags v results_meanings
             ("QC result flags are set to true (1) if the test passed. Otherwise, if " ++
              "the test failed or was not executed, the flag is set to false (0).")
             "_qc_results" " qc_tests_results" ds
         else Ok ds
     end)%res
  else Ok ds.

(** The two attributes the [*_qc_executed] variables are to carry. *)
Definition executed_flags (var : Var) : Prop :=
  get "flag_masks" (var_attrs var) = Some (AArr flag_masks) /\
  get "flag_meanings" (var_attrs var) = Some (AStr executed_meanings).

(** Variable [v] of [ds] carries them. *)
Definition flagged (ds : Dataset) (v : string) : Prop :=
  exists var, get v (variables ds) = Some var /\ executed_flags var.

(** [ds'] has the variables of [ds], changed at most at [v]. *)
Definition only_at (v : string) (ds ds' : Dataset) : Prop :=
  (forall k, k <> v -> get k (variables ds') = get k (variables ds)) /\
  keys (variables ds') = keys (variables ds).

(** [ds'] has the variables of [ds], apart from attributes. *)
Definition same_shapes (ds ds' : Dataset) : Prop :=
  forall k v, get k (variables ds) = Some v ->
    exists v', get k (variables ds') = Some v' /\ dims v' = dims v /\
               values v' = values v.

(** Variable [v] of [ds] has attribute [a] set to [x]. *)
Definition has_attr (v a : string) (x : attr) (ds : Dataset) : Prop :=
  exists var, get v (variables ds) = Some var /\ get a (var_attrs var) = Some x.

Definition time_attrs : dict attr :=
  [("long_name", AStr "Time");
   ("standard_name", AStr "time");
   ("units", AStr "seconds since 1970-01-01 00:00:00 0:00");
   ("axis", AStr "T");
   ("calendar", AStr "gregorian")].

(** The latitude and longitude, from the variables [lat] and [lon] if the
    dataset has a variable [lat], else from the global attributes, and the
    dataset to go on with.  The dataset returned by [ds.drop] is not kept:
    [drop] only checks that both names are variables. *)
Definition locate (ds : Dataset) : res (ndarray * ndarray * Dataset) :=
  (if mem "lat" (variables ds) then
     lat <- first_value "lat" ds ;;
     lon <- first_value "lon" ds ;;
     drop ["lat"; "lon"] ds ;;
     Ok (lat, lon, ds)
   else
     lat <- getitem "lat" (attrs ds) ;;
     lon <- getitem "lon" (attrs ds) ;;
     Ok (attr_value lat, attr_value lon,
         set_attrs (del "lon" (del "lat" (attrs ds))) ds))%res.

Definition update_dataset (ds : Dataset) (depth : scalar) : res Dataset :=
  (let ds := set_scalar_coord "station" (SInt 0) ds in
   ds <- expand_dims "station" ds ;;
   subsite <- attr_upper "subsite" ds ;;
   station_attrs <- getitem "station" (geo_attrs subsite) ;;
   ds <- replace_var_attrs "station" station_attrs ds ;;
   located <- locate ds ;;
   let lat := fst (fst located) in
   let lon := snd (fst located) in
   let ds := snd located in
   subsite <- attr_upper "subsite" ds ;;
   geo <- geo_coords subsite lat lon (Item depth) ;;
   ds <- merge ds geo ;;
   ds <- rfold (fun ds v =>
                  if str_in v ["time"; "lat"; "lon"; "z"; "station"] then Ok ds
                  else set_var_attr v "coordinates" (AStr "time lon lat z") ds)
               (keys (variables ds)) ds ;;
   ds <- set_var_attr "deployment" "long_name" (AStr "Deployment Number") ds ;;
   qc_pattern <- compile "^.+_qc_.+$" ;;
   executed_pattern <- compile "^.+_qc_executed$" ;;
   results_pattern <- compile "^.+_qc_results$" ;;
   ds <- rfold (update_qc qc_pattern executed_pattern results_pattern)
               (keys (variables ds)) ds ;;
   time <- getvar "time" ds ;;
   match dims time with
   | [_] =>
       epts <- dt64_epoch time ;;
       ds <- setitem "time" (mkVar ["time"] (Arr (map (fun f => Item (SFloat f)) epts)) []) ds ;;
       replace_var_attrs "time" time_attrs ds
   | _ => Raise (ValueError "cannot set variable without explicit dimension names")
   end)%res.

End Common.

(* ================================================================== *)
(** * Traces of the polling loop                                        *)
(* ================================================================== *)

Module Trace.
Import Py Common.
Local Open Scope string_scope.

(** What one failed status check adds to the log (latest first): the GET,
    the progress bar, the three-second sleep. *)
Definition failed_round (url : string) : list event :=
  [Sleep 3; BarUpdate 1; Get url].

Fixpoint rounds (url : string) (m : nat) : list event :=
  match m with
  | O => []
  | S m' => (failed_round url ++ rounds url m')%list
  end.

(** [elapsed = (i * 3) / 60] *)
Definition elapsed_at (i : Z) : spec_float :=
  F64.div (F64.of_int (i * 3)) (F64.of_int 60).

(** The local variable [elapsed] after [m] failed checks starting at
    index [i]. *)
Definition elapsed_after (m : nat) (i : Z) (elapsed : option spec_float)
  : option spec_float :=
  match m with
  | O => elapsed
  | S m' => Some (elapsed_at (i + Z.of_nat m'))
  end.

(** The successful check: result and log entries, by whether [elapsed] is
    bound. *)
Definition finish (url : string) (elapsed : option spec_float)
  : res unit * list event :=
  match elapsed with
  | Some e => (Ok tt, [Print (Completed e); BarFinish; BarUpdate 1; Get url])
  | None => (Raise (UnboundLocalError "elapsed"), [BarFinish; BarUpdate 1; Get url])
  end.

(** Does the request numbered [n], sent to [url], get a success status? *)
Definition ready (remote : Remote) (url : string) (n : nat) : bool :=
  (status_code (respond remote n url) =? codes_ok)%Z.

Definition count_gets (url : string) (l : list event) : nat :=
  List.length (filter (fun e => match e with
                                | Get u => String.eqb u url
                                | _ => false
                                end) l).

Definition count_sleeps (l : list event) : nat :=
  List.length (filter (fun e => match e with
                                | Sleep 3 => true
                                | _ => false
                                end) l).

End Trace.

(* ================================================================== *)
(** * Sample worlds and datasets                                        *)
(* ================================================================== *)

Module Fixtures.
Import Py Xr Common.
Local Open Scope string_scope.

(** The time coordinate holding the timestamps [ts]. *)
Definition time_var (ts : list Z) : Var :=
  mkVar ["time"] (Arr (map (fun t => Item (STime t)) ts)) [].

Definition descriptor : Json :=
  [("allURLs", ["https://thredds/catalog.html"; "https://async/job42"])].

Definition status_url : string := "https://async/job42/status.txt".

(** OOINet accepts every export request; the status file appears at the
    request numbered [k] (the export request is number 0), never if [k]
    is [None]. *)
Definition ooinet (k : option nat) : Remote :=
  mkRemote
    (fun n url =>
       if String.eqb url status_url then
         match k with
         | Some k' => if (k' <=? n)%nat then mkResponse 200 PlainBody
                      else mkResponse 404 PlainBody
         | None => mkResponse 404 PlainBody
         end
       else mkResponse 200 (JsonBody descriptor))
    (fun _ => None).

Definition start_state : State := mkState 0 [].

(** A [re] that accepts no pattern beyond those [compile] reads. *)
Definition plain_re : Re.library := fun _ => None.

(** A link whose text is its target. *)
Definition link (name : string) : Anchor := mkAnchor (Some name) (Some name).

Definition catalog_page : list Anchor :=
  [link "data_20200101.nc"; link "data_20200101.nc.md5"; link "readme.txt"].

(** A page with a link around an image: an anchor without link text. *)
Definition icon_page : list Anchor :=
  [link "data_20200101.nc"; mkAnchor (Some "logo.png") None].

(** A THREDDS server showing [page] at every address. *)
Definition thredds (page : list Anchor) : Remote :=
  mkRemote (fun _ _ => mkResponse 200 (HtmlBody page)) (fun _ => None).

(** A file as the OPeNDAP server holds it: everything along [obs]. *)
Definition column (mk : Z -> scalar) (l : list Z) : Var :=
  mkVar ["obs"] (Arr (map (fun z => Item (mk z)) l)) [].

Definition raw_file (ts temps : list Z) (extra : dict Var) (a : dict attr) : Dataset :=
  mkDs ([("obs", column SInt (map Z.of_nat (seq 0 (List.length ts))));
         ("time", column STime ts);
         ("id", column SInt temps);
         ("driver_timestamp", column SInt ts);
         ("ingestion_timestamp", column SInt ts);
         ("port_timestamp", column SInt ts);
         ("preferred_timestamp", column SInt ts);
         ("deployment", column SInt (map (fun _ => 1%Z) ts));
         ("temp", mkVar ["obs"] (Arr (map (fun z => Item (SInt z)) temps))
                        [("standard_name", AStr "sea_water_temperature")]);
         ("temp_qc_executed", column SInt (map (fun _ => 29%Z) ts));
         ("temp_qc_results", column SInt (map (fun _ => 285%Z) ts))] ++ extra)%list
       ["obs"]
       ([("subsite", AStr "ce01issm"); ("feature_Type", AStr "point")] ++ a)%list.

Definition position_attrs : dict attr :=
  [("lat", AArr (Item (SFloat (F64.of_int 44))));
   ("lon", AArr (Item (SFloat (F64.of_int (-124)))))].

(** Two export files with overlapping time ranges, 0..5 and 3..8, each out
    of order, and a checksum file next to the first. *)
Definition file_a : Dataset :=
  raw_file [2; 0; 1; 5; 3; 4]%Z [12; 10; 11; 15; 13; 14]%Z [] position_attrs.
Definition file_b : Dataset :=
  raw_file [8; 3; 4; 5; 6; 7]%Z [28; 23; 24; 25; 26; 27]%Z [] position_attrs.

Definition export_page : list Anchor :=
  [mkAnchor (Some "catalog.html?dataset=ooi/a.nc") (Some "a.nc");
   mkAnchor (Some "catalog.html?dataset=ooi/a.nc.md5") (Some "a.nc.md5");
   mkAnchor (Some "catalog.html?dataset=ooi/b.nc") (Some "b.nc")].

Definition data_server : Remote :=
  mkRemote
    (fun _ _ => mkResponse 200 (HtmlBody export_page))
    (fun url =>
       if String.eqb url (dods_url ++ "ooi/a.nc") then Some file_a
       else if String.eqb url (dods_url ++ "ooi/b.nc") then Some file_b
       else None).

(** Two export files with a spectrum along (obs, wavelength); the second
    holds a variable the first lacks. *)
Definition spectrum (rows : list (list Z)) : Var :=
  mkVar ["obs"; "wavelength"]
        (Arr (map (fun r => Arr (map (fun z => Item (SInt z)) r)) rows)) [].
Definition file_c : Dataset :=
  raw_file [1; 0]%Z [21; 20]%Z
           [("spectrum", spectrum [[11; 12]; [1; 2]]%Z)] position_attrs.
Definition file_d : Dataset :=
  raw_file [1; 2]%Z [31; 32]%Z
           [("spectrum", spectrum [[13; 14]; [21; 22]]%Z);
            ("battery", column SInt [5; 6]%Z)] position_attrs.

Definition spectral_server : Remote :=
  mkRemote
    (fun _ _ => mkResponse 200
                  (HtmlBody [mkAnchor (Some "catalog.html?dataset=ooi/c.nc") (Some "c.nc");
                             mkAnchor (Some "catalog.html?dataset=ooi/d.nc") (Some "d.nc")]))
    (fun url =>
       if String.eqb url (dods_url ++ "ooi/c.nc") then Some file_c
       else if String.eqb url (dods_url ++ "ooi/d.nc") then Some file_d
       else None).

Definition empty_dataset : Dataset := mkDs [] [] [].

Definition value_of {A : Type} (default : A) (r : res A) : A :=
  match r with
  | Ok a => a
  | Raise _ => default
  end.

Definition processed_a : Dataset :=
  Eval vm_compute in
    value_of empty_dataset
      (fst (process_file data_server (Some "catalog.html?dataset=ooi/a.nc") start_state)).

Definition processed_c : Dataset :=
  Eval vm_compute in
    value_of empty_dataset
      (fst (process_file spectral_server (Some "catalog.html?dataset=ooi/c.nc") start_state)).

Definition merged : Dataset :=
  Eval vm_compute in
    value_of empty_dataset
      (fst (m2m_collect data_server plain_re descriptor "\.nc$" start_state)).

(** The merged sample after [update_dataset] for an instrument at 7 m. *)
Definition updated : Dataset :=
  Eval vm_compute in value_of empty_dataset (update_dataset merged (SInt 7)).

Definition no_var : Var := mkVar [] (Arr []) [].

Definition updated_qc_executed : Var :=
  Eval vm_compute in
    match get "temp_qc_executed" (variables updated) with
    | Some v => v
    | None => no_var
    end.

(** A merged dataset that records the position per observation, as
    variables [lat] and [lon] along time. *)
Definition with_position : Dataset :=
  mkDs [("time", mkVar ["time"] (Arr [Item (STime 0); Item (STime 1000000000)]) []);
        ("deployment", mkVar ["time"] (Arr [Item (SInt 1); Item (SInt 1)]) []);
        ("temp", mkVar ["time"] (Arr [Item (SInt 10); Item (SInt 11)]) []);
        ("lat", mkVar ["time"] (Arr [Item (SFloat (F64.of_int 44));
                                     Item (SFloat (F64.of_int 44))]) []);
        ("lon", mkVar ["time"] (Arr [Item (SFloat (F64.of_int (-124)));
                                     Item (SFloat (F64.of_int (-124)))]) [])]
       ["time"]
       [("subsite", AStr "ce01issm")].

Definition observed_lat : Var :=
  mkVar ["time"] (Arr [Item (SFloat (F64.of_int 44));
                       Item (SFloat (F64.of_int 44))]) [].

Definition position_updated : Dataset :=
  Eval vm_compute in value_of empty_dataset (update_dataset with_position (SInt 7)).

Definition merged_state : State :=
  Eval vm_compute in snd (m2m_collect data_server plain_re descriptor "\.nc$" start_state).

End Fixtures.

(* ================================================================== *)
(** * Measures of a run                                                 *)
(* ================================================================== *)

Module Measure.
Import Py Re Xr Common.
Local Open Scope string_scope.

(** The number of GET requests in a stretch of the log. *)
Fixpoint gets (l : list event) : nat :=
  match l with
  | [] => O
  | Get _ :: l' => S (gets l')
  | _ :: l' => gets l'
  end.

(** The seconds slept in a stretch of the log. *)
Fixpoint slept (l : list event) : Z :=
  match l with
  | [] => 0%Z
  | Sleep n :: l' => (n + slept l')%Z
  | _ :: l' => slept l'
  end.

(** The files opened in a stretch of the log, latest first. *)
Fixpoint opened (l : list event) : list string :=
  match l with
  | [] => []
  | Open u :: l' => u :: opened l'
  | _ :: l' => opened l'
  end.

(** ['catalog.html\?dataset='] as [compile] reads it. *)
Definition catalog_regex : regex :=
  lit "catalog" (Seq AnyChar (lit "html?dataset=" Empty)).

(** The address [process_file] opens for a catalog entry. *)
Definition opendap_url (catalog_file : string) : string :=
  re_sub catalog_regex dods_url catalog_file.

(** The link-text test of [list_files]. *)
Definition link_matches (p : pattern) (node : Anchor) : bool :=
  match text node with
  | Some t => pattern_search p t
  | None => false
  end.

End Measure.

(* ================================================================== *)
(** * Nested dictionaries: [dict_update]                                *)
(* ================================================================== *)

Module Nested.
Import Py.
Local Open Scope string_scope.

(** A Python value as far as [dict_update] tells values apart: a mapping
    (a [dict]), or anything else (a number, a text, [None], a list, ...),
    kept by its [repr].  What is not a mapping has neither [get] nor
    assignment by key. *)
Unset Elimination Schemes.
Inductive value : Type :=
| Atom (repr : string)
| Mapping (items : list (string * value)).
Set Elimination Schemes.

(** [isinstance(value, collections.Mapping) and value] *)
Definition is_filled_mapping (v : value) : bool :=
  match v with
  | Mapping (_ :: _) => true
  | _ => false
  end.

(** [source.get(key, {})] on a [dict]. *)
Definition get_or_empty (key : string) (d : list (string * value)) : value :=
  match get key d with
  | Some x => x
  | None => Mapping []
  end.

(** [dict_update(source, overrides)], by recursion on [overrides].
    [legacy] tells whether the interpreter still has [collections.Mapping]
    (Python before 3.10); without it the name lookup in the loop body
    raises.  [source] is changed in place in the code; here the changed
    value is returned. *)
Fixpoint dict_update_with (legacy : bool) (overrides source : value)
         {struct overrides} : res value :=
  match overrides with
  | Atom _ => Raise (AttributeError "items")
  | Mapping l =>
      (fix loop (l : list (string * value)) (source : value) {struct l} : res value :=
         match l with
         | [] => Ok source
         | (key, v) :: rest =>
             if negb legacy then Raise (AttributeError "Mapping")
             else
               rbind
                 (if is_filled_mapping v then
                    match source with
                    | Mapping d =>
                        rbind (dict_update_with legacy v (get_or_empty key d))
                              (fun returned => Ok (Mapping (set key returned d)))
                    | Atom _ => Raise (AttributeError "get")
                    end
                  else
                    match source with
                    | Mapping d => Ok (Mapping (set key v d))
                    | Atom _ => Raise (TypeError "object does not support item assignment")
                    end)
                 (loop rest)
         end) l source
  end.

Definition dict_update (legacy : bool) (source overrides : value) : res value :=
  dict_update_with legacy overrides source.

(** One round of the loop on a [dict]. *)
Definition update_key (legacy : bool) (key : string) (v : value)
           (d : list (string * value)) : res value :=
  if is_filled_mapping v then
    rbind (dict_update legacy (get_or_empty key d) v)
          (fun returned => Ok (Mapping (set key returned d)))
  else Ok (Mapping (set key v d)).

End Nested.

(* ================================================================== *)
(** * Facts about binary64 rounding                                     *)
(* ================================================================== *)

Module F64Facts.
Import F64.
Local Open Scope Z_scope.

Lemma digits2_pos_size (p : positive) : digits2_pos p = Pos.size p.
Proof. induction p; simpl; congruence. Qed.

Lemma digits_log2 (u : Z) : 0 < u -> digits u = Z.log2 u + 1.
Proof.
  destruct u as [|p|p]; try lia. intros _.
  unfold digits; simpl. rewrite digits2_pos_size.
  destruct p; simpl; lia.
Qed.

Lemma digits_shift (u j : Z) :
  0 < u -> 0 <= j -> digits (u * 2 ^ j) = digits u + j.
Proof.
  intros Hu Hj. rewrite !digits_log2 by nia.
  rewrite Z.log2_mul_pow2 by lia. lia.
Qed.

Lemma digits_bound (u d : Z) : 0 < u -> 0 <= d -> u < 2 ^ d -> digits u <= d.
Proof.
  intros Hu Hd Hlt. rewrite digits_log2 by lia.
  apply Z.log2_lt_pow2 in Hlt; lia.
Qed.

Lemma digits_pos (u : Z) : 0 < u -> 0 < digits u.
Proof. intros Hu. rewrite digits_log2 by lia. pose proof (Z.log2_nonneg u). lia. Qed.

Lemma iter_pos_nat (A : Type) (f : A -> A) (p : positive) (x : A) :
  iter_pos f p x = Nat.iter (Pos.to_nat p) f x.
Proof.
  revert x. induction p as [p IH|p IH|]; intros x.
  - rewrite Pos2Nat.inj_xI.
    replace (S (2 * Pos.to_nat p))%nat with (Pos.to_nat p + (Pos.to_nat p + 1))%nat by lia.
    rewrite !Nat.iter_add. cbn [iter_pos Nat.iter nat_rect]. rewrite !IH. reflexivity.
  - rewrite Pos2Nat.inj_xO.
    replace (2 * Pos.to_nat p)%nat with (Pos.to_nat p + Pos.to_nat p)%nat by lia.
    rewrite Nat.iter_add. cbn [iter_pos]. rewrite !IH. reflexivity.
  - reflexivity.
Qed.

Lemma shr_1_even (u : Z) : 0 <= u -> shr_1 (exact_rec (2 * u)) = exact_rec u.
Proof. destruct u as [|p|p]; try lia; reflexivity. Qed.

Lemma shr_iter_exact (n : nat) (u : Z) :
  0 <= u -> Nat.iter n shr_1 (exact_rec (u * 2 ^ Z.of_nat n)) = exact_rec u.
Proof.
  intros Hu. induction n as [|n IH].
  - simpl. f_equal. lia.
  - rewrite Nat.iter_succ_r.
    replace (u * 2 ^ Z.of_nat (S n)) with (2 * (u * 2 ^ Z.of_nat n)).
    2:{ rewrite Nat2Z.inj_succ, Z.pow_succ_r by lia. ring. }
    rewrite shr_1_even by nia. exact IH.
Qed.

Lemma shr_exact (u n e : Z) :
  0 <= u -> 0 <= n ->
  shr (exact_rec (u * 2 ^ n)) e n = (exact_rec u, e + n).
Proof.
  intros Hu Hn. destruct n as [|p|p]; try lia.
  - simpl. rewrite Z.mul_1_r, Z.add_0_r. reflexivity.
  - unfold shr. rewrite iter_pos_nat.
    rewrite <- (positive_nat_Z p) at 1. rewrite shr_iter_exact by lia. reflexivity.
Qed.

Lemma fexp_normal (d : Z) : -1021 <= d -> fexp prec emax d = d - 53.
Proof. unfold fexp, emin, prec, emax. lia. Qed.

(** Rounding an exactly representable product: nothing is lost. *)
Lemma round_exact (sx : bool) (m : positive) (u j e : Z) :
  0 < u -> digits u <= 53 -> 0 <= j ->
  Zpos m = u * 2 ^ j ->
  53 <= digits u + j ->
  -1074 <= e + j + digits u - 53 <= 971 ->
  binary_round_aux prec emax sx (Zpos m) e loc_Exact = fnorm sx u (e + j).
Proof.
  intros Hu Hd Hj Hm Hlo Hrange.
  set (n := digits u + j - 53).
  assert (Hdm : Zdigits2 (Zpos m) = digits u + j).
  { rewrite Hm. apply digits_shift; lia. }
  set (v := u * 2 ^ (53 - digits u)).
  assert (Hv : 0 < v) by (unfold v; pose proof (digits_pos u Hu); nia).
  assert (Hmv : Zpos m = v * 2 ^ n).
  { rewrite Hm. unfold v, n. rewrite <- Z.mul_assoc, <- Z.pow_add_r by lia.
    f_equal. f_equal. lia. }
  assert (Hdv : Zdigits2 v = 53).
  { change (digits v = 53). unfold v. rewrite digits_shift by lia. lia. }
  unfold binary_round_aux, shr_fexp.
  rewrite Hdm, fexp_normal by lia.
  replace (digits u + j + e - 53 - e) with n by (unfold n; lia).
  change (shr_record_of_loc (Zpos m) loc_Exact) with (exact_rec (Zpos m)).
  rewrite Hmv, shr_exact by lia.
  cbn [shr_m exact_rec loc_of_shr_record round_nearest_even shr_record_of_loc].
  rewrite Hdv, fexp_normal by lia.
  replace (53 + (e + n) - 53 - (e + n)) with 0 by lia.
  cbn [shr shr_m].
  destruct v as [|pv|pv] eqn:Ev; try lia.
  replace (e + n <=? emax - prec) with true
    by (symmetry; apply Z.leb_le; unfold n, emax, prec; lia).
  unfold fnorm. change (u * 2 ^ (prec - digits u)) with v. rewrite Ev.
  simpl Z.to_pos. f_equal. unfold n, prec. lia.
Qed.

Lemma iter_xO_pow (p d : positive) : Zpos (Pos.iter xO p d) = Zpos p * 2 ^ Zpos d.
Proof.
  induction d as [|d IH] using Pos.peano_ind.
  - simpl. lia.
  - rewrite Pos.iter_succ, Pos2Z.inj_xO, IH, Pos2Z.inj_succ, Z.pow_succ_r by lia. ring.
Qed.

(** Conversion of an integer whose odd part fits the mantissa is exact. *)
Lemma of_int_exact (sx : bool) (p : positive) (u k : Z) :
  0 < u -> digits u <= 53 -> 0 <= k -> k + digits u - 53 <= 971 ->
  Zpos p = u * 2 ^ k ->
  binary_round prec emax sx p 0 = fnorm sx u k.
Proof.
  intros Hu Hd Hk Hhi Hp.
  pose proof (digits_pos u Hu) as Hdp.
  assert (Hdig : Zpos (digits2_pos p) = digits u + k).
  { change (Zdigits2 (Zpos p) = digits u + k). rewrite Hp. apply digits_shift; lia. }
  unfold binary_round. rewrite Hdig, fexp_normal by lia.
  unfold shl_align.
  destruct (digits u + k + 0 - 53 - 0) as [|d|d] eqn:Ed.
  - rewrite (round_exact sx p u k 0) by (try assumption; lia). f_equal.
  - rewrite (round_exact sx p u k 0) by (try assumption; lia). f_equal.
  - assert (Hsh : Zpos (Pos.iter xO p d) = u * 2 ^ (k + Zpos d)).
    { rewrite iter_xO_pow, Hp, Z.pow_add_r by lia. ring. }
    rewrite (round_exact sx (Pos.iter xO p d) u (k + Zpos d) (digits u + k + 0 - 53))
      by (try assumption; lia).
    f_equal. lia.
Qed.

Lemma ten_pow_9_value : ten_pow_9 = S754_finite false 8388608000000000 (-23).
Proof. reflexivity. Qed.

Lemma digits_5p9 (s : Z) :
  0 < s -> digits s + 20 <= digits (s * 5 ^ 9) <= digits s + 21.
Proof.
  intros Hs. rewrite !digits_log2 by lia.
  pose proof (Z.log2_spec s Hs) as [Hlo Hhi].
  pose proof (Z.log2_nonneg s) as Hnn.
  split.
  - assert (2 ^ (Z.log2 s + 20) <= s * 5 ^ 9).
    { rewrite Z.pow_add_r by lia. change (2 ^ 20) with 1048576. change (5 ^ 9) with 1953125. nia. }
    apply Z.log2_le_pow2 in H; lia.
  - assert (s * 5 ^ 9 < 2 ^ (Z.log2 s + 22)).
    { rewrite Z.pow_add_r by lia. change (2 ^ 22) with 4194304. change (5 ^ 9) with 1953125.
      rewrite Z.pow_succ_r in Hhi by lia. nia. }
    apply Z.log2_lt_pow2 in H; lia.
Qed.

Lemma fnorm_mantissa (u : Z) :
  0 < u -> digits u <= 53 ->
  Zpos (Z.to_pos (u * 2 ^ (prec - digits u))) = u * 2 ^ (53 - digits u).
Proof.
  intros Hu Hd. pose proof (digits_pos u Hu).
  rewrite Z2Pos.id; [reflexivity|]. unfold prec. nia.
Qed.

(** Dividing the float of [s * 10^9] by [1ten_pow_9] gives the float of [s]. *)
Lemma div_1e9_exact (sx : bool) (s : Z) :
  0 < s -> digits (s * 5 ^ 9) <= 53 ->
  div (fnorm sx (s * 5 ^ 9) 9) ten_pow_9 = fnorm sx s 0.
Proof.
  intros Hs Hd.
  pose proof (digits_5p9 s Hs) as [Hlo Hhi].
  pose proof (digits_pos s Hs) as Hds.
  set (u := s * 5 ^ 9) in *.
  assert (Hu : 0 < u) by (unfold u; lia).
  rewrite ten_pow_9_value. unfold div, fnorm, SFdiv, SFdiv_core_binary.
  set (mx := Z.to_pos (u * 2 ^ (prec - digits u))).
  assert (Hmx : Zpos mx = u * 2 ^ (53 - digits u)) by (apply fnorm_mantissa; assumption).
  assert (Hdx : Zdigits2 (Zpos mx) = 53).
  { rewrite Hmx. change (digits (u * 2 ^ (53 - digits u)) = 53).
    rewrite digits_shift by lia. lia. }
  rewrite Hdx.
  change (Zdigits2 (Zpos 8388608000000000)) with 53.
  rewrite fexp_normal by (unfold prec; lia).
  replace (Z.min _ _) with (digits u - 74) by (unfold prec; lia).
  replace (9 + digits u - prec - -23 - (digits u - 74)) with 53 by (unfold prec; lia).
  rewrite Z.shiftl_mul_pow2 by lia.
  assert (Hq : Zpos mx * 2 ^ 53 = (s * 2 ^ (74 - digits u)) * Zpos 8388608000000000).
  { rewrite Hmx. unfold u at 1.
    replace (74 - digits u) with ((53 - digits u) + 21) by lia.
    rewrite Z.pow_add_r by lia.
    change (Zpos 8388608000000000) with (5 ^ 9 * 2 ^ 32).
    change (2 ^ 53) with (2 ^ 21 * 2 ^ 32). ring. }
  destruct (Z.div_eucl (Zpos mx * 2 ^ 53) (Zpos 8388608000000000)) as [q r] eqn:E.
  assert (Eq : q = s * 2 ^ (74 - digits u)).
  { change q with (fst (q, r)). rewrite <- E. change (fst (Z.div_eucl ?a ?b)) with (a / b).
    rewrite Hq. apply Z.div_mul. lia. }
  assert (Er : r = 0).
  { change r with (snd (q, r)). rewrite <- E. change (snd (Z.div_eucl ?a ?b)) with (a mod b).
    rewrite Hq. apply Z.mod_mul. lia. }
  subst q r.
  change (new_location (Zpos 8388608000000000) 0) with loc_Exact.
  rewrite xorb_false_r.
  assert (Hqpos : 0 < s * 2 ^ (74 - digits u)) by nia.
  destruct (s * 2 ^ (74 - digits u)) as [|pq|pq] eqn:Epq; try lia.
  rewrite (round_exact sx pq s (74 - digits u) (digits u - 74)) by (unfold u in *; lia).
  unfold fnorm. f_equal. lia.
Qed.

(** Multiplying the float of [s] by [1ten_pow_9] gives the float of [s * 10^9]. *)
Lemma mul_1e9_exact (sx : bool) (s : Z) :
  0 < s -> digits (s * 5 ^ 9) <= 53 ->
  mul (fnorm sx s 0) ten_pow_9 = fnorm sx (s * 5 ^ 9) 9.
Proof.
  intros Hs Hd.
  pose proof (digits_5p9 s Hs) as [Hlo Hhi].
  pose proof (digits_pos s Hs) as Hds.
  assert (Hs53 : digits s <= 53) by lia.
  rewrite ten_pow_9_value. unfold mul, fnorm at 1, SFmul.
  rewrite xorb_false_r.
  rewrite (round_exact sx _ (s * 5 ^ 9) (85 - digits s) (0 + digits s - prec + -23)).
  - f_equal. unfold prec. lia.
  - lia.
  - assumption.
  - lia.
  - rewrite Pos2Z.inj_mul, fnorm_mantissa by assumption.
    replace (85 - digits s) with ((53 - digits s) + 32) by lia.
    rewrite Z.pow_add_r by lia.
    change (Zpos 8388608000000000) with (5 ^ 9 * 2 ^ 32). ring.
  - lia.
  - unfold prec. lia.
Qed.

Lemma to_int_exact_fnorm (sx : bool) (u : Z) :
  0 < u -> digits u <= 53 ->
  to_int_exact (fnorm sx u 9) = Some (cond_Zopp sx (u * 2 ^ 9)).
Proof.
  intros Hu Hd. pose proof (digits_pos u Hu) as Hdp.
  unfold to_int_exact, fnorm. rewrite fnorm_mantissa by assumption.
  unfold prec. destruct (0 <=? 9 + digits u - 53) eqn:E.
  - apply Z.leb_le in E. do 2 f_equal.
    rewrite <- Z.mul_assoc, <- Z.pow_add_r by lia. do 2 f_equal. lia.
  - apply Z.leb_gt in E.
    assert (Hsplit : u * 2 ^ (53 - digits u) = (u * 2 ^ 9) * 2 ^ (- (9 + digits u - 53))).
    { rewrite <- Z.mul_assoc, <- Z.pow_add_r by lia. do 2 f_equal. lia. }
    rewrite Hsplit, Z.mod_mul, Z.div_mul by (apply Z.pow_nonzero; lia).
    reflexivity.
Qed.

Lemma roundtrip_signed (sx : bool) (p : positive) :
  digits (Zpos p * 5 ^ 9) <= 53 ->
  mul (div (binary_round prec emax sx (p * 10 ^ 9) 0) ten_pow_9) ten_pow_9
    = fnorm sx (Zpos p * 5 ^ 9) 9.
Proof.
  intros Hd.
  rewrite (of_int_exact sx (p * 10 ^ 9) (Zpos p * 5 ^ 9) 9) by lia.
  rewrite div_1e9_exact, mul_1e9_exact by lia. reflexivity.
Qed.

Lemma roundtrip_exact (s : Z) :
  Z.abs s * 5 ^ 9 < 2 ^ 53 ->
  to_nanoseconds (to_seconds (s * 10 ^ 9)) = of_int (s * 10 ^ 9) /\
  to_int_exact (to_nanoseconds (to_seconds (s * 10 ^ 9))) = Some (s * 10 ^ 9).
Proof.
  intros Hb. unfold to_nanoseconds, to_seconds, of_int.
  destruct s as [|p|p].
  - split; reflexivity.
  - assert (Hd : digits (Zpos p * 5 ^ 9) <= 53) by (apply digits_bound; lia).
    change (Zpos p * 10 ^ 9) with (Zpos (p * 10 ^ 9)). cbn [binary_normalize].
    rewrite roundtrip_signed by assumption. split.
    + symmetry. apply of_int_exact; lia.
    + rewrite to_int_exact_fnorm by lia. cbn [cond_Zopp]. f_equal.
      rewrite Pos2Z.inj_mul. change (Zpos (10 ^ 9)) with (5 ^ 9 * 2 ^ 9). ring.
  - assert (Hd : digits (Zpos p * 5 ^ 9) <= 53) by (apply digits_bound; lia).
    change (Zneg p * 10 ^ 9) with (Zneg (p * 10 ^ 9)). cbn [binary_normalize].
    rewrite roundtrip_signed by assumption. split.
    + symmetry. apply of_int_exact; lia.
    + rewrite to_int_exact_fnorm by lia. cbn [cond_Zopp]. f_equal.
      rewrite <- Pos2Z.opp_pos, Pos2Z.inj_mul. change (Zpos (10 ^ 9)) with (5 ^ 9 * 2 ^ 9). ring.
Qed.

End F64Facts.

(* ================================================================== *)
(** * Time conversion                                                   *)
(* ================================================================== *)

Module TimeFacts.
Import Py Xr Common.
Local Open Scope Z_scope.

Lemma dt64_epoch_values (ts : list Z) :
  dt64_epoch (Fixtures.time_var ts) = Ok (map F64.to_seconds ts).
Proof.
  unfold dt64_epoch, Fixtures.time_var. cbn [values items_of].
  induction ts as [|t ts IH]; [reflexivity|].
  cbn [map rmap as_float rbind]. rewrite IH. reflexivity.
Qed.

Lemma aligned_roundtrip (t : Z) :
  t mod 10 ^ 9 = 0 -> Z.abs t < 2 ^ 62 ->
  F64.to_int_exact (F64.to_nanoseconds (F64.to_seconds t)) = Some t.
Proof.
  intros Hal Hb.
  assert (Ht : t = (t / 10 ^ 9) * 10 ^ 9).
  { pose proof (Z.div_mod t (10 ^ 9)). lia. }
  set (s := t / 10 ^ 9) in *.
  assert (Hs : Z.abs s * 5 ^ 9 < 2 ^ 53).
  { change (2 ^ 62) with (2 ^ 53 * 2 ^ 9) in Hb.
    change (10 ^ 9) with (5 ^ 9 * 2 ^ 9) in Ht.
    rewrite Ht, Z.abs_mul in Hb. rewrite (Z.abs_eq (5 ^ 9 * 2 ^ 9)) in Hb by lia.
    nia. }
  rewrite Ht. apply (F64Facts.roundtrip_exact s Hs).
Qed.

End TimeFacts.

(** C9 (as amended): for every list of nanosecond timestamps that are whole
    seconds and smaller in magnitude than 2^62 ns (about 146 years either
    side of 1970), [dt64_epoch] returns floats which, multiplied by 1e9,
    denote exactly the timestamps they came from. *)
Theorem dt64_epoch_roundtrip_below_2p62 (ts : list Z) :
  Forall (fun t => t mod 10 ^ 9 = 0 /\ Z.abs t < 2 ^ 62)%Z ts ->
  exists epts,
    Common.dt64_epoch (Fixtures.time_var ts) = Py.Ok epts /\
    map (fun f => F64.to_int_exact (F64.to_nanoseconds f)) epts = map Some ts.
Proof.
  intros Hall. exists (map F64.to_seconds ts). split.
  - apply TimeFacts.dt64_epoch_values.
  - rewrite map_map. induction Hall as [|t ts [Hal Hb] _ IH]; [reflexivity|].
    cbn [map]. rewrite IH, TimeFacts.aligned_roundtrip by assumption. reflexivity.
Qed.

(** The amended C9 at the timestamps 0 s, 1 s, 1.6e9 s and -86400 s. *)
Lemma dt64_epoch_roundtrip_witness :
  exists epts,
    Common.dt64_epoch
      (Fixtures.time_var [0; 1000000000; 1600000000000000000; -86400000000000]%Z)
      = Py.Ok epts /\
    map (fun f => F64.to_int_exact (F64.to_nanoseconds f)) epts
      = map Some [0; 1000000000; 1600000000000000000; -86400000000000]%Z.
Proof.
  apply dt64_epoch_roundtrip_below_2p62.
  repeat constructor; vm_compute; congruence.
Defined.

(** C9 as stated fails: the whole-second timestamp (2^33 + 1) * 10^9 ns
    (year 2242, inside the int64 range of datetime64[ns]) comes back as
    8589934592999999488, which is 512 ns short. *)
Lemma dt64_epoch_roundtrip_counterexample :
  let t := ((2 ^ 33 + 1) * 10 ^ 9)%Z in
  (t mod 10 ^ 9 = 0)%Z /\ (- 2 ^ 63 <= t < 2 ^ 63)%Z /\
  exists f,
    Common.dt64_epoch (Fixtures.time_var [t]) = Py.Ok [f] /\
    F64.to_int_exact (F64.to_nanoseconds f) = Some 8589934592999999488%Z /\
    F64.to_int_exact (F64.to_nanoseconds f) <> Some t.
Proof.
  cbv zeta. split; [reflexivity|]. split; [vm_compute; split; congruence|].
  eexists. split; [vm_compute; reflexivity|].
  split; [vm_compute; reflexivity|]. vm_compute. congruence.
Qed.

(* ================================================================== *)
(** * The completion poller                                             *)
(* ================================================================== *)

Module PollFacts.
Import Py Common Trace.
Local Open Scope string_scope.

Lemma rounds_snoc (url : string) (m : nat) :
  (rounds url m ++ failed_round url = failed_round url ++ rounds url m)%list.
Proof.
  induction m as [|m IH]; [reflexivity|].
  cbn [rounds]. rewrite <- app_assoc, IH. reflexivity.
Qed.

Lemma count_sleeps_rounds (url : string) (m : nat) (l : list event) :
  count_sleeps (rounds url m ++ l) = (m + count_sleeps l)%nat.
Proof.
  unfold count_sleeps. induction m as [|m IH]; [reflexivity|].
  cbn [rounds failed_round app filter List.length]. rewrite IH. reflexivity.
Qed.

Section Poll.
Variable remote : Remote.
Variable url : string.

Lemma poll_step_fail (n : nat) (i : Z) (el : option spec_float) (st : State) :
  ready remote url (sent st) = false ->
  poll remote url (S n) i el st
  = poll remote url n (i + 1)%Z (Some (elapsed_at i))
      (mkState (S (sent st)) (failed_round url ++ log st)).
Proof.
  intros H. unfold ready in H. cbn [poll]. unfold bind, requests_get, emit. cbn.
  rewrite H. reflexivity.
Qed.

Lemma poll_step_ready (n : nat) (i : Z) (el : option spec_float) (st : State) :
  ready remote url (sent st) = true ->
  poll remote url (S n) i el st
  = (fst (finish url el), mkState (S (sent st)) (snd (finish url el) ++ log st)).
Proof.
  intros H. unfold ready in H. cbn [poll]. unfold bind, requests_get, emit. cbn.
  rewrite H. destruct el; reflexivity.
Qed.

(** [m] failed checks use up [m] iterations. *)
Lemma poll_fail_rounds (m n : nat) (i : Z) (el : option spec_float) (st : State) :
  (forall j, (j < m)%nat -> ready remote url (sent st + j) = false) ->
  poll remote url (m + n) i el st
  = poll remote url n (i + Z.of_nat m)%Z (elapsed_after m i el)
      (mkState (sent st + m) (rounds url m ++ log st)).
Proof.
  revert i el st. induction m as [|m IH]; intros i el st Hfail.
  - cbn. rewrite Z.add_0_r, Nat.add_0_r. destruct st; reflexivity.
  - cbn [Nat.add].
    rewrite poll_step_fail by (rewrite <- (Nat.add_0_r (sent st)); apply Hfail; lia).
    rewrite IH.
    + cbn [sent log rounds]. f_equal.
      * lia.
      * destruct m; cbn; f_equal; f_equal; lia.
      * f_equal; [lia|]. rewrite !app_assoc, rounds_snoc. reflexivity.
    + intros j Hj. cbn [sent].
      replace (S (sent st) + j)%nat with (sent st + S j)%nat by lia.
      apply Hfail. lia.
Qed.

(** The loop run to exhaustion: every one of the [n] checks fails. *)
Lemma poll_exhausted (n : nat) (i : Z) (el : option spec_float) (st : State) :
  (forall j, (j < n)%nat -> ready remote url (sent st + j) = false) ->
  poll remote url n i el st
  = (Ok tt, mkState (sent st + n) (rounds url n ++ log st)).
Proof.
  intros Hfail. rewrite <- (Nat.add_0_r n) at 1.
  rewrite poll_fail_rounds by assumption. reflexivity.
Qed.

(** The first success comes at check [m + 1], within the budget. *)
Lemma poll_ready_after (m n : nat) (i : Z) (el : option spec_float) (st : State) :
  (forall j, (j < m)%nat -> ready remote url (sent st + j) = false) ->
  ready remote url (sent st + m) = true ->
  poll remote url (m + S n) i el st
  = (fst (finish url (elapsed_after m i el)),
     mkState (sent st + S m)
             (snd (finish url (elapsed_after m i el)) ++ rounds url m ++ log st)).
Proof.
  intros Hfail Hok.
  rewrite poll_fail_rounds by assumption.
  rewrite poll_step_ready by assumption.
  cbn [sent log]. do 2 f_equal. lia.
Qed.

(** ** [m2m_request] once OOINet has accepted the export request *)

Variables site node sensor method stream : string.
Variables start stop : option string.
Variable st : State.
Variable data : Json.
Variable urls : list string.
Variable job : string.

Let export := request_url site node sensor method stream start stop.

Hypothesis accepted :
  respond remote (sent st) export = mkResponse codes_ok (JsonBody data).
Hypothesis has_urls : get "allURLs" data = Some urls.
Hypothesis has_status : nth_error urls 1 = Some job.
Hypothesis status_file : url = job ++ "/status.txt".

Lemma m2m_request_polls :
  m2m_request remote site node sensor method stream start stop st
  = let polled := poll remote url 200 0%Z None
                    (mkState (S (sent st)) (Print Waiting :: Get export :: log st)) in
    (match fst polled with
     | Ok _ => Ok (Some data)
     | Raise e => Raise e
     end, snd polled).
Proof.
  unfold m2m_request, bind, requests_get. fold export. rewrite accepted.
  cbn [status_code body]. rewrite Z.eqb_refl.
  unfold lift, json, emit, getitem, list_index, rbind. cbn [body sent log].
  rewrite has_urls, has_status, <- status_file.
  destruct (poll remote url 200 0 None _) as [[[]|e] st']; reflexivity.
Qed.

End Poll.
End PollFacts.

(** C4 (as amended): when OOINet has accepted the export request and all
    200 status checks come back without success, [m2m_request] stops after
    exactly those 200 checks, each followed by a three-second sleep, and
    returns the descriptor just as it does after a success; nothing marks
    the exhausted budget. *)
Theorem m2m_request_budget_exhausted
        (remote : Common.Remote) (site node sensor method stream : string)
        (start stop : option string) (st : Common.State)
        (data : Common.Json) (urls : list string) (job : string) :
  let export := Common.request_url site node sensor method stream start stop in
  let status := (job ++ "/status.txt")%string in
  Common.respond remote (Common.sent st) export
    = Common.mkResponse Common.codes_ok (Common.JsonBody data) ->
  Py.get "allURLs" data = Some urls ->
  nth_error urls 1 = Some job ->
  (forall j, j < 200 -> Trace.ready remote status (S (Common.sent st) + j) = false) ->
  Common.m2m_request remote site node sensor method stream start stop st
  = (Py.Ok (Some data),
     Common.mkState (Common.sent st + 201)
       (Trace.rounds status 200
        ++ Common.Print Common.Waiting :: Common.Get export :: Common.log st)).
Proof.
  intros export status Hacc Hurls Hjob Hfail.
  rewrite (PollFacts.m2m_request_polls remote status site node sensor method stream
             start stop st data urls job Hacc Hurls Hjob eq_refl).
  rewrite PollFacts.poll_exhausted by exact Hfail.
  cbn [fst snd Common.sent Common.log]. do 2 f_equal. lia.
Qed.

(** The amended C4 on a server whose status file never appears. *)
Lemma m2m_request_budget_exhausted_witness :
  Common.m2m_request (Fixtures.ooinet None) "CE01ISSM" "SBD17" "06-CTDBPC000"
    "telemetered" "ctdbp_cdef_dcl_instrument" None None Fixtures.start_state
  = (Py.Ok (Some Fixtures.descriptor),
     Common.mkState (0 + 201)
       (Trace.rounds ("https://async/job42" ++ "/status.txt") 200
        ++ Common.Print Common.Waiting
        :: Common.Get (Common.request_url "CE01ISSM" "SBD17" "06-CTDBPC000"
                         "telemetered" "ctdbp_cdef_dcl_instrument" None None)
        :: [])).
Proof.
  apply (m2m_request_budget_exhausted (Fixtures.ooinet None) "CE01ISSM" "SBD17"
           "06-CTDBPC000" "telemetered" "ctdbp_cdef_dcl_instrument" None None
           Fixtures.start_state Fixtures.descriptor
           ["https://thredds/catalog.html"; "https://async/job42"]%string
           "https://async/job42").
  - reflexivity.
  - reflexivity.
  - reflexivity.
  - intros j _. reflexivity.
Defined.

(** C4 as stated fails: with a status file that never appears, all 200
    checks are spent and [m2m_request] still returns the descriptor, the
    value it returns for a finished export. *)
Lemma m2m_request_exhaustion_counterexample :
  let out := Common.m2m_request (Fixtures.ooinet None) "CE01ISSM" "SBD17"
               "06-CTDBPC000" "telemetered" "ctdbp_cdef_dcl_instrument" None None
               Fixtures.start_state in
  (forall n, Trace.ready (Fixtures.ooinet None) Fixtures.status_url n = false) /\
  Trace.count_gets Fixtures.status_url (Common.log (snd out)) = 200 /\
  fst out = Py.Ok (Some Fixtures.descriptor).
Proof.
  cbv zeta. split; [intros n; reflexivity|]. split; vm_compute; reflexivity.
Qed.

(** C5: with the first success at check [k] of the 200, [m2m_request]
    sends exactly [k] status checks and sleeps three seconds after each of
    the [k - 1] failed ones; for [k >= 2] it then prints the completion
    message and returns the descriptor, but for [k = 1] the completion
    message reads the unbound [elapsed] and the call raises instead. *)
Theorem m2m_request_first_success_at
        (k : nat)
        (remote : Common.Remote) (site node sensor method stream : string)
        (start stop : option string) (st : Common.State)
        (data : Common.Json) (urls : list string) (job : string) :
  let export := Common.request_url site node sensor method stream start stop in
  let status := (job ++ "/status.txt")%string in
  1 <= k <= 200 ->
  Common.respond remote (Common.sent st) export
    = Common.mkResponse Common.codes_ok (Common.JsonBody data) ->
  Py.get "allURLs" data = Some urls ->
  nth_error urls 1 = Some job ->
  (forall j, j < k - 1 -> Trace.ready remote status (S (Common.sent st) + j) = false) ->
  Trace.ready remote status (S (Common.sent st) + (k - 1)) = true ->
  let out := Common.m2m_request remote site node sensor method stream start stop st in
  Common.sent (snd out) = Common.sent st + 1 + k /\
  Trace.count_sleeps (Common.log (snd out))
    = k - 1 + Trace.count_sleeps (Common.log st) /\
  (2 <= k ->
   fst out = Py.Ok (Some data) /\
   Common.log (snd out)
   = Common.Print (Common.Completed (Trace.elapsed_at (Z.of_nat (k - 2))))
     :: Common.BarFinish :: Common.BarUpdate 1 :: Common.Get status
     :: Trace.rounds status (k - 1)
     ++ Common.Print Common.Waiting :: Common.Get export :: Common.log st) /\
  (k = 1 -> fst out = Py.Raise (Py.UnboundLocalError "elapsed")).
Proof.
  intros export status Hk Hacc Hurls Hjob Hfail Hok out. subst out.
  rewrite (PollFacts.m2m_request_polls remote status site node sensor method stream
             start stop st data urls job Hacc Hurls Hjob eq_refl).
  replace 200 with ((k - 1) + S (200 - k)) by lia.
  rewrite PollFacts.poll_ready_after by assumption.
  cbn [fst snd Common.sent Common.log].
  destruct k as [|[|k]]; [lia| |].
  - cbn [Nat.sub Trace.elapsed_after Trace.finish fst snd Trace.rounds app].
    repeat split; try reflexivity; try lia.
  - replace (S (S k) - 1) with (S k) by lia.
    replace (S (S k) - 2) with k by lia.
    cbn [Trace.elapsed_after Trace.finish fst snd app]. rewrite Z.add_0_l.
    repeat split; try reflexivity; try lia.
    change (Trace.count_sleeps (Trace.rounds status (S k)
              ++ Common.Print Common.Waiting :: Common.Get export :: Common.log st)
            = S k + Trace.count_sleeps (Common.log st)).
    rewrite PollFacts.count_sleeps_rounds. reflexivity.
Qed.

(** C5's theorem on a server whose status file appears at the fifth
    check. *)
Lemma m2m_request_first_success_at_witness :
  let out := Common.m2m_request (Fixtures.ooinet (Some 5)) "CE01ISSM" "SBD17"
               "06-CTDBPC000" "telemetered" "ctdbp_cdef_dcl_instrument" None None
               Fixtures.start_state in
  Common.sent (snd out) = 0 + 1 + 5 /\
  Trace.count_sleeps (Common.log (snd out)) = 5 - 1 + 0 /\
  (2 <= 5 ->
   fst out = Py.Ok (Some Fixtures.descriptor) /\
   Common.log (snd out)
   = Common.Print (Common.Completed (Trace.elapsed_at (Z.of_nat (5 - 2))))
     :: Common.BarFinish :: Common.BarUpdate 1
     :: Common.Get ("https://async/job42" ++ "/status.txt")
     :: Trace.rounds ("https://async/job42" ++ "/status.txt") (5 - 1)
     ++ Common.Print Common.Waiting
     :: Common.Get (Common.request_url "CE01ISSM" "SBD17" "06-CTDBPC000"
                      "telemetered" "ctdbp_cdef_dcl_instrument" None None)
     :: []) /\
  (5 = 1 -> fst out = Py.Raise (Py.UnboundLocalError "elapsed")).
Proof.
  apply (m2m_request_first_success_at 5 (Fixtures.ooinet (Some 5)) "CE01ISSM" "SBD17"
           "06-CTDBPC000" "telemetered" "ctdbp_cdef_dcl_instrument" None None
           Fixtures.start_state Fixtures.descriptor
           ["https://thredds/catalog.html"; "https://async/job42"]%string
           "https://async/job42").
  - lia.
  - reflexivity.
  - reflexivity.
  - reflexivity.
  - intros j Hj. do 4 (destruct j as [|j]; [reflexivity|]). simpl in Hj. lia.
  - reflexivity.
Defined.

(** C10: when the very first status check succeeds, [m2m_request] does not
    return: the completion message reads [elapsed], which only a failed
    check assigns, and the call ends in an unbound-variable error after the
    export request and that one check. *)
Theorem m2m_request_ready_at_first_check
        (remote : Common.Remote) (site node sensor method stream : string)
        (start stop : option string) (st : Common.State)
        (data : Common.Json) (urls : list string) (job : string) :
  let export := Common.request_url site node sensor method stream start stop in
  let status := (job ++ "/status.txt")%string in
  Common.respond remote (Common.sent st) export
    = Common.mkResponse Common.codes_ok (Common.JsonBody data) ->
  Py.get "allURLs" data = Some urls ->
  nth_error urls 1 = Some job ->
  Trace.ready remote status (S (Common.sent st)) = true ->
  Common.m2m_request remote site node sensor method stream start stop st
  = (Py.Raise (Py.UnboundLocalError "elapsed"),
     Common.mkState (Common.sent st + 2)
       (Common.BarFinish :: Common.BarUpdate 1 :: Common.Get status
        :: Common.Print Common.Waiting :: Common.Get export :: Common.log st)).
Proof.
  intros export status Hacc Hurls Hjob Hok.
  rewrite (PollFacts.m2m_request_polls remote status site node sensor method stream
             start stop st data urls job Hacc Hurls Hjob eq_refl).
  rewrite PollFacts.poll_step_ready by exact Hok.
  cbn [Trace.finish fst snd app Common.sent Common.log]. do 2 f_equal. lia.
Qed.

(** C10's theorem on a server whose status file is there at the first
    check. *)
Lemma m2m_request_ready_at_first_check_witness :
  Common.m2m_request (Fixtures.ooinet (Some 1)) "CE01ISSM" "SBD17" "06-CTDBPC000"
    "telemetered" "ctdbp_cdef_dcl_instrument" None None Fixtures.start_state
  = (Py.Raise (Py.UnboundLocalError "elapsed"),
     Common.mkState (0 + 2)
       (Common.BarFinish :: Common.BarUpdate 1
        :: Common.Get ("https://async/job42" ++ "/status.txt")
        :: Common.Print Common.Waiting
        :: Common.Get (Common.request_url "CE01ISSM" "SBD17" "06-CTDBPC000"
                         "telemetered" "ctdbp_cdef_dcl_instrument" None None)
        :: [])).
Proof.
  apply (m2m_request_ready_at_first_check (Fixtures.ooinet (Some 1)) "CE01ISSM" "SBD17"
           "06-CTDBPC000" "telemetered" "ctdbp_cdef_dcl_instrument" None None
           Fixtures.start_state Fixtures.descriptor
           ["https://thredds/catalog.html"; "https://async/job42"]%string
           "https://async/job42"); reflexivity.
Defined.

(* ================================================================== *)
(** * The export request and the catalog scan                           *)
(* ================================================================== *)

Module RequestFacts.
Import Py Re Common.
Local Open Scope string_scope.

Lemma poll_log (remote : Remote) (url : string) (n : nat) (i : Z)
      (el : option spec_float) (st : State) :
  exists evs, log (snd (poll remote url n i el st)) = (evs ++ log st)%list.
Proof.
  revert i el st. induction n as [|n IH]; intros i el st.
  - exists []. reflexivity.
  - cbn [poll]. unfold bind, requests_get, emit. cbn.
    destruct (status_code (respond remote (sent st) url) =? codes_ok)%Z.
    + destruct el; cbn.
      * exists [Print (Completed s); BarFinish; BarUpdate 1; Get url]. reflexivity.
      * exists [BarFinish; BarUpdate 1; Get url]. reflexivity.
    + destruct (IH (i + 1)%Z
                  (Some (F64.div (F64.of_int (i * 3)) (F64.of_int 60)))
                  (mkState (S (sent st)) (Sleep 3 :: BarUpdate 1 :: Get url :: log st)))
        as [evs Hevs].
      exists (evs ++ [Sleep 3; BarUpdate 1; Get url])%list.
      rewrite <- app_assoc. exact Hevs.
Qed.

(** Whatever happens afterwards, the first thing [m2m_request] does is to
    GET the export address. *)
Lemma m2m_request_first_get (remote : Remote) (site node sensor method stream : string)
      (start stop : option string) (st : State) :
  exists evs,
    log (snd (m2m_request remote site node sensor method stream start stop st))
    = (evs ++ Get (request_url site node sensor method stream start stop) :: log st)%list.
Proof.
  unfold m2m_request, bind, requests_get.
  set (export := request_url site node sensor method stream start stop).
  destruct (status_code (respond remote (sent st) export) =? codes_ok)%Z;
    [|exists []; reflexivity].
  unfold lift. destruct (json (respond remote (sent st) export)) as [data|e];
    [|exists []; reflexivity].
  unfold emit. cbn [sent log].
  destruct (rbind (getitem "allURLs" data) _) as [check|e];
    [|exists [Print Waiting]; reflexivity].
  destruct (poll_log remote check 200 0%Z None
              (mkState (S (sent st)) (Print Waiting :: Get export :: log st)))
    as [evs Hevs].
  destruct (poll remote check 200 0%Z None _) as [[[]|e] st'];
    cbn [snd log] in *; unfold ret; cbn [snd];
    exists (evs ++ [Print Waiting])%list; rewrite Hevs, <- app_assoc; reflexivity.
Qed.

Lemma search_empty (t : string) : re_search Empty t = true.
Proof. destruct t; reflexivity. Qed.

End RequestFacts.

(** C6: without start and stop the query string is exactly
    [?beginDT=0&format=application/netcdf], so it has [beginDT=0] and no
    [endDT]; a supplied (non-empty) start or stop is carried by [beginDT]
    or [endDT]; and this string is the tail of the address [m2m_request]
    sends its first GET to. *)
Theorem m2m_request_query_string (start stop : string) :
  start <> ""%string -> stop <> ""%string ->
  (Common.request_options None None = "?beginDT=0&format=application/netcdf"
   /\ Py.contains "beginDT=0" (Common.request_options None None) = true
   /\ Py.contains "endDT" (Common.request_options None None) = false)%string
  /\ (Common.request_options (Some start) None
      = "?beginDT=" ++ start ++ "&format=application/netcdf")%string
  /\ (Common.request_options None (Some stop)
      = "?beginDT=0" ++ "&endDT=" ++ stop ++ "&format=application/netcdf")%string
  /\ (Common.request_options (Some start) (Some stop)
      = "?beginDT=" ++ start ++ "&endDT=" ++ stop ++ "&format=application/netcdf")%string
  /\ (forall remote site node sensor method stream begin_dt end_dt st,
        exists evs,
          Common.log (snd (Common.m2m_request remote site node sensor method stream
                             begin_dt end_dt st))
          = evs ++ Common.Get (Common.BASE_URL ++ Common.SENSOR_URL ++ site ++ "/"
                               ++ node ++ "/" ++ sensor ++ "/" ++ method ++ "/"
                               ++ stream ++ Common.request_options begin_dt end_dt)%string
                   :: Common.log st).
Proof.
  intros Hstart Hstop.
  apply String.eqb_neq in Hstart. apply String.eqb_neq in Hstop.
  unfold Common.request_options. rewrite Hstart, Hstop.
  repeat split; try reflexivity.
  intros. apply RequestFacts.m2m_request_first_get.
Qed.

(** C6's theorem for a request bounded by the year 2019. *)
Lemma m2m_request_query_string_witness :
  (Common.request_options (Some "2019-01-01T00:00:00.000Z") (Some "2020-01-01T00:00:00.000Z")
   = "?beginDT=" ++ "2019-01-01T00:00:00.000Z" ++ "&endDT=" ++ "2020-01-01T00:00:00.000Z"
     ++ "&format=application/netcdf")%string.
Proof.
  apply (m2m_request_query_string "2019-01-01T00:00:00.000Z" "2020-01-01T00:00:00.000Z");
    discriminate.
Defined.

(** C7 (as amended): [list_files] sends one GET for the page.  When
    [re.compile] accepts the tag, it returns, in page order, exactly the
    [href]s of the anchors that have a link text in which the compiled tag
    finds a match; when [re.compile] rejects the tag, its error is raised.
    With the empty tag the anchors kept are those that have a link text:
    an anchor without a single text child is never returned.  On the page
    with links data_20200101.nc, data_20200101.nc.md5 and readme.txt the
    tag [\.nc$] keeps data_20200101.nc alone. *)
Theorem list_files_matching
        (remote : Common.Remote) (lib : Re.library) (url tag : string)
        (st : Common.State) :
  let anchors := Common.find_all_a (Common.respond remote (Common.sent st) url) in
  let kept := fun p =>
    filter (fun node => match Common.text node with
                        | Some t => Re.pattern_search p t
                        | None => false
                        end) anchors in
  let st1 := Common.mkState (S (Common.sent st)) (Common.Get url :: Common.log st) in
  (forall p,
      Re.compile_tag lib tag = Py.Ok p ->
      Common.list_files remote lib url tag st = (Py.Ok (map Common.href (kept p)), st1)
      /\ (forall node, In node (kept p) <->
            In node anchors /\
            exists t, Common.text node = Some t /\ Re.pattern_search p t = true))
  /\ (forall e,
        Re.compile_tag lib tag = Py.Raise e ->
        Common.list_files remote lib url tag st = (Py.Raise e, st1))
  /\ Common.list_files remote lib url "" st
     = (Py.Ok (map Common.href
                   (filter (fun node => match Common.text node with
                                        | Some _ => true
                                        | None => false
                                        end) anchors)), st1)
  /\ fst (Common.list_files (Fixtures.thredds Fixtures.catalog_page) lib url "\.nc$"
            Fixtures.start_state)
     = Py.Ok [Some "data_20200101.nc"%string].
Proof.
  intros anchors kept st1. split; [|split; [|split]].
  - intros p Hc. split.
    + unfold Common.list_files, Common.bind, Common.requests_get, Common.lift.
      rewrite Hc. reflexivity.
    + intros node. unfold kept. rewrite filter_In. split.
      * intros [Hin Hm]. split; [assumption|].
        destruct (Common.text node) as [t|]; [exists t; auto | discriminate].
      * intros [Hin [t [Ht Hm]]]. split; [assumption|]. rewrite Ht. assumption.
  - intros e Hc.
    unfold Common.list_files, Common.bind, Common.requests_get, Common.lift.
    rewrite Hc. reflexivity.
  - unfold Common.list_files, Common.bind, Common.requests_get, Common.lift, Common.ret.
    cbn [Re.compile_tag Re.compile Re.tokenize Re.build]. fold anchors. fold st1.
    do 3 f_equal. apply filter_ext. intros node.
    destruct (Common.text node) as [t|]; [apply RequestFacts.search_empty|reflexivity].
  - reflexivity.
Qed.

(** C7's theorem on the sample page with the tag [\.nc$]. *)
Lemma list_files_matching_witness :
  Common.list_files (Fixtures.thredds Fixtures.catalog_page) Fixtures.plain_re
    "catalog" "\.nc$" Fixtures.start_state
  = (Py.Ok (map Common.href [Fixtures.link "data_20200101.nc"]),
     Common.mkState 1 [Common.Get "catalog"%string]).
Proof.
  apply (proj1 (list_files_matching (Fixtures.thredds Fixtures.catalog_page)
                  Fixtures.plain_re "catalog" "\.nc$" Fixtures.start_state)
           (Re.Parsed (Re.Seq (Re.Chr ".") (Re.Seq (Re.Chr "n") (Re.Seq (Re.Chr "c")
              (Re.Seq Re.Eol Re.Empty)))))).
  reflexivity.
Defined.

(** The claim as first stated fails on a page with a link around an image:
    the empty tag does not return that link. *)
Lemma list_files_empty_tag_counterexample :
  map Common.href Fixtures.icon_page
  = [Some "data_20200101.nc"%string; Some "logo.png"%string] /\
  fst (Common.list_files (Fixtures.thredds Fixtures.icon_page) Fixtures.plain_re
         "catalog" "" Fixtures.start_state)
  = Py.Ok [Some "data_20200101.nc"%string].
Proof. split; reflexivity. Qed.

(* ================================================================== *)
(** * Facts about dictionaries                                          *)
(* ================================================================== *)

Module DictFacts.
Import Py.
Local Open Scope string_scope.

Lemma str_in_In (k : string) (l : list string) : str_in k l = true <-> In k l.
Proof.
  unfold str_in. rewrite existsb_exists. split.
  - intros [x [Hin Heq]]. apply String.eqb_eq in Heq. subst. assumption.
  - intros Hin. exists k. split; [assumption|apply String.eqb_refl].
Qed.

Lemma str_in_false (k : string) (l : list string) : str_in k l = false <-> ~ In k l.
Proof.
  rewrite <- str_in_In. destruct (str_in k l); split; congruence.
Qed.

Section Dict.
Context {V W : Type}.

Lemma get_map_values (g : V -> W) (k : string) (d : dict V) :
  get k (map (fun kv => (fst kv, g (snd kv))) d) = option_map g (get k d).
Proof.
  induction d as [|[k' v] d IH]; [reflexivity|].
  cbn [map get fst snd]. destruct (String.eqb k k'); [reflexivity|exact IH].
Qed.

Lemma get_filter_keys (p : string -> bool) (k : string) (d : dict V) :
  get k (filter (fun kv => p (fst kv)) d) = if p k then get k d else None.
Proof.
  induction d as [|[k' v] d IH].
  - destruct (p k); reflexivity.
  - cbn [filter fst get]. destruct (p k') eqn:Hp'.
    + cbn [get]. destruct (String.eqb k k') eqn:E.
      * apply String.eqb_eq in E. subst. rewrite Hp'. reflexivity.
      * exact IH.
    + destruct (String.eqb k k') eqn:E.
      * apply String.eqb_eq in E. subst. rewrite Hp' in IH |- *. exact IH.
      * exact IH.
Qed.

Lemma get_app (k : string) (d1 d2 : dict V) :
  get k (d1 ++ d2)%list = match get k d1 with Some v => Some v | None => get k d2 end.
Proof.
  induction d1 as [|[k' v] d1 IH]; [reflexivity|].
  cbn [app get]. destruct (String.eqb k k'); [reflexivity|exact IH].
Qed.


Lemma get_set_same (k : string) (v : V) (d : dict V) : get k (set k v d) = Some v.
Proof.
  induction d as [|[k' v'] d IH]; cbn [set get].
  - rewrite String.eqb_refl. reflexivity.
  - destruct (String.eqb k k') eqn:E; cbn [get]; rewrite ?String.eqb_refl, ?E; auto.
Qed.

Lemma get_set_other (k k0 : string) (v : V) (d : dict V) :
  k0 <> k -> get k0 (set k v d) = get k0 d.
Proof.
  intros Hne. apply String.eqb_neq in Hne.
  induction d as [|[k' v'] d IH]; cbn [set get].
  - rewrite Hne. reflexivity.
  - destruct (String.eqb k k') eqn:E; cbn [get].
    + apply String.eqb_eq in E. subst. rewrite Hne. reflexivity.
    + destruct (String.eqb k0 k'); [reflexivity|exact IH].
Qed.

Lemma keys_set_present (k : string) (v : V) (d : dict V) :
  mem k d = true -> keys (set k v d) = keys d.
Proof.
  unfold mem, keys. induction d as [|[k' v'] d IH]; [discriminate|].
  cbn [get set]. destruct (String.eqb k k') eqn:E.
  - intros _. apply String.eqb_eq in E. subst. reflexivity.
  - intros H. cbn [map fst]. f_equal. auto.
Qed.

Lemma mem_keys (k : string) (d : dict V) : mem k d = true <-> In k (keys d).
Proof.
  unfold mem, keys. induction d as [|[k' v'] d IH]; cbn [get map fst].
  - split; [discriminate|intros []].
  - destruct (String.eqb k k') eqn:E.
    + apply String.eqb_eq in E. subst. split; intros _; [left; reflexivity|reflexivity].
    + apply String.eqb_neq in E. rewrite IH. split; [intros H; right; exact H|].
      intros [H|H]; [congruence|assumption].
Qed.
End Dict.
End DictFacts.

(* ================================================================== *)
(** * Facts about sorting                                               *)
(* ================================================================== *)

Module SortFacts.
Import Py Xr.
Local Open Scope Z_scope.

Lemma insert_key_perm (x : Z * nat) (l : list (Z * nat)) :
  Permutation (insert_key x l) (x :: l).
Proof.
  induction l as [|y l IH]; cbn [insert_key]; [reflexivity|].
  destruct (fst x <=? fst y); [reflexivity|].
  rewrite IH. apply perm_swap.
Qed.

Lemma insert_key_hd (x y : Z * nat) (l : list (Z * nat)) :
  le_key y x -> HdRel le_key y l -> HdRel le_key y (insert_key x l).
Proof.
  intros Hyx Hhd. destruct l as [|z l]; cbn [insert_key].
  - constructor. exact Hyx.
  - destruct (fst x <=? fst z); constructor; [exact Hyx|].
    inversion Hhd. assumption.
Qed.

Lemma insert_key_sorted (x : Z * nat) (l : list (Z * nat)) :
  Sorted le_key l -> Sorted le_key (insert_key x l).
Proof.
  induction 1 as [|y l Hs IH Hhd]; cbn [insert_key].
  - repeat constructor.
  - destruct (fst x <=? fst y) eqn:E.
    + apply Z.leb_le in E. repeat constructor; assumption.
    + apply Z.leb_gt in E. constructor; [exact IH|].
      apply insert_key_hd; [unfold le_key; lia|exact Hhd].
Qed.

Lemma sort_pairs_perm (l : list (Z * nat)) : Permutation (sort_pairs l) l.
Proof.
  induction l as [|x l IH]; [reflexivity|].
  cbn [sort_pairs fold_right]. rewrite insert_key_perm. constructor. exact IH.
Qed.

Lemma sort_pairs_sorted (l : list (Z * nat)) : Sorted le_key (sort_pairs l).
Proof.
  induction l as [|x l IH]; [constructor|].
  cbn [sort_pairs fold_right]. apply insert_key_sorted. exact IH.
Qed.

Lemma Sorted_map_fst (l : list (Z * nat)) :
  Sorted le_key l -> Sorted Z.le (map fst l).
Proof.
  induction 1 as [|y l Hs IH Hhd]; cbn [map]; constructor; [exact IH|].
  destruct Hhd; cbn [map]; constructor. assumption.
Qed.

(** Every pair of [combine keys (seq a n)] holds a key and its position. *)
Lemma combine_seq_nth (keys : list Z) (a : nat) (k : Z) (i : nat) :
  In (k, i) (combine keys (seq a (List.length keys))) ->
  (a <= i < a + List.length keys)%nat /\ nth (i - a) keys 0 = k.
Proof.
  revert a. induction keys as [|k0 keys IH]; intros a; cbn [List.length seq combine].
  - intros [].
  - intros [H|H].
    + injection H as -> ->. rewrite Nat.sub_diag. split; [lia|reflexivity].
    + apply IH in H. destruct H as [Hr Hn]. split; [lia|].
      replace (i - a)%nat with (S (i - S a)) by lia. exact Hn.
Qed.

Lemma argsort_perm (keys : list Z) :
  Permutation (argsort keys) (seq 0 (List.length keys)).
Proof.
  unfold argsort.
  rewrite sort_pairs_perm.
  assert (H : forall a, map snd (combine keys (seq a (List.length keys)))
                        = seq a (List.length keys)).
  { induction keys as [|k keys IH]; intros a; [reflexivity|].
    cbn [List.length seq combine map snd]. f_equal. apply IH. }
  rewrite H. reflexivity.
Qed.

(** The keys read in [argsort] order are the sorted keys. *)
Lemma argsort_keys (keys : list Z) :
  map (fun i => nth i keys 0) (argsort keys)
  = map fst (sort_pairs (combine keys (seq 0 (List.length keys)))).
Proof.
  unfold argsort.
  rewrite map_map. apply map_ext_in. intros [k i] Hin.
  apply (Permutation_in _ (sort_pairs_perm _)) in Hin.
  apply combine_seq_nth in Hin. destruct Hin as [_ Hn].
  rewrite Nat.sub_0_r in Hn. exact Hn.
Qed.

Lemma argsort_sorted (keys : list Z) :
  Sorted Z.le (map (fun i => nth i keys 0) (argsort keys)).
Proof.
  rewrite argsort_keys. apply Sorted_map_fst, sort_pairs_sorted.
Qed.


Lemma argsort_bound (keys : list Z) (i : nat) :
  In i (argsort keys) -> (i < List.length keys)%nat.
Proof.
  intros Hin. apply (Permutation_in _ (argsort_perm keys)) in Hin.
  apply in_seq in Hin. lia.
Qed.

End SortFacts.

(* ================================================================== *)
(** * Facts about the dataset methods                                   *)
(* ================================================================== *)

Module XrFacts.
Import Py Xr DictFacts SortFacts.
Local Open Scope string_scope.

Lemma rbind_ok {A B : Type} (m : res A) (f : A -> res B) (b : B) :
  rbind m f = Ok b -> exists a, m = Ok a /\ f a = Ok b.
Proof. destruct m as [a|e]; cbn; [eauto|discriminate]. Qed.

Lemma str_list_eqb_eq (a b : list string) : str_list_eqb a b = true -> a = b.
Proof. unfold str_list_eqb. destruct (list_eq_dec string_dec a b); congruence. Qed.

Lemma getitem_ok {V : Type} (k : string) (d : dict V) (v : V) :
  getitem k d = Ok v -> get k d = Some v.
Proof. unfold getitem. destruct (get k d); congruence. Qed.

Lemma opt_all_length {A : Type} (l : list (option A)) (xs : list A) :
  opt_all l = Some xs -> List.length xs = List.length l.
Proof.
  revert xs. induction l as [|[a|] l IH]; intros xs; cbn [opt_all].
  - intros [= <-]. reflexivity.
  - destruct (opt_all l) as [ys|]; [|discriminate].
    intros [= <-]. cbn [List.length]. f_equal. apply IH. reflexivity.
  - discriminate.
Qed.

Lemma opt_all_nth {A B : Type} (f : A -> option B) (l : list A) (ys : list B)
      (da : A) (db : B) (i : nat) :
  opt_all (map f l) = Some ys -> (i < List.length l)%nat ->
  f (nth i l da) = Some (nth i ys db).
Proof.
  revert ys i. induction l as [|a l IH]; intros ys i; cbn [map opt_all List.length].
  - lia.
  - destruct (f a) as [b|] eqn:Ea; [|discriminate].
    destruct (opt_all (map f l)) as [ys'|] eqn:E; [|discriminate].
    intros [= <-] Hi. destruct i as [|i]; cbn [nth]; [exact Ea|].
    apply IH; [reflexivity|lia].
Qed.

Lemma opt_all_map_some {A B : Type} (f : A -> option B) (g : A -> B) (l : list A) :
  (forall x, In x l -> f x = Some (g x)) -> opt_all (map f l) = Some (map g l).
Proof.
  induction l as [|a l IH]; intros H; [reflexivity|].
  cbn [map opt_all]. rewrite (H a (or_introl eq_refl)), IH; [reflexivity|].
  intros x Hx. apply H. right. exact Hx.
Qed.

(** The keys of a reordered array are the reordered keys. *)
Lemma keys_take (items : list ndarray) (keys : list Z) (order : list nat) :
  opt_all (map sort_key items) = Some keys ->
  (forall i, In i order -> (i < List.length items)%nat) ->
  opt_all (map sort_key (take order items))
  = Some (map (fun i => nth i keys 0%Z) order).
Proof.
  intros Hk Hb. unfold take. rewrite map_map.
  apply opt_all_map_some. intros i Hi.
  apply opt_all_nth with (1 := Hk). apply Hb. exact Hi.
Qed.

Lemma along_own_dim (key : string) (f : list ndarray -> list ndarray) (a : ndarray) :
  along key [key] f a = match a with Arr l => Arr (f l) | Item _ => a end.
Proof. destruct a; cbn [along]; [reflexivity|]. rewrite String.eqb_refl. reflexivity. Qed.

Lemma isel_keys (key : string) (v : Var) (keys : list Z) :
  dims v = [key] -> var_keys v = Some keys ->
  var_keys (isel key (argsort keys) v)
  = Some (map (fun i => nth i keys 0%Z) (argsort keys)).
Proof.
  intros Hd Hk. unfold var_keys, isel in *. cbn [values]. rewrite Hd, along_own_dim.
  destruct (values v) as [x|l]; cbn [items_of] in *.
  - injection Hk as <-. reflexivity.
  - apply keys_take; [exact Hk|].
    intros i Hi. apply argsort_bound in Hi.
    rewrite (opt_all_length _ _ Hk), length_map in Hi. exact Hi.
Qed.

Lemma swap_dims_ok (old new : string) (ds ds' : Dataset) :
  swap_dims old new ds = Ok ds' ->
  (exists v, get new (variables ds) = Some v /\ dims v = [old]) /\
  variables ds' = map (fun kv => (fst kv, rename_dim old new (snd kv))) (variables ds) /\
  coord_names ds' = add_name new (coord_names ds) /\
  attrs ds' = attrs ds.
Proof.
  unfold swap_dims. destruct (negb (has_dim old ds)); [discriminate|].
  intros H. apply rbind_ok in H. destruct H as [v [Hv H]].
  apply getitem_ok in Hv.
  destruct (str_list_eqb (dims v) [old]) eqn:E; [|discriminate].
  apply str_list_eqb_eq in E. injection H as <-. cbn. eauto 6.
Qed.

Lemma drop_ok (names : list string) (ds ds' : Dataset) :
  drop names ds = Ok ds' ->
  variables ds' = filter (fun kv => negb (str_in (fst kv) names)) (variables ds) /\
  coord_names ds' = filter (fun c => negb (str_in c names)) (coord_names ds) /\
  attrs ds' = attrs ds.
Proof.
  unfold drop. destruct (forallb _ names); [|discriminate].
  intros [= <-]. cbn. auto.
Qed.

Lemma sortby_ok (name : string) (ds ds' : Dataset) :
  sortby name ds = Ok ds' ->
  exists v key keys,
    get name (variables ds) = Some v /\ dims v = [key] /\ var_keys v = Some keys /\
    variables ds'
    = map (fun kv => (fst kv, isel key (argsort keys) (snd kv))) (variables ds) /\
    coord_names ds' = coord_names ds /\
    attrs ds' = attrs ds.
Proof.
  unfold sortby. intros H. apply rbind_ok in H. destruct H as [v [Hv H]].
  apply getitem_ok in Hv.
  destruct (dims v) as [|key [|]] eqn:Hd; try discriminate.
  destruct (var_keys v) as [keys|] eqn:Hk; [|discriminate].
  injection H as <-. exists v, key, keys. cbn. auto 7.
Qed.

End XrFacts.

(* ================================================================== *)
(** * Facts about [process_file]                                        *)
(* ================================================================== *)

Module FileFacts.
Import Py Re Xr Common DictFacts SortFacts XrFacts.
Local Open Scope string_scope.

Lemma bind_ok {A B : Type} (m : M A) (f : A -> M B) (st st' : State) (b : B) :
  bind m f st = (Ok b, st') ->
  exists a st1, m st = (Ok a, st1) /\ f a st1 = (Ok b, st').
Proof.
  unfold bind. destruct (m st) as [[a|e] st1]; [eauto|discriminate].
Qed.

Lemma lift_ok {A : Type} (m : res A) (st st' : State) (a : A) :
  lift m st = (Ok a, st') -> m = Ok a /\ st' = st.
Proof. unfold lift. intros [= -> ->]. auto. Qed.


Lemma compile_catalog : exists r, compile "catalog.html\?dataset=" = Ok r.
Proof. eexists. vm_compute. reflexivity. Qed.

(** The steps of a successful [process_file]. *)
Lemma process_file_ok (remote : Remote) (cf : option string) (st st' : State)
      (ds : Dataset) :
  process_file remote cf st = (Ok ds, st') ->
  exists xrd d1 d2 d3,
    swap_dims "obs" "time" xrd = Ok d1 /\
    drop bookkeeping d1 = Ok d2 /\
    sortby "time" d2 = Ok d3 /\
    ds = set_attrs (file_attrs (attrs d3)) d3.
Proof.
  unfold process_file. destruct cf as [f|]; [|discriminate].
  destruct compile_catalog as [r Hr]. rewrite Hr.
  intros H. apply bind_ok in H. destruct H as [pat [st1 [_ H]]].
  apply bind_ok in H. destruct H as [xrd [st2 [_ H]]].
  apply lift_ok in H. destruct H as [H _].
  apply rbind_ok in H. destruct H as [d1 [H1 H]].
  apply rbind_ok in H. destruct H as [d2 [H2 H]].
  apply rbind_ok in H. destruct H as [d3 [H3 H]].
  injection H as <-. exists xrd, d1, d2, d3. auto.
Qed.

Lemma renamed_dims (old new : string) (v : Var) :
  old <> new -> ~ In old (dims (rename_dim old new v)).
Proof.
  intros Hne Hin. cbn [rename_dim dims] in Hin. apply in_map_iff in Hin.
  destruct Hin as [d [Hd _]]. destruct (String.eqb d old) eqn:E.
  - congruence.
  - apply String.eqb_neq in E. congruence.
Qed.

Lemma In_add_name (k : string) (l : list string) : In k (add_name k l).
Proof.
  unfold add_name. destruct (str_in k l) eqn:E.
  - apply str_in_In. exact E.
  - apply in_or_app. right. left. reflexivity.
Qed.

(** What a dataset returned by [process_file] looks like. *)
Lemma process_file_shape (remote : Remote) (cf : option string) (st st' : State)
      (ds : Dataset) :
  process_file remote cf st = (Ok ds, st') ->
  (forall name, In name bookkeeping ->
     get name (variables ds) = None /\ ~ In name (coord_names ds)) /\
  (forall k v, get k (variables ds) = Some v -> ~ In "obs" (dims v)) /\
  (exists v keys, get "time" (variables ds) = Some v /\ dims v = ["time"] /\
                  var_keys v = Some keys /\ Sorted Z.le keys) /\
  In "time" (coord_names ds).
Proof.
  intros H. apply process_file_ok in H.
  destruct H as [xrd [d1 [d2 [d3 [H1 [H2 [H3 ->]]]]]]].
  apply swap_dims_ok in H1. destruct H1 as [[t [Ht Htd]] [Hv1 [Hc1 _]]].
  apply drop_ok in H2. destruct H2 as [Hv2 [Hc2 _]].
  apply sortby_ok in H3.
  destruct H3 as [v [key [keys [Hv [Hd [Hk [Hv3 [Hc3 _]]]]]]]].
  cbn [set_attrs variables coord_names].
  assert (Hget2 : forall k, get k (variables d2)
                  = if negb (str_in k bookkeeping)
                    then option_map (rename_dim "obs" "time") (get k (variables xrd))
                    else None).
  { intros k. rewrite Hv2, (get_filter_keys (fun k => negb (str_in k bookkeeping))).
    rewrite Hv1, (get_map_values (rename_dim "obs" "time")). reflexivity. }
  assert (Hget3 : forall k, get k (variables d3)
                  = option_map (isel key (argsort keys)) (get k (variables d2))).
  { intros k. rewrite Hv3. apply (get_map_values (isel key (argsort keys))). }
  split; [|split; [|split]].
  - intros name Hname. apply str_in_In in Hname. split.
    + rewrite Hget3, Hget2, Hname. reflexivity.
    + rewrite Hc3, Hc2. intros Hin. apply filter_In in Hin. destruct Hin as [_ Hin].
      rewrite Hname in Hin. discriminate.
  - intros k w Hw. rewrite Hget3, Hget2 in Hw.
    destruct (negb (str_in k bookkeeping)); [|discriminate].
    destruct (get k (variables xrd)) as [u|]; [|discriminate].
    injection Hw as <-. cbn [isel dims]. apply renamed_dims. discriminate.
  - exists (isel key (argsort keys) v), (map (fun i => nth i keys 0%Z) (argsort keys)).
    split; [rewrite Hget3, Hv; reflexivity|].
    split; [|split].
    + rewrite Hget2 in Hv. cbn in Hv. rewrite Ht in Hv.
      injection Hv as <-. cbn [isel rename_dim dims]. rewrite Htd. reflexivity.
    + apply isel_keys; assumption.
    + apply argsort_sorted.
  - rewrite Hc3, Hc2. apply filter_In. split; [|reflexivity].
    rewrite Hc1. apply In_add_name.
Qed.

End FileFacts.

(* ================================================================== *)
(** * Facts about [xr.concat]                                           *)
(* ================================================================== *)

Module ConcatFacts.
Import Py Re Xr Common DictFacts SortFacts XrFacts FileFacts.
Local Open Scope string_scope.






(** Reordering along the leading dimension reorders the rows. *)
Lemma along_leading (key : string) (rest : list string)
      (f : list ndarray -> list ndarray) (a : ndarray) :
  along key (key :: rest) f a = match a with Arr l => Arr (f l) | Item _ => a end.
Proof. destruct a as [x|l]; [reflexivity|]. cbn [along]. rewrite String.eqb_refl. reflexivity. Qed.




End ConcatFacts.

(** C8: a dataset returned by [process_file] has none of the bookkeeping
    fields ([obs], [id] and the four timestamp variables), neither as
    variables nor as coordinates; no variable is dimensioned by [obs] any
    more; and [time] is the index coordinate of its own dimension. *)
Theorem process_file_drops_bookkeeping
        (remote : Common.Remote) (catalog_file : option string)
        (st st' : Common.State) (ds : Xr.Dataset) :
  Common.process_file remote catalog_file st = (Py.Ok ds, st') ->
  (forall name,
     In name ["obs"; "id"; "driver_timestamp"; "ingestion_timestamp";
              "port_timestamp"; "preferred_timestamp"]%string ->
     Py.get name (Xr.variables ds) = None /\ ~ In name (Xr.coord_names ds)) /\
  (forall k v, Py.get k (Xr.variables ds) = Some v -> ~ In "obs"%string (Xr.dims v)) /\
  (exists v, Py.get "time" (Xr.variables ds) = Some v /\ Xr.dims v = ["time"%string]) /\
  In "time"%string (Xr.coord_names ds).
Proof.
  intros H. apply FileFacts.process_file_shape in H.
  destruct H as [Hb [Hobs [[v [keys [Hv [Hd _]]]] Hc]]].
  repeat split; try assumption.
  - apply Hb. assumption.
  - apply Hb. assumption.
  - exists v. auto.
Qed.

(** C8's theorem on the first file of the sample export. *)
Lemma process_file_drops_bookkeeping_witness :
  (forall name,
     In name ["obs"; "id"; "driver_timestamp"; "ingestion_timestamp";
              "port_timestamp"; "preferred_timestamp"]%string ->
     Py.get name (Xr.variables Fixtures.processed_a) = None /\
     ~ In name (Xr.coord_names Fixtures.processed_a)) /\
  (forall k v, Py.get k (Xr.variables Fixtures.processed_a) = Some v ->
               ~ In "obs"%string (Xr.dims v)) /\
  (exists v, Py.get "time" (Xr.variables Fixtures.processed_a) = Some v /\
             Xr.dims v = ["time"%string]) /\
  In "time"%string (Xr.coord_names Fixtures.processed_a).
Proof.
  apply (process_file_drops_bookkeeping Fixtures.data_server
           (Some "catalog.html?dataset=ooi/a.nc"%string) Fixtures.start_state
           (Common.mkState 0
              [Common.Open "https://opendap.oceanobservatories.org/thredds/dodsC/ooi/a.nc"])
           Fixtures.processed_a).
  vm_compute. reflexivity.
Defined.

(* ================================================================== *)
(** * Facts about [m2m_collect]                                         *)
(* ================================================================== *)

Module CollectFacts.
Import Py Re Xr Common DictFacts SortFacts XrFacts FileFacts ConcatFacts.
Local Open Scope string_scope.








End CollectFacts.



(** Two files that hold a spectrum along (obs, wavelength), and one of
    them a variable of its own: the merge has the four rows of the spectrum
    in time order, each row whole, and leaves the odd variable out. *)
Lemma m2m_collect_on_spectra :
  exists m st',
    Common.m2m_collect Fixtures.spectral_server Fixtures.plain_re Fixtures.descriptor
      "\.nc$" Fixtures.start_state = (Py.Ok m, st') /\
    Xr.time_keys m = Some [0; 1; 1; 2]%Z /\
    Xr.rows_of "spectrum" ["wavelength"%string] m
      [Xr.Arr [Xr.Item (Xr.SInt 1); Xr.Item (Xr.SInt 2)];
       Xr.Arr [Xr.Item (Xr.SInt 11); Xr.Item (Xr.SInt 12)];
       Xr.Arr [Xr.Item (Xr.SInt 13); Xr.Item (Xr.SInt 14)];
       Xr.Arr [Xr.Item (Xr.SInt 21); Xr.Item (Xr.SInt 22)]] /\
    Py.get "battery"%string (Xr.variables m) = None.
Proof.
  eexists. eexists. split; [vm_compute; reflexivity|].
  split; [reflexivity|]. split; [|reflexivity].
  eexists. split; [reflexivity|]. split; reflexivity.
Qed.

(* ================================================================== *)
(** * Facts about the patterns                                          *)
(* ================================================================== *)

Module ReFacts.
Import Py Re.
Local Open Scope string_scope.

Lemma compile_qc : compile "^.+_qc_.+$" = Ok qc_regex.
Proof. vm_compute. reflexivity. Qed.
Lemma compile_executed : compile "^.+_qc_executed$" = Ok executed_regex.
Proof. vm_compute. reflexivity. Qed.
Lemma compile_results : compile "^.+_qc_results$" = Ok results_regex.
Proof. vm_compute. reflexivity. Qed.

Lemma or_else_some {A : Type} (a b : option A) (x : A) :
  or_else a b = Some x -> a = Some x \/ b = Some x.
Proof. destruct a; cbn; auto. Qed.

Lemma or_else_is_some {A : Type} (a b : option A) :
  a <> None \/ b <> None -> or_else a b <> None.
Proof. destruct a; cbn; [congruence|tauto]. Qed.

(** The greedy loop over [.], with enough rounds, is [any_star]. *)
Lemma star_any (k : bool -> string -> option string) (n : nat) (b : bool) (s : string) :
  (String.length s <= n)%nat ->
  star_loop (matchk AnyChar) k n b s = any_star k b s.
Proof.
  revert b s. induction n as [|n IH]; intros b s Hn.
  - destruct s; [reflexivity|cbn in Hn; lia].
  - cbn [star_loop matchk]. destruct s as [|c s]; [reflexivity|].
    cbn [any_star]. destruct (Ascii.eqb c newline); [reflexivity|].
    cbn [String.length]. rewrite (proj2 (Nat.ltb_lt _ _)) by lia.
    rewrite IH by (cbn in Hn; lia). reflexivity.
Qed.

(** A pattern [^.+L] asks for one character that is not a newline, then
    [.*], then [L]. *)
Lemma match_dot_plus (L : regex) (v : string) :
  match_at (Seq Bol (Seq (Plus AnyChar) L)) true v
  = match v with
    | String c s' =>
        if Ascii.eqb c newline then None
        else any_star (fun b s => matchk L b s ret_rest) false s'
    | EmptyString => None
    end.
Proof.
  unfold match_at. cbn [matchk]. destruct v as [|c s']; [reflexivity|].
  destruct (Ascii.eqb c newline); [reflexivity|].
  apply star_any. lia.
Qed.

Lemma any_star_sound (k : bool -> string -> option string) (b : bool) (s r : string) :
  any_star k b s = Some r ->
  exists w x b', s = w ++ x /\ newline_free w = true /\ k b' x = Some r.
Proof.
  revert b. induction s as [|c s IH]; intros b; cbn [any_star].
  - intros H. exists "", "", b. auto.
  - destruct (Ascii.eqb c newline) eqn:E.
    + intros H. exists "", (String c s), b. auto.
    + intros H. apply or_else_some in H. destruct H as [H|H].
      * apply IH in H. destruct H as [w [x [b' [-> [Hw Hk]]]]].
        exists (String c w), x, b'. cbn [newline_free]. rewrite E, Hw. auto.
      * exists "", (String c s), b. auto.
Qed.

Lemma any_star_complete (k : bool -> string -> option string) (b : bool) (w x : string) :
  newline_free w = true -> (forall b', k b' x <> None) ->
  any_star k b (w ++ x) <> None.
Proof.
  intros Hw Hk. revert b. induction w as [|c w IH]; intros b.
  - cbn [append]. destruct x as [|c x]; cbn [any_star]; [apply Hk|].
    destruct (Ascii.eqb c newline); [apply Hk|].
    apply or_else_is_some. right. apply Hk.
  - cbn [newline_free] in Hw. apply andb_prop in Hw. destruct Hw as [Hc Hw].
    cbn [append any_star]. apply negb_true_iff in Hc. rewrite Hc.
    apply or_else_is_some. left. apply IH. exact Hw.
Qed.

Lemma matchk_lit (l : string) (r : regex) (b : bool) (s : string)
      (k : bool -> string -> option string) (x : string) :
  matchk (lit l r) b s k = Some x ->
  exists s' b', s = l ++ s' /\ matchk r b' s' k = Some x.
Proof.
  revert b s. induction l as [|c l IH]; intros b s; cbn [lit].
  - intros H. exists s, b. auto.
  - cbn [matchk]. destruct s as [|c' s]; [discriminate|].
    destruct (Ascii.eqb c c') eqn:E; [|discriminate].
    apply Ascii.eqb_eq in E. subst c'. intros H. apply IH in H.
    destruct H as [s' [b' [-> H]]]. exists s', b'. auto.
Qed.

Lemma matchk_eol (b : bool) (s x : string) :
  matchk (Seq Eol Empty) b s ret_rest = Some x ->
  s = "" \/ s = String newline "".
Proof.
  cbn [matchk]. destruct s as [|c [|c' s]]; [auto| |discriminate].
  destruct (Ascii.eqb c newline) eqn:E; [|discriminate].
  apply Ascii.eqb_eq in E. subst. auto.
Qed.

Lemma is_suffix_app (w x : string) : is_suffix x (w ++ x) = true.
Proof.
  induction w as [|c w IH]; cbn [append].
  - destruct x; cbn [is_suffix]; rewrite String.eqb_refl; reflexivity.
  - cbn [is_suffix]. rewrite IH. apply orb_true_r.
Qed.

(** Two suffixes of one text: one is a suffix of the other. *)
Lemma is_suffix_comparable (x y s : string) :
  is_suffix x s = true -> is_suffix y s = true ->
  is_suffix x y = true \/ is_suffix y x = true.
Proof.
  induction s as [|c s IH]; cbn [is_suffix]; intros Hx Hy.
  - rewrite orb_false_r in Hx, Hy. apply String.eqb_eq in Hx, Hy. subst.
    left. reflexivity.
  - apply orb_prop in Hx. apply orb_prop in Hy.
    destruct Hx as [Hx|Hx].
    + apply String.eqb_eq in Hx. subst x. right.
      cbn [is_suffix]. destruct Hy as [Hy|Hy]; rewrite Hy; auto using orb_true_r.
    + destruct Hy as [Hy|Hy].
      * apply String.eqb_eq in Hy. subst y. left.
        cbn [is_suffix]. rewrite Hx. apply orb_true_r.
      * auto.
Qed.

(** What a name accepted by [^.+<l>$] looks like. *)
Lemma dot_plus_lit_inv (l v : string) :
  re_match (Seq Bol (Seq (Plus AnyChar) (lit l (Seq Eol Empty)))) v = true ->
  exists c w t,
    v = String c (w ++ l ++ t) /\ Ascii.eqb c newline = false /\
    newline_free w = true /\ (t = "" \/ t = String newline "").
Proof.
  unfold re_match. rewrite match_dot_plus.
  destruct v as [|c s']; [discriminate|].
  destruct (Ascii.eqb c newline) eqn:E; [discriminate|].
  destruct (any_star _ false s') as [r|] eqn:Hs; [|discriminate].
  intros _. apply any_star_sound in Hs. destruct Hs as [w [x [b' [-> [Hw Hk]]]]].
  apply matchk_lit in Hk. destruct Hk as [t [b'' [-> Hk]]].
  apply matchk_eol in Hk. exists c, w, t. auto.
Qed.


Lemma executed_is_qc (v : string) :
  re_match executed_regex v = true -> re_match qc_regex v = true.
Proof.
  intros H. apply dot_plus_lit_inv in H.
  destruct H as [c [w [t [-> [Hc [Hw Ht]]]]]].
  unfold re_match, qc_regex. rewrite match_dot_plus, Hc.
  match goal with |- match ?o with _ => _ end = true =>
    assert (Hs : o <> None); [|destruct o; congruence] end.
  apply any_star_complete; [exact Hw|].
  intros b'. destruct Ht as [-> | ->]; destruct b'; vm_compute; discriminate.
Qed.

Lemma executed_not_results (v : string) :
  re_match executed_regex v = true -> re_match results_regex v = false.
Proof.
  intros He. destruct (re_match results_regex v) eqn:Hr; [exfalso|reflexivity].
  apply dot_plus_lit_inv in He. destruct He as [c [w [t [-> [_ [_ Ht]]]]]].
  apply dot_plus_lit_inv in Hr. destruct Hr as [c' [w' [t' [Hv [_ [_ Ht']]]]]].
  injection Hv as _ Hv.
  assert (Hv' : w ++ ("_qc_executed" ++ t) = w' ++ ("_qc_results" ++ t')) by exact Hv.
  pose proof (is_suffix_app w ("_qc_executed" ++ t)) as H1.
  pose proof (is_suffix_app w' ("_qc_results" ++ t')) as H2.
  rewrite <- Hv' in H2.
  destruct (is_suffix_comparable _ _ _ H1 H2) as [H|H];
    destruct Ht as [-> | ->]; destruct Ht' as [-> | ->];
    vm_compute in H; discriminate.
Qed.

Lemma time_not_executed : re_match executed_regex "time" = false.
Proof. vm_compute. reflexivity. Qed.

End ReFacts.

(* ================================================================== *)
(** * Facts about [update_dataset]                                      *)
(* ================================================================== *)

Module QcFacts.
Import Py Re Xr Common DictFacts XrFacts ReFacts.
Local Open Scope string_scope.

Lemma only_at_refl (v : string) (ds : Dataset) : only_at v ds ds.
Proof. split; auto. Qed.

Lemma only_at_trans (v : string) (a b c : Dataset) :
  only_at v a b -> only_at v b c -> only_at v a c.
Proof.
  intros [H1 K1] [H2 K2]. split; [|congruence].
  intros k Hk. rewrite H2, H1 by assumption. reflexivity.
Qed.

Lemma set_var_present (k : string) (x : Var) (ds : Dataset) :
  mem k (variables ds) = true ->
  only_at k ds (set_var k x ds) /\ get k (variables (set_var k x ds)) = Some x.
Proof.
  intros Hm. cbn [set_var variables]. split; [split|].
  - intros k0 Hk0. apply get_set_other. exact Hk0.
  - apply keys_set_present. exact Hm.
  - apply get_set_same.
Qed.

Lemma get_mem {V : Type} (k : string) (d : dict V) (v : V) :
  get k d = Some v -> mem k d = true.
Proof. unfold mem. intros ->. reflexivity. Qed.

Lemma set_var_attr_spec (v a : string) (x : attr) (ds ds' : Dataset) :
  set_var_attr v a x ds = Ok ds' ->
  only_at v ds ds' /\ has_attr v a x ds' /\
  (forall a0 x0, a0 <> a -> has_attr v a0 x0 ds -> has_attr v a0 x0 ds').
Proof.
  unfold set_var_attr. intros H. apply rbind_ok in H. destruct H as [var [Hv H]].
  apply getitem_ok in Hv. injection H as <-.
  destruct (set_var_present v (mkVar (dims var) (values var) (set a x (var_attrs var))) ds
              (get_mem _ _ _ Hv)) as [Ho Hg].
  split; [exact Ho|]. split.
  - eexists. split; [exact Hg|]. cbn [var_attrs]. apply get_set_same.
  - intros a0 x0 Hne [var0 [Hv0 Ha0]]. rewrite Hv in Hv0. injection Hv0 as <-.
    eexists. split; [exact Hg|]. cbn [var_attrs]. rewrite get_set_other; assumption.
Qed.

Lemma setitem_ok (k : string) (v : Var) (ds ds' : Dataset) :
  setitem k v ds = Ok ds' -> ds' = set_var k v ds.
Proof. unfold setitem. destruct (sizes_agree k v ds); congruence. Qed.

(** [qc_flags] touches one variable and leaves it with the masks and the
    meanings it was given. *)
Lemma qc_flags_spec (v meanings comment pat suffix : string) (ds ds' : Dataset) :
  qc_flags v meanings comment pat suffix ds = Ok ds' ->
  only_at v ds ds' /\
  has_attr v "flag_masks" (AArr flag_masks) ds' /\
  has_attr v "flag_meanings" (AStr meanings) ds'.
Proof.
  unfold qc_flags. intros H.
  apply rbind_ok in H. destruct H as [d1 [H1 H]].
  apply rbind_ok in H. destruct H as [d2 [H2 H]].
  apply rbind_ok in H. destruct H as [d3 [H3 H]].
  apply rbind_ok in H. destruct H as [p [_ H]].
  apply rbind_ok in H. destruct H as [d4 [H4 H]].
  apply rbind_ok in H. destruct H as [anc [_ H]].
  apply set_var_attr_spec in H1. destruct H1 as [O1 [A1 _]].
  apply set_var_attr_spec in H2. destruct H2 as [O2 [A2 K2]].
  apply set_var_attr_spec in H3. destruct H3 as [O3 [_ K3]].
  apply set_var_attr_spec in H4. destruct H4 as [O4 [_ K4]].
  assert (O : only_at v ds d4) by eauto using only_at_trans.
  assert (M : has_attr v "flag_masks" (AArr flag_masks) d4).
  { apply K4; [discriminate|]. apply K3; [discriminate|]. apply K2; [discriminate|].
    exact A1. }
  assert (F : has_attr v "flag_meanings" (AStr meanings) d4).
  { apply K4; [discriminate|]. apply K3; [discriminate|]. exact A2. }
  destruct (get "standard_name" (var_attrs anc)) as [[sn|]|].
  - apply set_var_attr_spec in H. destruct H as [O5 [_ K5]].
    split; [eauto using only_at_trans|]. split; apply K5; (discriminate || assumption).
  - discriminate.
  - injection H as <-. auto.
Qed.

(** One round of the QC loop. *)
Lemma update_qc_spec (ds ds' : Dataset) (v : string) :
  update_qc qc_regex executed_regex results_regex ds v = Ok ds' ->
  only_at v ds ds' /\
  (re_match executed_regex v = true -> flagged ds' v).
Proof.
  unfold update_qc. destruct (re_match qc_regex v) eqn:Hqc.
  - intros H.
    apply rbind_ok in H. destruct H as [var [Hvar H]].
    apply rbind_ok in H. destruct H as [row [_ H]].
    destruct row as [x|xs]; [discriminate|].
    apply rbind_ok in H. destruct H as [bytes [_ H]].
    apply rbind_ok in H. destruct H as [d1 [H1 H]].
    apply rbind_ok in H. destruct H as [p1 [_ H]].
    apply rbind_ok in H. destruct H as [p2 [_ H]].
    apply rbind_ok in H. destruct H as [d2 [H2 H]].
    apply rbind_ok in H. destruct H as [d3 [H3 H]].
    apply getitem_ok in Hvar.
    apply setitem_ok in H1. subst d1.
    destruct (set_var_present v (mkVar ["station"; "time"] (Arr [Arr bytes]) []) ds
                (get_mem _ _ _ Hvar)) as [O1 _].
    apply set_var_attr_spec in H2. destruct H2 as [O2 _].
    assert (O12 : only_at v ds d2) by eauto using only_at_trans.
    destruct (re_match executed_regex v) eqn:Hex.
    + apply qc_flags_spec in H3. destruct H3 as [O3 [[var1 [Hg1 Hm]] [var2 [Hg2 Hf]]]].
      rewrite (executed_not_results v Hex) in H. injection H as <-.
      split; [eauto using only_at_trans|]. intros _.
      rewrite Hg1 in Hg2. injection Hg2 as <-.
      exists var1. split; [exact Hg1|]. split; assumption.
    + injection H3 as <-. split; [|discriminate].
      destruct (re_match results_regex v).
      * apply qc_flags_spec in H. destruct H as [O3 _]. eauto using only_at_trans.
      * injection H as <-. exact O12.
  - intros [= <-]. split; [apply only_at_refl|].
    intros Hex. apply executed_is_qc in Hex. congruence.
Qed.

Lemma flagged_only_at (v k : string) (ds ds' : Dataset) :
  only_at v ds ds' -> k <> v -> flagged ds k -> flagged ds' k.
Proof.
  intros [Hg _] Hne [var [Hv Hf]]. exists var. rewrite Hg by assumption. auto.
Qed.

(** The QC loop over the names [ks]. *)
Lemma qc_loop_spec (ks : list string) (ds ds' : Dataset) :
  rfold (update_qc qc_regex executed_regex results_regex) ks ds = Ok ds' ->
  keys (variables ds') = keys (variables ds) /\
  (forall v, re_match executed_regex v = true -> flagged ds v -> flagged ds' v) /\
  (forall v, In v ks -> re_match executed_regex v = true -> flagged ds' v).
Proof.
  revert ds. induction ks as [|v0 ks IH]; intros ds; cbn [rfold].
  - intros [= <-]. split; [reflexivity|]. split; [auto|intros v []].
  - intros H. apply rbind_ok in H. destruct H as [d1 [H1 H]].
    apply update_qc_spec in H1. destruct H1 as [O1 E1].
    apply IH in H. destruct H as [K [P E]].
    assert (P1 : forall v, re_match executed_regex v = true -> flagged ds v -> flagged d1 v).
    { intros v Hex Hf. destruct (string_dec v v0) as [->|Hne]; [auto|].
      apply flagged_only_at with (1 := O1); assumption. }
    split; [destruct O1; congruence|]. split.
    + intros v Hex Hf. apply P; auto.
    + intros v [<-|Hin] Hex; [apply P; auto|apply E; assumption].
Qed.


Lemma replace_var_attrs_ok (k : string) (d : dict attr) (ds ds' : Dataset) :
  replace_var_attrs k d ds = Ok ds' -> only_at k ds ds'.
Proof.
  unfold replace_var_attrs. intros H. apply rbind_ok in H. destruct H as [v [Hv H]].
  apply getitem_ok in Hv. injection H as <-.
  apply set_var_present. apply get_mem with (1 := Hv).
Qed.

(** The steps of a successful [update_dataset]. *)
Lemma update_dataset_steps (ds : Dataset) (depth : scalar) (out : Dataset) :
  update_dataset ds depth = Ok out ->
  exists d1 sa d2 located subsite geo d3 d4 db da x dt,
    expand_dims "station" (set_scalar_coord "station" (SInt 0) ds) = Ok d1 /\
    replace_var_attrs "station" sa d1 = Ok d2 /\
    locate d2 = Ok located /\
    geo_coords subsite (fst (fst located)) (snd (fst located)) (Item depth) = Ok geo /\
    merge (snd located) geo = Ok d3 /\
    rfold (fun ds v =>
             if str_in v ["time"; "lat"; "lon"; "z"; "station"] then Ok ds
             else set_var_attr v "coordinates" (AStr "time lon lat z") ds)
          (keys (variables d3)) d3 = Ok d4 /\
    set_var_attr "deployment" "long_name" (AStr "Deployment Number") d4 = Ok db /\
    rfold (update_qc qc_regex executed_regex results_regex) (keys (variables db)) db
    = Ok da /\
    mem "time" (variables da) = true /\
    setitem "time" x da = Ok dt /\
    replace_var_attrs "time" time_attrs dt = Ok out.
Proof.
  unfold update_dataset. intros H.
  apply rbind_ok in H. destruct H as [d1 [H1 H]].
  apply rbind_ok in H. destruct H as [subsite [_ H]].
  apply rbind_ok in H. destruct H as [sa [_ H]].
  apply rbind_ok in H. destruct H as [d2 [H2 H]].
  apply rbind_ok in H. destruct H as [located [Hloc H]].
  apply rbind_ok in H. destruct H as [subsite' [_ H]].
  apply rbind_ok in H. destruct H as [geo [Hgeo H]].
  apply rbind_ok in H. destruct H as [d3 [H3 H]].
  apply rbind_ok in H. destruct H as [d4 [H4 H]].
  apply rbind_ok in H. destruct H as [db [H5 H]].
  apply rbind_ok in H. destruct H as [pq [Hq H]].
  apply rbind_ok in H. destruct H as [pe [He H]].
  apply rbind_ok in H. destruct H as [pr [Hr H]].
  rewrite compile_qc in Hq. rewrite compile_executed in He. rewrite compile_results in Hr.
  injection Hq as <-. injection He as <-. injection Hr as <-.
  apply rbind_ok in H. destruct H as [da [Hloop H]].
  apply rbind_ok in H. destruct H as [time [Htime H]].
  apply getitem_ok in Htime.
  destruct (dims time) as [|d [|]]; try discriminate.
  apply rbind_ok in H. destruct H as [epts [_ H]].
  apply rbind_ok in H. destruct H as [dt [Hset H]].
  exists d1, sa, d2, located, subsite', geo, d3, d4, db, da,
    (mkVar ["time"] (Arr (map (fun f => Item (SFloat f)) epts)) []), dt.
  repeat (split; [assumption|]).
  split; [apply get_mem with (1 := Htime)|]. auto.
Qed.

(** After the QC loop only [time] changes. *)
Lemma update_dataset_end (da dt out : Dataset) (x : Var) (k : string) :
  mem "time" (variables da) = true ->
  setitem "time" x da = Ok dt ->
  replace_var_attrs "time" time_attrs dt = Ok out ->
  k <> "time" -> get k (variables out) = get k (variables da).
Proof.
  intros Hmem Hset Hrep Hne.
  apply setitem_ok in Hset. subst dt.
  destruct (set_var_present "time" x da Hmem) as [[G1 _] _].
  apply replace_var_attrs_ok in Hrep. destruct Hrep as [G2 _].
  rewrite G2, G1 by assumption. reflexivity.
Qed.

(** Every variable of the result whose name [^.+_qc_executed$] accepts
    carries the masks and the meanings. *)
Lemma update_dataset_flags (ds : Dataset) (depth : scalar) (out : Dataset)
      (v : string) (var : Var) :
  update_dataset ds depth = Ok out ->
  get v (variables out) = Some var ->
  re_match executed_regex v = true ->
  executed_flags var.
Proof.
  intros H Hv Hex. apply update_dataset_steps in H.
  destruct H as [d1 [sa [d2 [loc [sub [geo [d3 [d4 [db [da [x [dt H]]]]]]]]]]]].
  destruct H as [_ [_ [_ [_ [_ [_ [_ [Hloop [Hmem [Hset Hrep]]]]]]]]]].
  assert (Hne : v <> "time").
  { intros ->. rewrite time_not_executed in Hex. discriminate. }
  rewrite (update_dataset_end _ _ _ _ _ Hmem Hset Hrep Hne) in Hv.
  apply qc_loop_spec in Hloop. destruct Hloop as [K [_ E]].
  assert (Hin : In v (keys (variables db))).
  { rewrite <- K. apply mem_keys. apply get_mem with (1 := Hv). }
  destruct (E v Hin Hex) as [var' [Hv' Hf]].
  rewrite Hv in Hv'. injection Hv' as <-. exact Hf.
Qed.

End QcFacts.

(* ================================================================== *)
(** * Facts about the position variables                                *)
(* ================================================================== *)

Module PositionFacts.
Import Py Re Xr Common DictFacts XrFacts ReFacts QcFacts.
Local Open Scope string_scope.

Lemma same_shapes_refl (ds : Dataset) : same_shapes ds ds.
Proof. intros k v Hv. eauto. Qed.

Lemma same_shapes_trans (a b c : Dataset) :
  same_shapes a b -> same_shapes b c -> same_shapes a c.
Proof.
  intros H1 H2 k v Hv. destruct (H1 k v Hv) as [v1 [Hv1 [D1 V1]]].
  destruct (H2 k v1 Hv1) as [v2 [Hv2 [D2 V2]]]. exists v2. split; [assumption|].
  split; congruence.
Qed.

Lemma set_var_attr_shapes (v a : string) (x : attr) (ds ds' : Dataset) :
  set_var_attr v a x ds = Ok ds' -> same_shapes ds ds'.
Proof.
  unfold set_var_attr. intros H. apply rbind_ok in H. destruct H as [var [Hv H]].
  apply getitem_ok in Hv. injection H as <-. intros k w Hw.
  cbn [set_var variables]. destruct (string_dec k v) as [->|Hne].
  - rewrite get_set_same. rewrite Hv in Hw. injection Hw as <-. eauto.
  - rewrite get_set_other by assumption. eauto.
Qed.

Lemma replace_var_attrs_shapes (k : string) (d : dict attr) (ds ds' : Dataset) :
  replace_var_attrs k d ds = Ok ds' -> same_shapes ds ds'.
Proof.
  unfold replace_var_attrs. intros H. apply rbind_ok in H. destruct H as [var [Hv H]].
  apply getitem_ok in Hv. injection H as <-. intros k0 w Hw.
  cbn [set_var variables]. destruct (string_dec k0 k) as [->|Hne].
  - rewrite get_set_same. rewrite Hv in Hw. injection Hw as <-. eauto.
  - rewrite get_set_other by assumption. eauto.
Qed.

Lemma coordinates_loop_shapes (ks : list string) (ds ds' : Dataset) :
  rfold (fun ds v =>
           if str_in v ["time"; "lat"; "lon"; "z"; "station"] then Ok ds
           else set_var_attr v "coordinates" (AStr "time lon lat z") ds) ks ds = Ok ds' ->
  same_shapes ds ds'.
Proof.
  revert ds. induction ks as [|v ks IH]; intros ds; cbn [rfold].
  - intros [= <-]. apply same_shapes_refl.
  - intros H. apply rbind_ok in H. destruct H as [d1 [H1 H]].
    apply IH in H. apply same_shapes_trans with (2 := H).
    destruct (str_in v _).
    + injection H1 as <-. apply same_shapes_refl.
    + apply set_var_attr_shapes with (1 := H1).
Qed.

(** The QC loop leaves alone a variable whose name is not a QC name. *)
Lemma qc_loop_other (k : string) (ks : list string) (ds ds' : Dataset) :
  re_match qc_regex k = false ->
  rfold (update_qc qc_regex executed_regex results_regex) ks ds = Ok ds' ->
  get k (variables ds') = get k (variables ds).
Proof.
  intros Hk. revert ds. induction ks as [|v ks IH]; intros ds; cbn [rfold].
  - intros [= <-]. reflexivity.
  - intros H. apply rbind_ok in H. destruct H as [d1 [H1 H]].
    rewrite (IH _ H). destruct (string_dec k v) as [->|Hne].
    + unfold update_qc in H1. rewrite Hk in H1. injection H1 as <-. reflexivity.
    + apply update_qc_spec in H1. destruct H1 as [[G _] _]. apply G. exact Hne.
Qed.

Lemma expand_dims_data_var (d k : string) (ds ds' : Dataset) (v : Var) :
  expand_dims d ds = Ok ds' -> k <> d -> get k (variables ds) = Some v ->
  coord_names ds' = coord_names ds /\
  get k (variables ds')
  = Some (if str_in k (coord_names ds) then v
          else mkVar (d :: dims v) (Arr [values v]) (var_attrs v)).
Proof.
  unfold expand_dims. destruct (has_dim d ds); [discriminate|].
  destruct (match get d (variables ds) with Some _ => _ | None => _ end); [discriminate|].
  intros [= <-] Hne Hv. cbn [variables coord_names]. split; [reflexivity|].
  induction (variables ds) as [|[k0 v0] l IH]; [discriminate|].
  cbn [map get fst snd] in *. destruct (String.eqb k k0) eqn:E.
  - apply String.eqb_eq in E. subst k0. injection Hv as ->.
    apply String.eqb_neq in Hne. rewrite Hne.
    destruct (str_in k (coord_names ds)); cbn [get fst]; rewrite String.eqb_refl;
      reflexivity.
  - destruct (String.eqb k0 d); [|destruct (str_in k0 (coord_names ds))];
      cbn [get fst]; rewrite E; apply IH; exact Hv.
Qed.

Lemma str_in_add_name (k c : string) (l : list string) :
  k <> c -> str_in k (add_name c l) = str_in k l.
Proof.
  intros Hne. unfold add_name. destruct (str_in c l); [reflexivity|].
  unfold str_in. rewrite existsb_app. cbn [existsb].
  apply String.eqb_neq in Hne. rewrite Hne. rewrite !orb_false_r. reflexivity.
Qed.


Lemma replace_var_attrs_coords (k : string) (d : dict attr) (ds ds' : Dataset) :
  replace_var_attrs k d ds = Ok ds' -> coord_names ds' = coord_names ds.
Proof.
  unfold replace_var_attrs. intros H. apply rbind_ok in H. destruct H as [var [_ H]].
  injection H as <-. reflexivity.
Qed.

(** What [ds.merge(other)] keeps for a name both datasets have. *)
Lemma merge_both (ds other ds' : Dataset) (k : string) (out var : Var) :
  merge ds other = Ok ds' ->
  get k (variables ds) = Some out -> get k (variables other) = Some var ->
  (exists m, merge_var k out var = Ok m /\ get k (variables ds') = Some m) /\
  (In k (coord_names ds) -> is_data_var k other = false).
Proof.
  unfold merge.
  destruct (existsb (fun c => is_data_var c other) (coord_names ds)) eqn:Hamb;
    [discriminate|].
  destruct (existsb _ (coord_names other)); [discriminate|]. cbn [orb].
  intros H Hout Hvar. apply rbind_ok in H. destruct H as [merged [Hm H]].
  injection H as <-. cbn [variables]. split.
  - rewrite get_app.
    assert (Hg : exists m, merge_var k out var = Ok m /\ get k merged = Some m).
    { clear Hamb. revert merged Hm Hout.
      induction (variables ds) as [|[k0 v0] l IH]; intros merged Hm Hout;
        [discriminate|].
      cbn [rmap fst snd get] in *. apply rbind_ok in Hm.
      destruct Hm as [[k1 m1] [H1 Hm]]. apply rbind_ok in Hm.
      destruct Hm as [ys [Hys Hm]]. injection Hm as <-. cbn [get].
      destruct (String.eqb k k0) eqn:E.
      - apply String.eqb_eq in E. subst k0. injection Hout as ->.
        rewrite Hvar in H1. apply rbind_ok in H1. destruct H1 as [m [Hmv H1]].
        injection H1 as <- <-. rewrite String.eqb_refl. eauto.
      - assert (Hk1 : k1 = k0).
        { destruct (get k0 (variables other)).
          - apply rbind_ok in H1. destruct H1 as [m [_ H1]]. congruence.
          - congruence. }
        subst k1. rewrite E. apply IH; assumption. }
    destruct Hg as [m [Hmv Hgm]]. exists m. rewrite Hgm. auto.
  - intros Hin.
    destruct (is_data_var k other) eqn:E; [|reflexivity].
    exfalso. 
    assert (Hex : existsb (fun c => is_data_var c other) (coord_names ds) = true).
    { apply existsb_exists. exists k. auto. }
    congruence.
Qed.

Lemma merge_var_dims (k : string) (out var m : Var) (rest : list string) :
  k <> "station" -> dims out = "station" :: rest -> dims var = ["station"] ->
  merge_var k out var = Ok m -> dims m = dims out.
Proof.
  intros Hk Hout Hvar. unfold merge_var, is_index. rewrite Hout, Hvar.
  assert (E1 : str_list_eqb ("station" :: rest) [k] = false).
  { destruct (str_list_eqb ("station" :: rest) [k]) eqn:E; [|reflexivity].
    apply str_list_eqb_eq in E. congruence. }
  assert (E2 : str_list_eqb ["station"] [k] = false).
  { destruct (str_list_eqb ["station"] [k]) eqn:E; [|reflexivity].
    apply str_list_eqb_eq in E. congruence. }
  rewrite E1, E2. cbn [andb].
  destruct (broadcast_like _ _ _ _) as [b|]; [|discriminate].
  destruct (array_all2 _ _ _); [|discriminate].
  intros [= <-]. reflexivity.
Qed.

Lemma geo_coords_position (subsite : string) (lat lon depth : ndarray) (geo : Dataset)
      (k : string) :
  geo_coords subsite lat lon depth = Ok geo -> k = "lat" \/ k = "lon" ->
  (exists g, get k (variables geo) = Some g /\ dims g = ["station"]) /\
  is_data_var k geo = true.
Proof.
  unfold geo_coords. cbn [geo_attrs getitem get String.eqb Ascii.eqb Bool.eqb rbind].
  unfold station_var.
  destruct lat; [|discriminate]. destruct lon; [|discriminate].
  destruct depth; [|discriminate]. cbn [rbind].
  intros [= <-] [-> | ->]; (split; [eexists; split; reflexivity|reflexivity]).
Qed.


Lemma locate_variables (ds : Dataset) (located : ndarray * ndarray * Dataset) :
  mem "lat" (variables ds) = true -> locate ds = Ok located -> snd located = ds.
Proof.
  unfold locate. intros ->. intros H.
  apply rbind_ok in H. destruct H as [lat [_ H]].
  apply rbind_ok in H. destruct H as [lon [_ H]].
  apply rbind_ok in H. destruct H as [dropped [_ H]].
  injection H as <-. reflexivity.
Qed.

(** With [lat] among the variables, [lat] and [lon] come out of
    [update_dataset] as they went in, with the station dimension in
    front. *)
Lemma update_dataset_position (ds : Dataset) (depth : scalar) (out : Dataset)
      (k : string) (v0 : Var) :
  k = "lat" \/ k = "lon" ->
  mem "lat" (variables ds) = true ->
  get k (variables ds) = Some v0 ->
  update_dataset ds depth = Ok out ->
  exists v, get k (variables out) = Some v /\ dims v = "station" :: dims v0.
Proof.
  intros Hk Hlat Hv0 H. apply update_dataset_steps in H.
  destruct H as [d1 [sa [d2 [loc [sub [geo [d3 [d4 [db [da [x [dt H]]]]]]]]]]]].
  destruct H as [H1 [H2 [Hloc [Hgeo [H3 [H4 [H5 [Hloop [Hmem [Hset Hrep]]]]]]]]]].
  assert (Hks : k <> "station") by (destruct Hk; subst; discriminate).
  assert (Hkt : k <> "time") by (destruct Hk; subst; discriminate).
  assert (Hkq : re_match qc_regex k = false) by (destruct Hk; subst; reflexivity).
  (* the station coordinate and the new dimension *)
  assert (Hv0' : get k (variables (set_scalar_coord "station" (SInt 0) ds)) = Some v0).
  { cbn [set_scalar_coord variables]. rewrite get_set_other; assumption. }
  destruct (expand_dims_data_var "station" k _ d1 v0 H1 Hks Hv0') as [Hc1 Hv1].
  cbn [set_scalar_coord coord_names] in Hc1, Hv1.
  rewrite str_in_add_name in Hv1 by assumption.
  pose proof (replace_var_attrs_coords _ _ _ _ H2) as Hc2.
  destruct (replace_var_attrs_shapes _ _ _ _ H2 k _ Hv1) as [v2 [Hv2 [Hd2 _]]].
  (* the variable branch keeps the dataset *)
  assert (Hlat2 : mem "lat" (variables d2) = true).
  { unfold mem in Hlat. destruct (get "lat" (variables ds)) as [l0|] eqn:El; [|discriminate].
    assert (El' : get "lat" (variables (set_scalar_coord "station" (SInt 0) ds)) = Some l0).
    { cbn [set_scalar_coord variables]. rewrite get_set_other; [assumption|discriminate]. }
    destruct (expand_dims_data_var "station" "lat" _ d1 l0 H1 ltac:(discriminate) El')
      as [_ Hl1].
    destruct (replace_var_attrs_shapes _ _ _ _ H2 "lat" _ Hl1) as [l2 [Hl2 _]].
    apply get_mem with (1 := Hl2). }
  rewrite (locate_variables d2 loc Hlat2 Hloc) in H3.
  (* the merge with the station coordinates *)
  destruct (geo_coords_position _ _ _ _ _ k Hgeo Hk) as [[g [Hg Hdg]] Hdata].
  destruct (merge_both d2 geo d3 k v2 g H3 Hv2 Hg) as [[m [Hm Hgm]] Hamb].
  assert (Hnc : str_in k (coord_names ds) = false).
  { destruct (str_in k (coord_names ds)) eqn:E; [|reflexivity].
    exfalso. assert (Hin : In k (coord_names d2)).
    { rewrite Hc2, Hc1. apply str_in_In. rewrite str_in_add_name; assumption. }
    apply Hamb in Hin. congruence. }
  rewrite Hnc in Hd2. cbn [dims] in Hd2.
  pose proof (merge_var_dims k v2 g m (dims v0) Hks Hd2 Hdg Hm) as Hdm.
  (* attributes, the QC loop, the time conversion *)
  destruct (coordinates_loop_shapes _ _ _ H4 k m Hgm) as [v4 [Hv4 [Hd4 _]]].
  destruct (set_var_attr_shapes _ _ _ _ _ H5 k v4 Hv4) as [v5 [Hv5 [Hd5 _]]].
  exists v5. split.
  - rewrite (update_dataset_end _ _ _ _ _ Hmem Hset Hrep Hkt).
    rewrite (qc_loop_other k _ _ _ Hkq Hloop). exact Hv5.
  - congruence.
Qed.

End PositionFacts.

(** C3: when the input of [update_dataset] holds [lat] as a variable, the
    per-observation variables [lat] and [lon] are not removed: in every
    dataset it returns they keep the dimensions they came with, behind the
    new station dimension, because the dataset [ds.drop(['lat', 'lon'])]
    returns is thrown away. *)
Theorem update_dataset_keeps_observed_position
        (ds : Xr.Dataset) (depth : Xr.scalar) (out : Xr.Dataset)
        (k : string) (v0 : Xr.Var) :
  k = "lat"%string \/ k = "lon"%string ->
  Py.mem "lat" (Xr.variables ds) = true ->
  Py.get k (Xr.variables ds) = Some v0 ->
  Common.update_dataset ds depth = Py.Ok out ->
  exists v, Py.get k (Xr.variables out) = Some v /\
            Xr.dims v = ("station"%string :: Xr.dims v0).
Proof.
  intros Hk Hlat Hv0 H.
  exact (PositionFacts.update_dataset_position ds depth out k v0 Hk Hlat Hv0 H).
Qed.

(** C3's theorem on a dataset with two observations of the position. *)
Lemma update_dataset_keeps_observed_position_witness :
  exists v, Py.get "lat" (Xr.variables Fixtures.position_updated) = Some v /\
            Xr.dims v = ("station"%string :: Xr.dims Fixtures.observed_lat).
Proof.
  apply (update_dataset_keeps_observed_position Fixtures.with_position (Xr.SInt 7)
           Fixtures.position_updated "lat" Fixtures.observed_lat).
  - left. reflexivity.
  - reflexivity.
  - reflexivity.
  - vm_compute. reflexivity.
Defined.

(** The same run in full: both variables come back along (station, time)
    with every recorded value. *)
Lemma update_dataset_on_observed_position :
  exists out lat lon,
    Common.update_dataset Fixtures.with_position (Xr.SInt 7) = Py.Ok out /\
    Py.get "lat" (Xr.variables out) = Some lat /\
    Py.get "lon" (Xr.variables out) = Some lon /\
    Xr.dims lat = ["station"; "time"]%string /\
    Xr.dims lon = ["station"; "time"]%string /\
    Xr.values lat = Xr.Arr [Xr.Arr [Xr.Item (Xr.SFloat (F64.of_int 44));
                                    Xr.Item (Xr.SFloat (F64.of_int 44))]] /\
    Xr.values lon = Xr.Arr [Xr.Arr [Xr.Item (Xr.SFloat (F64.of_int (-124)));
                                    Xr.Item (Xr.SFloat (F64.of_int (-124)))]].
Proof.
  do 3 eexists. split; [vm_compute; reflexivity|].
  repeat split; vm_compute; reflexivity.
Qed.

(* ================================================================== *)
(** * Facts about the data of the QC variables                          *)
(* ================================================================== *)

Module QcDataFacts.
Import Py Re Xr Common DictFacts XrFacts ReFacts QcFacts PositionFacts.
Local Open Scope string_scope.

(** Converting to unsigned bytes twice is converting once. *)
Lemma np_uint8_idem (x y : ndarray) :
  np_uint8 x = Ok y -> np_uint8 y = Ok y.
Proof.
  destruct x as [[z|z|z|f|s]|l]; cbn [np_uint8]; try discriminate.
  - intros [= <-]. cbn [np_uint8]. rewrite Z.mod_mod by lia. reflexivity.
  - intros [= <-]. cbn [np_uint8]. rewrite Z.mod_mod by lia. reflexivity.
  - destruct (F64.trunc f) as [z|]; intros [= <-]; cbn [np_uint8].
    + rewrite Z.mod_mod by lia. reflexivity.
    + reflexivity.
Qed.

Lemma rmap_np_uint8_idem (xs bytes : list ndarray) :
  rmap np_uint8 xs = Ok bytes -> rmap np_uint8 bytes = Ok bytes.
Proof.
  revert bytes. induction xs as [|x xs IH]; intros bytes; cbn [rmap].
  - intros [= <-]. reflexivity.
  - intros H. apply rbind_ok in H. destruct H as [y [Hy H]].
    apply rbind_ok in H. destruct H as [ys [Hys H]]. injection H as <-.
    cbn [rmap]. rewrite (np_uint8_idem _ _ Hy), (IH _ Hys). reflexivity.
Qed.

(** Setting an attribute of [v] keeps the dimensions and values of [v]. *)
Lemma set_var_attr_same (v a : string) (x : attr) (ds ds' : Dataset) (w : Var) :
  set_var_attr v a x ds = Ok ds' -> get v (variables ds) = Some w ->
  exists w', get v (variables ds') = Some w' /\ dims w' = dims w /\ values w' = values w.
Proof. intros H Hw. exact (set_var_attr_shapes _ _ _ _ _ H v w Hw). Qed.

Lemma qc_flags_same (v meanings comment pat suffix : string) (ds ds' : Dataset) (w : Var) :
  qc_flags v meanings comment pat suffix ds = Ok ds' -> get v (variables ds) = Some w ->
  exists w', get v (variables ds') = Some w' /\ dims w' = dims w /\ values w' = values w.
Proof.
  unfold qc_flags. intros H Hw.
  apply rbind_ok in H. destruct H as [d1 [H1 H]].
  apply rbind_ok in H. destruct H as [d2 [H2 H]].
  apply rbind_ok in H. destruct H as [d3 [H3 H]].
  apply rbind_ok in H. destruct H as [p [_ H]].
  apply rbind_ok in H. destruct H as [d4 [H4 H]].
  apply rbind_ok in H. destruct H as [anc [_ H]].
  destruct (set_var_attr_same _ _ _ _ _ _ H1 Hw) as [w1 [Hw1 [Hd1 Hv1]]].
  destruct (set_var_attr_same _ _ _ _ _ _ H2 Hw1) as [w2 [Hw2 [Hd2 Hv2]]].
  destruct (set_var_attr_same _ _ _ _ _ _ H3 Hw2) as [w3 [Hw3 [Hd3 Hv3]]].
  destruct (set_var_attr_same _ _ _ _ _ _ H4 Hw3) as [w4 [Hw4 [Hd4 Hv4]]].
  destruct (get "standard_name" (var_attrs anc)) as [[sn|arr]|].
  - destruct (set_var_attr_same _ _ _ _ _ _ H Hw4) as [w5 [Hw5 [Hd5 Hv5]]].
    exists w5. split; [assumption|]. split; congruence.
  - discriminate.
  - injection H as <-. exists w4. split; [assumption|]. split; congruence.
Qed.

(** One round of the loop on a QC variable: its first row is read, turned
    into unsigned bytes, and stored along (station, time). *)
Lemma update_qc_values (ds ds' : Dataset) (v : string) :
  update_qc qc_regex executed_regex results_regex ds v = Ok ds' ->
  re_match qc_regex v = true ->
  exists w xs bytes w',
    get v (variables ds) = Some w /\
    index0 (values w) = Ok (Arr xs) /\
    rmap np_uint8 xs = Ok bytes /\
    get v (variables ds') = Some w' /\
    dims w' = ["station"; "time"] /\
    values w' = Arr [Arr bytes].
Proof.
  unfold update_qc. intros H Hqc. rewrite Hqc in H.
  apply rbind_ok in H. destruct H as [var [Hvar H]].
  apply rbind_ok in H. destruct H as [row [Hrow H]].
  destruct row as [x|xs]; [discriminate|].
  apply rbind_ok in H. destruct H as [bytes [Hbytes H]].
  apply rbind_ok in H. destruct H as [d1 [H1 H]].
  apply rbind_ok in H. destruct H as [p1 [_ H]].
  apply rbind_ok in H. destruct H as [p2 [_ H]].
  apply rbind_ok in H. destruct H as [d2 [H2 H]].
  apply rbind_ok in H. destruct H as [d3 [H3 H]].
  apply getitem_ok in Hvar.
  apply setitem_ok in H1. subst d1.
  exists var, xs, bytes.
  assert (Hg1 : get v (variables (set_var v (mkVar ["station"; "time"] (Arr [Arr bytes]) []) ds))
                = Some (mkVar ["station"; "time"] (Arr [Arr bytes]) [])).
  { cbn [set_var variables]. apply get_set_same. }
  destruct (set_var_attr_same _ _ _ _ _ _ H2 Hg1) as [w2 [Hw2 [Hd2 Hv2]]].
  cbn [dims values] in Hd2, Hv2.
  assert (Hg3 : exists w3, get v (variables d3) = Some w3 /\
                           dims w3 = ["station"; "time"] /\ values w3 = Arr [Arr bytes]).
  { destruct (re_match executed_regex v).
    - destruct (qc_flags_same _ _ _ _ _ _ _ _ H3 Hw2) as [w3 [Hw3 [Hd3 Hv3]]].
      exists w3. split; [assumption|]. split; congruence.
    - injection H3 as <-. exists w2. auto. }
  destruct Hg3 as [w3 [Hw3 [Hd3 Hv3]]].
  destruct (re_match results_regex v).
  - destruct (qc_flags_same _ _ _ _ _ _ _ _ H Hw3) as [w4 [Hw4 [Hd4 Hv4]]].
    exists w4. repeat (split; [assumption|]). split; congruence.
  - injection H as <-. exists w3. repeat (split; [assumption|]). assumption.
Qed.

(** A QC variable already in bytes stays as it is through the rest of the
    loop. *)
Lemma qc_loop_done (v : string) (bytes : list ndarray) (ks : list string)
      (ds ds' : Dataset) :
  re_match qc_regex v = true ->
  rmap np_uint8 bytes = Ok bytes ->
  rfold (update_qc qc_regex executed_regex results_regex) ks ds = Ok ds' ->
  (exists w, get v (variables ds) = Some w /\ dims w = ["station"; "time"] /\
             values w = Arr [Arr bytes]) ->
  exists w, get v (variables ds') = Some w /\ dims w = ["station"; "time"] /\
            values w = Arr [Arr bytes].
Proof.
  intros Hqc Hidem. revert ds. induction ks as [|k ks IH]; intros ds; cbn [rfold].
  - intros [= <-] H. exact H.
  - intros H Hdone. apply rbind_ok in H. destruct H as [d1 [H1 H]].
    apply (IH _ H). destruct (string_dec k v) as [->|Hne].
    + destruct (update_qc_values _ _ _ H1 Hqc)
        as (w & xs & bytes' & w' & Hw & Hrow & Hb & Hw' & Hd' & Hv').
      destruct Hdone as [w0 [Hw0 [_ Hv0]]].
      rewrite Hw0 in Hw. injection Hw as <-. rewrite Hv0 in Hrow.
      cbn [index0] in Hrow. injection Hrow as <-.
      rewrite Hidem in Hb. injection Hb as <-.
      exists w'. auto.
    + apply update_qc_spec in H1. destruct H1 as [[G _] _].
      rewrite (G v) by congruence. exact Hdone.
Qed.

(** The loop turns the first row of every QC variable it comes to into
    unsigned bytes along (station, time). *)
Lemma qc_loop_values (v : string) (row : ndarray) (ks : list string)
      (ds ds' : Dataset) (w : Var) :
  re_match qc_regex v = true ->
  rfold (update_qc qc_regex executed_regex results_regex) ks ds = Ok ds' ->
  In v ks ->
  get v (variables ds) = Some w -> index0 (values w) = Ok row ->
  exists xs bytes w',
    row = Arr xs /\ rmap np_uint8 xs = Ok bytes /\
    get v (variables ds') = Some w' /\ dims w' = ["station"; "time"] /\
    values w' = Arr [Arr bytes].
Proof.
  intros Hqc. revert ds w. induction ks as [|k ks IH]; intros ds w; cbn [rfold].
  - intros _ [].
  - intros H Hin Hw Hrow. apply rbind_ok in H. destruct H as [d1 [H1 H]].
    destruct (string_dec k v) as [->|Hne].
    + destruct (update_qc_values _ _ _ H1 Hqc)
        as (w0 & xs & bytes & w' & Hw0 & Hrow0 & Hb & Hw' & Hd' & Hv').
      rewrite Hw in Hw0. injection Hw0 as <-.
      rewrite Hrow in Hrow0. injection Hrow0 as ->.
      destruct (qc_loop_done v bytes ks d1 ds' Hqc (rmap_np_uint8_idem _ _ Hb) H)
        as [w2 [Hw2 [Hd2 Hv2]]]; [exists w'; auto|].
      exists xs, bytes, w2. auto.
    + destruct Hin as [->|Hin]; [congruence|].
      apply update_qc_spec in H1. destruct H1 as [[G _] _].
      apply (IH d1 w H Hin); [|assumption].
      rewrite (G v) by congruence. exact Hw.
Qed.

Lemma locate_keeps_variables (ds : Dataset) (located : ndarray * ndarray * Dataset) :
  locate ds = Ok located -> variables (snd located) = variables ds.
Proof.
  unfold locate. destruct (mem "lat" (variables ds)).
  - intros H. apply rbind_ok in H. destruct H as [lat [_ H]].
    apply rbind_ok in H. destruct H as [lon [_ H]].
    apply rbind_ok in H. destruct H as [dropped [_ H]].
    injection H as <-. reflexivity.
  - intros H. apply rbind_ok in H. destruct H as [lat [_ H]].
    apply rbind_ok in H. destruct H as [lon [_ H]].
    injection H as <-. reflexivity.
Qed.

(** Merging leaves alone the variables the other dataset lacks. *)
Lemma merge_absent (ds other ds' : Dataset) (k : string) :
  merge ds other = Ok ds' -> get k (variables other) = None ->
  get k (variables ds') = get k (variables ds).
Proof.
  unfold merge. destruct (_ || _); [discriminate|].
  intros H Hk. apply rbind_ok in H. destruct H as [merged [Hm H]].
  injection H as <-. cbn [variables]. rewrite get_app.
  rewrite (get_filter_keys (fun k => negb (mem k (variables ds)))), Hk.
  assert (Hg : get k merged = get k (variables ds)).
  { clear -Hm Hk. revert merged Hm.
    induction (variables ds) as [|[k0 v0] l IH]; intros merged Hm.
    - injection Hm as <-. reflexivity.
    - cbn [rmap fst snd] in Hm. apply rbind_ok in Hm.
      destruct Hm as [[k1 m1] [H1 Hm]]. apply rbind_ok in Hm.
      destruct Hm as [ys [Hys Hm]]. injection Hm as <-. cbn [get].
      assert (Hk1 : k1 = k0).
      { destruct (get k0 (variables other)).
        - apply rbind_ok in H1. destruct H1 as [m [_ H1]]. congruence.
        - congruence. }
      subst k1. destruct (String.eqb k k0) eqn:E.
      + apply String.eqb_eq in E. subst k0. rewrite Hk in H1. congruence.
      + apply IH. exact Hys. }
  rewrite Hg. destruct (get k (variables ds)); [reflexivity|].
  destruct (negb _); reflexivity.
Qed.

Lemma geo_coords_names (subsite : string) (lat lon depth : ndarray) (geo : Dataset)
      (k : string) :
  geo_coords subsite lat lon depth = Ok geo ->
  ~ In k ["lat"; "lon"; "z"; "station"] -> get k (variables geo) = None.
Proof.
  unfold geo_coords. cbv zeta. intros H Hk.
  repeat (apply rbind_ok in H; destruct H as [? [_ H]]).
  injection H as <-. cbn [variables get].
  repeat match goal with
  | |- context [String.eqb k ?n] =>
      destruct (String.eqb_spec k n) as [->|_]; [exfalso; apply Hk; cbn; tauto|]
  end.
  reflexivity.
Qed.

(** Every variable of the input whose name the executed pattern accepts
    comes out of [update_dataset], and a data variable among them comes out
    as the unsigned bytes of its values along (station, time). *)
Lemma update_dataset_qc_data (ds : Dataset) (depth : scalar) (out : Dataset)
      (v : string) (var0 : Var) :
  update_dataset ds depth = Ok out ->
  get v (variables ds) = Some var0 ->
  re_match executed_regex v = true ->
  exists var,
    get v (variables out) = Some var /\
    (str_in v (coord_names ds) = false ->
     exists xs bytes,
       values var0 = Arr xs /\ rmap np_uint8 xs = Ok bytes /\
       dims var = ["station"; "time"] /\ values var = Arr [Arr bytes]).
Proof.
  intros H Hv0 Hex. pose proof (executed_is_qc v Hex) as Hqc.
  apply update_dataset_steps in H.
  destruct H as [d1 [sa [d2 [loc [sub [geo [d3 [d4 [db [da [x [dt H]]]]]]]]]]]].
  destruct H as [H1 [H2 [Hloc [Hgeo [H3 [H4 [H5 [Hloop [Hmem [Hset Hrep]]]]]]]]]].
  assert (Hnames : ~ In v ["lat"; "lon"; "z"; "station"]).
  { intros Hin. cbn in Hin. decompose [or] Hin; subst; try discriminate; contradiction. }
  assert (Hvs : v <> "station") by (intros ->; discriminate).
  assert (Hvt : v <> "time") by (intros ->; discriminate).
  assert (Hv0' : get v (variables (set_scalar_coord "station" (SInt 0) ds)) = Some var0).
  { cbn [set_scalar_coord variables]. rewrite get_set_other; assumption. }
  destruct (expand_dims_data_var "station" v _ d1 var0 H1 Hvs Hv0') as [_ Hv1].
  cbn [set_scalar_coord coord_names] in Hv1.
  rewrite str_in_add_name in Hv1 by assumption.
  destruct (replace_var_attrs_shapes _ _ _ _ H2 v _ Hv1) as [v2 [Hv2 [Hd2 Hx2]]].
  rewrite <- (locate_keeps_variables _ _ Hloc) in Hv2.
  rewrite <- (merge_absent _ _ _ v H3 (geo_coords_names _ _ _ _ _ v Hgeo Hnames)) in Hv2.
  destruct (coordinates_loop_shapes _ _ _ H4 v v2 Hv2) as [v4 [Hv4 [Hd4 Hx4]]].
  destruct (set_var_attr_shapes _ _ _ _ _ H5 v v4 Hv4) as [v5 [Hv5 [Hd5 Hx5]]].
  assert (Hin : In v (keys (variables db))).
  { apply mem_keys. apply get_mem with (1 := Hv5). }
  destruct (qc_loop_spec _ _ _ Hloop) as [_ [_ Hfl]].
  destruct (Hfl v Hin Hex) as [var [Hvar _]].
  exists var. split.
  - rewrite (update_dataset_end _ _ _ _ _ Hmem Hset Hrep Hvt). exact Hvar.
  - intros Hnc. rewrite Hnc in Hx2. cbn [values] in Hx2.
    assert (Hrow : index0 (values v5) = Ok (values var0)).
    { rewrite Hx5, Hx4, Hx2. reflexivity. }
    destruct (qc_loop_values v _ _ _ _ v5 Hqc Hloop Hin Hv5 Hrow)
      as (xs & bytes & w' & Hxs & Hb & Hw' & Hd' & Hx').
    rewrite Hvar in Hw'. injection Hw' as <-.
    exists xs, bytes. auto.
Qed.

End QcDataFacts.

(** C2: [update_dataset] keeps every variable of its input whose name the
    pattern [^.+_qc_executed$] accepts, a data variable among them as the
    unsigned bytes of its values along (station, time); and in the dataset
    it returns every variable with such a name has [flag_masks] equal to
    the unsigned bytes 1, 2, 4, 8, 16, 32, 64, 128 and [flag_meanings] equal
    to one fixed text of seven space-separated tokens: global range, local
    range, spike, trend, stuck value, gradient, flag propagation. *)
Theorem update_dataset_executed_flags
        (ds : Xr.Dataset) (depth : Xr.scalar) (out : Xr.Dataset)
        (pattern : Re.regex) :
  Common.update_dataset ds depth = Py.Ok out ->
  Re.compile "^.+_qc_executed$" = Py.Ok pattern ->
  (forall v var0,
      Py.get v (Xr.variables ds) = Some var0 ->
      Re.re_match pattern v = true ->
      exists var,
        Py.get v (Xr.variables out) = Some var /\
        (Py.str_in v (Xr.coord_names ds) = false ->
         exists xs bytes,
           Xr.values var0 = Xr.Arr xs /\
           Py.rmap Xr.np_uint8 xs = Py.Ok bytes /\
           Xr.dims var = ["station"; "time"]%string /\
           Xr.values var = Xr.Arr [Xr.Arr bytes])) /\
  (forall v var,
      Py.get v (Xr.variables out) = Some var ->
      Re.re_match pattern v = true ->
      Py.get "flag_masks" (Xr.var_attrs var)
      = Some (Xr.AArr (Xr.Arr [Xr.Item (Xr.SU8 1); Xr.Item (Xr.SU8 2); Xr.Item (Xr.SU8 4);
                               Xr.Item (Xr.SU8 8); Xr.Item (Xr.SU8 16); Xr.Item (Xr.SU8 32);
                               Xr.Item (Xr.SU8 64); Xr.Item (Xr.SU8 128)])) /\
      exists meanings,
        Py.get "flag_meanings" (Xr.var_attrs var) = Some (Xr.AStr meanings) /\
        Py.split " " meanings
        = ["global_range_test"; "local_range_test"; "spike_test"; "poly_trend_test";
           "stuck_value_test"; "gradient_test"; "propogate_flags"]%string).
Proof.
  intros H Hc. rewrite ReFacts.compile_executed in Hc. injection Hc as <-. split.
  - intros v var0 Hv0 Hm. exact (QcDataFacts.update_dataset_qc_data _ _ _ _ _ H Hv0 Hm).
  - intros v var Hv Hm.
    destruct (QcFacts.update_dataset_flags _ _ _ _ _ H Hv Hm) as [Hmasks Hmean].
    split; [exact Hmasks|].
    exists Common.executed_meanings. split; [exact Hmean|reflexivity].
Qed.

(** C2's theorem on the merged sample: the variable [temp_qc_executed],
    29 in every row of both files, comes out as twelve bytes 29 along
    (station, time) with the masks and meanings attached. *)
Lemma update_dataset_executed_flags_witness :
  (Py.get "temp_qc_executed"%string (Xr.variables Fixtures.updated)
   = Some Fixtures.updated_qc_executed /\
   Xr.dims Fixtures.updated_qc_executed = ["station"; "time"]%string /\
   Xr.values Fixtures.updated_qc_executed
   = Xr.Arr [Xr.Arr (repeat (Xr.Item (Xr.SU8 29)) 12)]) /\
  (forall v var0,
      Py.get v (Xr.variables Fixtures.merged) = Some var0 ->
      Re.re_match Re.executed_regex v = true ->
      exists var,
        Py.get v (Xr.variables Fixtures.updated) = Some var /\
        (Py.str_in v (Xr.coord_names Fixtures.merged) = false ->
         exists xs bytes,
           Xr.values var0 = Xr.Arr xs /\
           Py.rmap Xr.np_uint8 xs = Py.Ok bytes /\
           Xr.dims var = ["station"; "time"]%string /\
           Xr.values var = Xr.Arr [Xr.Arr bytes])) /\
  (forall v var,
      Py.get v (Xr.variables Fixtures.updated) = Some var ->
      Re.re_match Re.executed_regex v = true ->
      Py.get "flag_masks" (Xr.var_attrs var)
      = Some (Xr.AArr (Xr.Arr [Xr.Item (Xr.SU8 1); Xr.Item (Xr.SU8 2); Xr.Item (Xr.SU8 4);
                               Xr.Item (Xr.SU8 8); Xr.Item (Xr.SU8 16); Xr.Item (Xr.SU8 32);
                               Xr.Item (Xr.SU8 64); Xr.Item (Xr.SU8 128)])) /\
      exists meanings,
        Py.get "flag_meanings" (Xr.var_attrs var) = Some (Xr.AStr meanings) /\
        Py.split " " meanings
        = ["global_range_test"; "local_range_test"; "spike_test"; "poly_trend_test";
           "stuck_value_test"; "gradient_test"; "propogate_flags"]%string).
Proof.
  split; [repeat split|].
  apply (update_dataset_executed_flags Fixtures.merged (Xr.SInt 7) Fixtures.updated
           Re.executed_regex); reflexivity.
Defined.

(* ================================================================== *)
(** * Facts about the effort of [m2m_request]                           *)
(* ================================================================== *)

Module EffortFacts.
Import Py Common Trace Measure.
Local Open Scope string_scope.

Lemma gets_app (l l' : list event) : gets (l ++ l') = (gets l + gets l')%nat.
Proof.
  induction l as [|e l IH]; [reflexivity|].
  destruct e; cbn [app gets]; rewrite IH; reflexivity.
Qed.

Lemma slept_app (l l' : list event) : slept (l ++ l') = (slept l + slept l')%Z.
Proof.
  induction l as [|e l IH]; [reflexivity|].
  destruct e; cbn [app slept]; rewrite IH; lia.
Qed.

(** Whatever the server answers, [n] iterations send at most [n] requests
    and sleep three seconds after each one but, at most, the last. *)
Lemma poll_effort (remote : Remote) (url : string) (n : nat) (i : Z)
      (el : option spec_float) (st : State) :
  exists evs,
    log (snd (poll remote url n i el st)) = (evs ++ log st)%list /\
    sent (snd (poll remote url n i el st)) = (sent st + gets evs)%nat /\
    (gets evs <= n)%nat /\
    (0 <= slept evs <= 3 * Z.of_nat (gets evs))%Z.
Proof.
  revert i el st. induction n as [|n IH]; intros i el st.
  - exists []. cbn. (split; [|split; [|split]]); first [reflexivity | lia].
  - destruct (ready remote url (sent st)) eqn:Hr.
    + rewrite PollFacts.poll_step_ready by assumption.
      exists (snd (finish url el)). cbn [fst snd sent log].
      destruct el; cbn; (split; [|split; [|split]]); first [reflexivity | lia].
    + rewrite PollFacts.poll_step_fail by assumption.
      destruct (IH (i + 1)%Z (Some (elapsed_at i))
                   (mkState (S (sent st)) (failed_round url ++ log st)%list))
        as (evs & Hlog & Hsent & Hgets & Hslept).
      exists (evs ++ failed_round url)%list.
      rewrite Hlog, Hsent, gets_app, slept_app. cbn [sent log].
      rewrite <- app_assoc. cbn [failed_round gets slept].
      (split; [|split; [|split]]); first [reflexivity | lia].
Qed.

(** Once [elapsed] is bound the loop cannot fail. *)
Lemma poll_bound_ok (remote : Remote) (url : string) (n : nat) (i : Z)
      (e : spec_float) (st : State) :
  fst (poll remote url n i (Some e) st) = Ok tt.
Proof.
  revert i e st. induction n as [|n IH]; intros i e st; [reflexivity|].
  destruct (ready remote url (sent st)) eqn:Hr.
  - rewrite PollFacts.poll_step_ready by assumption. reflexivity.
  - rewrite PollFacts.poll_step_fail by assumption. apply IH.
Qed.

(** [m2m_request], case by case. *)
Lemma m2m_request_cases (remote : Remote) (site node sensor method stream : string)
      (start stop : option string) (st : State) :
  let export := request_url site node sensor method stream start stop in
  let r := respond remote (sent st) export in
  let st1 := mkState (S (sent st)) (Get export :: log st) in
  let out := m2m_request remote site node sensor method stream start stop st in
  (status_code r <> codes_ok /\ out = (Ok None, st1)) \/
  (status_code r = codes_ok /\
   ((exists e, json r = Raise e /\ out = (Raise e, st1)) \/
    (exists data,
        json r = Ok data /\
        let st2 := mkState (S (sent st)) (Print Waiting :: Get export :: log st) in
        ((exists e,
             (urls <- getitem "allURLs" data ;;
              u <- list_index urls 1 ;; Ok (u ++ "/status.txt"))%res = Raise e /\
             out = (Raise e, st2)) \/
         (exists urls job,
             get "allURLs" data = Some urls /\
             nth_error urls 1 = Some job /\
             let polled := poll remote (job ++ "/status.txt") 200 0%Z None st2 in
             out = (match fst polled with
                    | Ok _ => Ok (Some data)
                    | Raise e => Raise e
                    end, snd polled)))))).
Proof.
  cbv zeta.
  remember (m2m_request remote site node sensor method stream start stop st)
    as out eqn:Hout.
  unfold m2m_request in Hout. unfold bind at 1 in Hout.
  unfold requests_get at 1 in Hout.
  destruct (Z.eqb_spec
              (status_code (respond remote (sent st)
                              (request_url site node sensor method stream start stop)))
              codes_ok) as [Heq|Hne]; [right|left; split; [assumption|exact Hout]].
  split; [assumption|].
  unfold bind at 1 in Hout. unfold lift at 1 in Hout.
  destruct (json _) as [data|e]; [right|left; exists e; split; [reflexivity|exact Hout]].
  exists data. split; [reflexivity|].
  unfold bind at 1 in Hout. unfold emit at 1 in Hout. cbn [sent log] in Hout.
  unfold bind at 1 in Hout. unfold lift at 1 in Hout.
  unfold getitem, list_index, rbind in *.
  destruct (get "allURLs" data) as [urls|] eqn:Hurls.
  - destruct (nth_error urls 1) as [job|] eqn:Hjob.
    + right. exists urls, job. split; [reflexivity|]. split; [assumption|].
      unfold bind, ret in Hout. rewrite Hout.
      destruct (poll remote (job ++ "/status.txt") 200 0 None _) as [[[]|e] st'];
        reflexivity.
    + left. eexists. split; [reflexivity|exact Hout].
  - left. eexists. split; [reflexivity|exact Hout].
Qed.

End EffortFacts.

(** X1: [m2m_request] returns [None] exactly when the export request is
    answered with a status other than 200, and then it has sent that one
    request and done nothing else: no waiting message, no status check,
    no sleep. *)
Theorem m2m_request_none_iff_refused
        (remote : Common.Remote) (site node sensor method stream : string)
        (start stop : option string) (st : Common.State) :
  let export := Common.request_url site node sensor method stream start stop in
  let out := Common.m2m_request remote site node sensor method stream start stop st in
  (fst out = Py.Ok None <->
   Common.status_code (Common.respond remote (Common.sent st) export) <> Common.codes_ok) /\
  (fst out = Py.Ok None <->
   out = (Py.Ok None,
          Common.mkState (S (Common.sent st)) (Common.Get export :: Common.log st))).
Proof.
  cbv zeta.
  destruct (EffortFacts.m2m_request_cases remote site node sensor method stream
              start stop st)
    as [[Hne ->]|[Heq [(e & _ & ->)|(data & _ & [(e & _ & ->)|(urls & job & _ & _ & ->)])]]];
    cbv zeta; cbn [fst snd].
  - split; split; intros _; try assumption; reflexivity.
  - split; split; intros H; try discriminate; contradiction.
  - split; split; intros H; try discriminate; contradiction.
  - destruct (fst (Common.poll remote _ 200 0 None _)) as [[]|e];
      split; split; intros H; try discriminate; contradiction.
Qed.

(** X2: whatever the servers answer, one call of [m2m_request] sends at
    most 201 requests, the export request and 200 status checks, and sleeps
    at most 600 seconds; it changes the world only by adding to the log,
    and the request counter goes up by the requests logged. *)
Theorem m2m_request_bounded_effort
        (remote : Common.Remote) (site node sensor method stream : string)
        (start stop : option string) (st : Common.State) :
  let out := Common.m2m_request remote site node sensor method stream start stop st in
  exists evs,
    Common.log (snd out) = (evs ++ Common.log st)%list /\
    Common.sent (snd out) = (Common.sent st + Measure.gets evs)%nat /\
    (1 <= Measure.gets evs <= 201)%nat /\
    (0 <= Measure.slept evs <= 600)%Z.
Proof.
  cbv zeta.
  destruct (EffortFacts.m2m_request_cases remote site node sensor method stream
              start stop st)
    as [[Hne ->]|[Heq [(e & _ & ->)|(data & _ & [(e & _ & ->)|(urls & job & _ & _ & ->)])]]];
    cbv zeta; cbn [fst snd Common.sent Common.log].
  - eexists [Common.Get _]. cbn. (split; [|split; [|split]]); first [reflexivity | lia].
  - eexists [Common.Get _]. cbn. (split; [|split; [|split]]); first [reflexivity | lia].
  - eexists [Common.Print Common.Waiting; Common.Get _]. cbn. (split; [|split; [|split]]); first [reflexivity | lia].
  - match goal with |- context [Common.poll ?r ?u ?n ?i ?el ?s] =>
      destruct (EffortFacts.poll_effort r u n i el s)
        as (evs & Hlog & Hsent & Hgets & Hslept)
    end.
    cbn [Common.sent Common.log] in Hlog, Hsent.
    eexists (evs ++ [Common.Print Common.Waiting; Common.Get _])%list.
    rewrite Hlog, Hsent, EffortFacts.gets_app, EffortFacts.slept_app, <- app_assoc.
    cbn [app Measure.gets Measure.slept].
    (split; [|split; [|split]]); first [reflexivity | lia].
Qed.

(** X3: when OOINet has accepted the export request and the first status
    check does not succeed, [m2m_request] returns the descriptor, whatever
    the later checks bring: the loop cannot fail once it has waited. *)
Theorem m2m_request_returns_after_waiting
        (remote : Common.Remote) (site node sensor method stream : string)
        (start stop : option string) (st : Common.State)
        (data : Common.Json) (urls : list string) (job : string) :
  let export := Common.request_url site node sensor method stream start stop in
  Common.respond remote (Common.sent st) export
  = Common.mkResponse Common.codes_ok (Common.JsonBody data) ->
  Py.get "allURLs"%string data = Some urls ->
  nth_error urls 1 = Some job ->
  Trace.ready remote (job ++ "/status.txt")%string (S (Common.sent st)) = false ->
  fst (Common.m2m_request remote site node sensor method stream start stop st)
  = Py.Ok (Some data).
Proof.
  cbv zeta. intros Hacc Hurls Hjob Hfail.
  rewrite (PollFacts.m2m_request_polls remote (job ++ "/status.txt")%string
             site node sensor method stream start stop st data urls job
             Hacc Hurls Hjob eq_refl).
  cbv zeta. cbn [fst].
  rewrite PollFacts.poll_step_fail by exact Hfail.
  rewrite EffortFacts.poll_bound_ok. reflexivity.
Qed.

Lemma m2m_request_returns_after_waiting_witness :
  fst (Common.m2m_request (Fixtures.ooinet (Some 5%nat))
         "CE01ISSM" "SBD17" "06-CTDBPC000" "telemetered" "ctdbp_cdef_dcl_instrument"
         None None Fixtures.start_state)
  = Py.Ok (Some Fixtures.descriptor).
Proof.
  apply (m2m_request_returns_after_waiting (Fixtures.ooinet (Some 5%nat))
           "CE01ISSM" "SBD17" "06-CTDBPC000" "telemetered" "ctdbp_cdef_dcl_instrument"
           None None Fixtures.start_state Fixtures.descriptor
           ["https://thredds/catalog.html"; "https://async/job42"]%string
           "https://async/job42"%string); reflexivity.
Defined.

(* ================================================================== *)
(** * Facts about the catalog scan and the files opened                 *)
(* ================================================================== *)

Module CatalogFacts.
Import Py Re Xr Common Measure DictFacts SortFacts XrFacts FileFacts EffortFacts.
Local Open Scope string_scope.

Lemma compile_catalog_regex : compile "catalog.html\?dataset=" = Ok catalog_regex.
Proof. reflexivity. Qed.

(** [process_file], whatever comes of it, opens one address and sends no
    request. *)
Lemma process_file_trace (remote : Remote) (cf : option string) (st : State) :
  snd (process_file remote cf st)
  = mkState (sent st)
            (match cf with
             | Some f => [Open (opendap_url f)]
             | None => []
             end ++ log st)%list.
Proof.
  destruct cf as [f|]; [|destruct st; reflexivity].
  unfold process_file. rewrite compile_catalog_regex.
  unfold bind, lift, open_dataset. fold (opendap_url f).
  destruct (opendap remote (opendap_url f)) as [xrd|]; [|reflexivity].
  reflexivity.
Qed.

Lemma process_file_inv (remote : Remote) (cf : option string) (st st' : State)
      (ds : Dataset) :
  process_file remote cf st = (Ok ds, st') ->
  exists f xrd d1 d2 d3,
    cf = Some f /\
    opendap remote (opendap_url f) = Some xrd /\
    swap_dims "obs" "time" xrd = Ok d1 /\
    drop bookkeeping d1 = Ok d2 /\
    sortby "time" d2 = Ok d3 /\
    ds = set_attrs (file_attrs (attrs d3)) d3.
Proof.
  destruct cf as [f|]; [|discriminate].
  unfold process_file. rewrite compile_catalog_regex.
  unfold bind, lift, open_dataset. fold (opendap_url f).
  destruct (opendap remote (opendap_url f)) as [xrd|] eqn:Hx; [|discriminate].
  intros H. exists f, xrd.
  destruct (swap_dims "obs" "time" xrd) as [d1|] eqn:H1; [|discriminate].
  cbn [rbind] in H.
  destruct (drop bookkeeping d1) as [d2|] eqn:H2; [|discriminate].
  cbn [rbind] in H.
  destruct (sortby "time" d2) as [d3|] eqn:H3; [|discriminate].
  cbn [rbind] in H. injection H as <- _.
  exists d1, d2, d3. repeat split; assumption.
Qed.

(** The list comprehension over the catalog entries sends no request. *)
Lemma frames_trace (remote : Remote) (files : list (option string)) (st : State) :
  exists evs,
    snd (mapM (process_file remote) files st) = mkState (sent st) (evs ++ log st)%list /\
    gets evs = 0%nat /\ slept evs = 0%Z.
Proof.
  revert st. induction files as [|cf files IH]; intros st.
  - exists []. destruct st. repeat split.
  - cbn [mapM]. unfold bind at 1.
    pose proof (process_file_trace remote cf st) as Hp.
    destruct (process_file remote cf st) as [[y|e] st1]; cbn [snd] in Hp; subst st1.
    + unfold bind at 1.
      destruct (IH (mkState (sent st)
                      (match cf with Some f => [Open (opendap_url f)] | None => [] end
                       ++ log st)%list)) as (evs & Hs & Hg & Hz).
      destruct (mapM (process_file remote) files _) as [[ys|e] st2];
        cbn [snd sent log] in Hs; subst st2.
      * exists (evs ++ match cf with Some f => [Open (opendap_url f)] | None => [] end)%list.
        unfold ret. cbn [snd]. rewrite <- app_assoc, gets_app, slept_app, Hg, Hz.
        destruct cf; repeat split.
      * exists (evs ++ match cf with Some f => [Open (opendap_url f)] | None => [] end)%list.
        cbn [snd]. rewrite <- app_assoc, gets_app, slept_app, Hg, Hz.
        destruct cf; repeat split.
    + exists (match cf with Some f => [Open (opendap_url f)] | None => [] end).
      cbn [snd]. destruct cf; repeat split.
Qed.

(** When every entry is processed, every entry was an address, every
    address was served, and the files were opened one by one in catalog
    order. *)
Lemma frames_inv (remote : Remote) (files : list (option string)) (st st' : State)
      (frames : list Dataset) :
  mapM (process_file remote) files st = (Ok frames, st') ->
  exists hrefs,
    files = map Some hrefs /\
    List.length frames = List.length hrefs /\
    Forall (fun f => opendap remote (opendap_url f) <> None) hrefs /\
    st' = mkState (sent st)
                  (rev (map (fun f => Open (opendap_url f)) hrefs) ++ log st)%list.
Proof.
  revert st st' frames. induction files as [|cf files IH]; intros st st' frames.
  - cbn [mapM]. unfold ret. intros [= <- <-]. exists []. destruct st.
    repeat split. constructor.
  - cbn [mapM]. intros H. apply bind_ok in H. destruct H as (y & st1 & Hy & H).
    apply bind_ok in H. destruct H as (ys & st2 & Hys & H).
    unfold ret in H. injection H as <- <-.
    pose proof (process_file_trace remote cf st) as Hp. rewrite Hy in Hp.
    cbn [snd] in Hp. subst st1.
    apply process_file_inv in Hy.
    destruct Hy as (f & xrd & _ & _ & _ & -> & Hxrd & _).
    apply IH in Hys. destruct Hys as (hrefs & -> & Hlen & Hall & ->).
    exists (f :: hrefs). cbn [map List.length rev sent log].
    split; [reflexivity|]. split; [congruence|]. split.
    + constructor; [congruence|assumption].
    + rewrite <- !app_assoc. reflexivity.
Qed.

(** [list_files], step by step. *)
Lemma list_files_cases (remote : Remote) (lib : library) (url tag : string)
      (st : State) :
  list_files remote lib url tag st
  = (match compile_tag lib tag with
     | Ok p =>
         Ok (map href (filter (link_matches p)
                              (find_all_a (respond remote (sent st) url))))
     | Raise e => Raise e
     end,
     mkState (S (sent st)) (Get url :: log st)).
Proof.
  unfold list_files, bind, requests_get, lift, ret.
  destruct (compile_tag lib tag); reflexivity.
Qed.







End CatalogFacts.

(* ================================================================== *)
(** * Facts about what [process_file] keeps                             *)
(* ================================================================== *)

Module FileAttrFacts.
Import Py Re Xr Common Measure DictFacts SortFacts XrFacts FileFacts CatalogFacts.
Local Open Scope string_scope.

Lemma get_del {V : Type} (k key : string) (d : dict V) :
  get k (del key d) = if String.eqb k key then None else get k d.
Proof.
  unfold del.
  rewrite (get_filter_keys (fun k' => negb (String.eqb key k'))).
  rewrite (String.eqb_sym key k). destruct (String.eqb k key); reflexivity.
Qed.

Lemma get_del_if_present {V : Type} (k key : string) (d : dict V) :
  get k (if mem key d then del key d else d)
  = if String.eqb k key then None else get k d.
Proof.
  unfold mem. destruct (get key d) as [v|] eqn:E.
  - apply get_del.
  - destruct (String.eqb k key) eqn:Ek; [|reflexivity].
    apply String.eqb_eq in Ek. subst. exact E.
Qed.

Lemma get_del_all {V : Type} (k : string) (ks : list string) (d : dict V) :
  get k (fold_left (fun a key => if mem key a then del key a else a) ks d)
  = if str_in k ks then None else get k d.
Proof.
  revert d. induction ks as [|key ks IH]; intros d; [reflexivity|].
  cbn [fold_left str_in existsb]. rewrite IH, get_del_if_present.
  fold (str_in k ks).
  destruct (String.eqb k key), (str_in k ks); reflexivity.
Qed.

(** Every lookup in the attributes [process_file] leaves behind. *)
Lemma get_file_attrs (k : string) (a : dict attr) :
  get k (file_attrs a)
  = if String.eqb k "creator_email" then Some (AStr "ooice.platforms@gmail.com")
    else if String.eqb k "publisher_email" then Some (AStr "ooice.platforms@gmail.com")
    else if String.eqb k "comment"
    then Some (AStr "Data collected from the OOI M2M API and reworked for use in locally stored NetCDF files.")
    else if String.eqb k "acknowledgement" then Some (AStr "National Science Foundation")
    else if str_in k stale_keys then None
    else if String.eqb k "featureType" then Some (AStr "timeSeries")
    else if String.eqb k "cdm_data_type" then Some (AStr "Station")
    else get k a.
Proof.
  unfold file_attrs. cbv zeta.
  repeat match goal with
  | |- get k (set ?key _ _) = (if String.eqb k ?key then _ else _) =>
      destruct (String.eqb_spec k key) as [->|Hne];
      [apply get_set_same | rewrite get_set_other by exact Hne; clear Hne]
  | |- get k (fold_left _ _ _) = _ =>
      rewrite get_del_all; destruct (str_in k stale_keys); [reflexivity|]
  end.
  reflexivity.
Qed.

Lemma keys_map_values {V W : Type} (g : V -> W) (d : dict V) :
  keys (map (fun kv => (fst kv, g (snd kv))) d) = keys d.
Proof. unfold keys. rewrite map_map. reflexivity. Qed.

Lemma keys_filter_keys {V : Type} (p : string -> bool) (d : dict V) :
  keys (filter (fun kv => p (fst kv)) d) = filter p (keys d).
Proof.
  unfold keys. induction d as [|[k v] d IH]; [reflexivity|].
  cbn [filter map fst]. destruct (p k); cbn [map fst]; rewrite IH; reflexivity.
Qed.

(** [process_file] from the served file to the result, variable by
    variable. *)
Lemma process_file_variables (remote : Remote) (cf : option string) (st st' : State)
      (ds : Dataset) :
  process_file remote cf st = (Ok ds, st') ->
  exists f xrd t keys,
    cf = Some f /\
    opendap remote (opendap_url f) = Some xrd /\
    get "time" (variables xrd) = Some t /\ dims t = ["obs"] /\
    var_keys t = Some keys /\
    (forall name, In name bookkeeping -> mem name (variables xrd) = true) /\
    has_dim "obs" xrd = true /\
    attrs ds = file_attrs (attrs xrd) /\
    Py.keys (variables ds)
    = filter (fun k => negb (str_in k bookkeeping)) (Py.keys (variables xrd)) /\
    forall k,
      get k (variables ds)
      = if str_in k bookkeeping then None
        else option_map (fun v => isel "time" (argsort keys) (rename_dim "obs" "time" v))
                        (get k (variables xrd)).
Proof.
  intros H. apply process_file_inv in H.
  destruct H as (f & xrd & d1 & d2 & d3 & -> & Hx & H1 & H2 & H3 & ->).
  pose proof H1 as Hswap. pose proof H2 as Hdrop.
  apply swap_dims_ok in H1. destruct H1 as [[t [Ht Htd]] [Hv1 [Hc1 Ha1]]].
  apply drop_ok in H2. destruct H2 as [Hv2 [Hc2 Ha2]].
  apply sortby_ok in H3.
  destruct H3 as [v [key [keys [Hv [Hd [Hk [Hv3 [Hc3 Ha3]]]]]]]].
  assert (Hget2 : forall k, get k (variables d2)
                  = if negb (str_in k bookkeeping)
                    then option_map (rename_dim "obs" "time") (get k (variables xrd))
                    else None).
  { intros k. rewrite Hv2, (get_filter_keys (fun k => negb (str_in k bookkeeping))).
    rewrite Hv1, (get_map_values (rename_dim "obs" "time")). reflexivity. }
  rewrite Hget2 in Hv. cbn in Hv. rewrite Ht in Hv. injection Hv as <-.
  cbn [rename_dim dims] in Hd. rewrite Htd in Hd. cbn in Hd. injection Hd as <-.
  cbn [var_keys rename_dim values] in Hk.
  exists f, xrd, t, keys.
  split; [reflexivity|]. split; [assumption|]. split; [assumption|].
  split; [assumption|]. split; [exact Hk|]. split; [|split; [|split; [|split]]].
  - intros name Hname. unfold drop in Hdrop.
    destruct (forallb _ bookkeeping) eqn:Hall; [|discriminate].
    rewrite forallb_forall in Hall. specialize (Hall name Hname).
    unfold mem in *. rewrite Hv1, (get_map_values (rename_dim "obs" "time")) in Hall.
    destruct (get name (variables xrd)); [reflexivity|discriminate].
  - unfold swap_dims in Hswap. destruct (has_dim "obs" xrd); [reflexivity|discriminate].
  - cbn [set_attrs attrs]. rewrite Ha3, Ha2, Ha1. reflexivity.
  - cbn [set_attrs variables]. rewrite Hv3, keys_map_values, Hv2.
    rewrite (keys_filter_keys (fun k => negb (str_in k bookkeeping))), Hv1.
    rewrite keys_map_values. reflexivity.
  - intros k. cbn [set_attrs variables].
    rewrite Hv3, (get_map_values (isel "time" (argsort keys))), Hget2.
    destruct (str_in k bookkeeping); [reflexivity|]. cbn [negb].
    destruct (get k (variables xrd)); reflexivity.
Qed.

End FileAttrFacts.

(** X4: a descriptor that [m2m_request] returns always lists at least two
    addresses under [allURLs]; given to [m2m_collect], with any tag and
    against any server, the lookup [data['allURLs'][0]] succeeds and the
    catalog page at that address is requested, the only request
    [m2m_collect] sends. *)
Theorem m2m_request_descriptor_feeds_collect
        (remote : Common.Remote) (site node sensor method stream : string)
        (start stop : option string) (st : Common.State) (data : Common.Json) :
  fst (Common.m2m_request remote site node sensor method stream start stop st)
  = Py.Ok (Some data) ->
  exists catalog job rest,
    Py.get "allURLs"%string data = Some (catalog :: job :: rest) /\
    forall (remote' : Common.Remote) (lib : Re.library) (tag : string)
           (st' : Common.State),
    exists evs,
      snd (Common.m2m_collect remote' lib data tag st')
      = Common.mkState (S (Common.sent st'))
                       (evs ++ Common.Get catalog :: Common.log st')%list /\
      Measure.gets evs = 0%nat.
Proof.
  intros H.
  destruct (EffortFacts.m2m_request_cases remote site node sensor method stream
              start stop st)
    as [[_ E]|[_ [(e & _ & E)|(d & _ & [(e & _ & E)|(urls & job & Hu & Hj & E)])]]];
    cbv zeta in E; rewrite E in H; cbn [fst] in H; try discriminate.
  destruct (fst (Common.poll remote _ 200 0 None _)) as [[]|e]; [|discriminate].
  injection H as <-.
  destruct urls as [|catalog [|job' rest]]; try discriminate.
  injection Hj as ->.
  exists catalog, job, rest. split; [assumption|].
  intros remote' lib tag st'.
  unfold Common.m2m_collect. unfold Common.bind at 1. unfold Common.lift at 1.
  unfold Py.getitem. rewrite Hu. cbn [Py.rbind Common.list_index nth_error].
  unfold Common.bind at 1. rewrite CatalogFacts.list_files_cases.
  destruct (Re.compile_tag lib tag) as [pattern|e].
  - unfold Common.bind at 1.
    destruct (CatalogFacts.frames_trace remote'
                (map Common.href
                   (filter (Measure.link_matches pattern)
                      (Common.find_all_a
                         (Common.respond remote' (Common.sent st') catalog))))
                (Common.mkState (S (Common.sent st'))
                                (Common.Get catalog :: Common.log st')))
      as (evs & Hs & Hg & _).
    destruct (Common.mapM _ _ _) as [[frames|e] st2]; cbn [snd] in Hs; subst st2.
    + exists evs. split; [|assumption].
      unfold Common.bind, Common.lift. cbn [Common.sent Common.log].
      destruct (Xr.concat frames "time") as [m|e]; [|reflexivity].
      destruct (Xr.sortby "time" m); reflexivity.
    + exists evs. split; [reflexivity|assumption].
  - exists []. split; reflexivity.
Qed.

Lemma m2m_request_descriptor_feeds_collect_witness :
  exists catalog job rest,
    Py.get "allURLs"%string Fixtures.descriptor = Some (catalog :: job :: rest) /\
    forall (remote' : Common.Remote) (lib : Re.library) (tag : string)
           (st' : Common.State),
    exists evs,
      snd (Common.m2m_collect remote' lib Fixtures.descriptor tag st')
      = Common.mkState (S (Common.sent st'))
                       (evs ++ Common.Get catalog :: Common.log st')%list /\
      Measure.gets evs = 0%nat.
Proof.
  apply (m2m_request_descriptor_feeds_collect (Fixtures.ooinet (Some 5%nat))
           "CE01ISSM" "SBD17" "06-CTDBPC000" "telemetered" "ctdbp_cdef_dcl_instrument"
           None None Fixtures.start_state Fixtures.descriptor).
  vm_compute. reflexivity.
Defined.

(** X5: when no link of the catalog page has a text the tag matches,
    [m2m_collect] raises the [ValueError] of [xr.concat] on an empty list,
    after requesting the catalog page and without opening any file. *)
Theorem m2m_collect_without_match
        (remote : Common.Remote) (lib : Re.library) (data : Common.Json) (tag : string)
        (st : Common.State) (urls : list string) (catalog : string)
        (pattern : Re.pattern) :
  Py.get "allURLs"%string data = Some urls ->
  nth_error urls 0 = Some catalog ->
  Re.compile_tag lib tag = Py.Ok pattern ->
  (forall node,
      In node (Common.find_all_a (Common.respond remote (Common.sent st) catalog)) ->
      Measure.link_matches pattern node = false) ->
  Common.m2m_collect remote lib data tag st
  = (Py.Raise (Py.ValueError "must supply at least one object to concatenate"),
     Common.mkState (S (Common.sent st)) (Common.Get catalog :: Common.log st)).
Proof.
  intros Hu Hc Hp Hnone.
  unfold Common.m2m_collect. unfold Common.bind at 1. unfold Common.lift at 1.
  unfold Py.getitem, Common.list_index. rewrite Hu. cbn [Py.rbind]. rewrite Hc.
  unfold Common.bind at 1. rewrite CatalogFacts.list_files_cases, Hp.
  replace (filter (Measure.link_matches pattern) _) with (@nil Common.Anchor).
  - reflexivity.
  - symmetry.
    induction (Common.find_all_a (Common.respond remote (Common.sent st) catalog))
      as [|node l IH]; [reflexivity|].
    cbn [filter]. rewrite (Hnone node (or_introl eq_refl)).
    apply IH. intros n Hn. apply Hnone. right. exact Hn.
Qed.

Lemma m2m_collect_without_match_witness :
  Common.m2m_collect Fixtures.data_server Fixtures.plain_re Fixtures.descriptor
                     "\.csv$" Fixtures.start_state
  = (Py.Raise (Py.ValueError "must supply at least one object to concatenate"),
     Common.mkState 1 [Common.Get "https://thredds/catalog.html"]).
Proof.
  apply (m2m_collect_without_match Fixtures.data_server Fixtures.plain_re
           Fixtures.descriptor "\.csv$" Fixtures.start_state
           ["https://thredds/catalog.html"; "https://async/job42"]%string
           "https://thredds/catalog.html"
           (Re.Parsed (Re.Seq (Re.Chr ".") (Re.lit "csv" (Re.Seq Re.Eol Re.Empty)))));
    try reflexivity.
  intros node Hin. cbn in Hin.
  destruct Hin as [<-|[<-|[<-|[]]]]; reflexivity.
Defined.

(** X6: [m2m_collect] skips nothing.  When it returns a dataset, every
    link the tag matched had an [href], the OPeNDAP server served the file
    behind every one of them, and the files were opened once each, in the
    order of the page, after the one request for the catalog page. *)
Theorem m2m_collect_opens_every_match
        (remote : Common.Remote) (lib : Re.library) (data : Common.Json) (tag : string)
        (st st' : Common.State) (m2m : Xr.Dataset) :
  Common.m2m_collect remote lib data tag st = (Py.Ok m2m, st') ->
  exists urls catalog pattern hrefs,
    Py.get "allURLs"%string data = Some urls /\
    nth_error urls 0 = Some catalog /\
    Re.compile_tag lib tag = Py.Ok pattern /\
    map Common.href
        (filter (Measure.link_matches pattern)
                (Common.find_all_a (Common.respond remote (Common.sent st) catalog)))
    = map Some hrefs /\
    hrefs <> [] /\
    Forall (fun f => Common.opendap remote (Measure.opendap_url f) <> None) hrefs /\
    st' = Common.mkState
            (S (Common.sent st))
            (rev (map (fun f => Common.Open (Measure.opendap_url f)) hrefs)
             ++ Common.Get catalog :: Common.log st)%list.
Proof.
  intros H. apply FileFacts.bind_ok in H. destruct H as (catalog & s0 & H0 & H).
  apply FileFacts.lift_ok in H0. destruct H0 as [H0 ->].
  apply XrFacts.rbind_ok in H0. destruct H0 as (urls & Hu & Hc).
  apply XrFacts.getitem_ok in Hu.
  unfold Common.list_index in Hc.
  destruct (nth_error urls 0) as [c|] eqn:Hn; [|discriminate]. injection Hc as ->.
  apply FileFacts.bind_ok in H. destruct H as (files & s1 & Hf & H).
  rewrite CatalogFacts.list_files_cases in Hf.
  destruct (Re.compile_tag lib tag) as [pattern|e] eqn:Hp; [|discriminate].
  injection Hf as <- <-.
  apply FileFacts.bind_ok in H. destruct H as (frames & s2 & Hfr & H).
  apply CatalogFacts.frames_inv in Hfr.
  destruct Hfr as (hrefs & Hh & Hlen & Hall & ->).
  apply FileFacts.bind_ok in H. destruct H as (m & s3 & Hm & H).
  apply FileFacts.lift_ok in Hm. destruct Hm as [Hm ->].
  apply FileFacts.lift_ok in H. destruct H as [_ ->].
  exists urls, catalog, pattern, hrefs.
  repeat (split; [assumption || reflexivity|]).
  split; [|split; [assumption|reflexivity]].
  intros ->. destruct frames; [discriminate Hm|discriminate Hlen].
Qed.

Lemma m2m_collect_opens_every_match_witness :
  exists urls catalog pattern hrefs,
    Py.get "allURLs"%string Fixtures.descriptor = Some urls /\
    nth_error urls 0 = Some catalog /\
    Re.compile_tag Fixtures.plain_re "\.nc$" = Py.Ok pattern /\
    map Common.href
        (filter (Measure.link_matches pattern)
                (Common.find_all_a
                   (Common.respond Fixtures.data_server
                                   (Common.sent Fixtures.start_state) catalog)))
    = map Some hrefs /\
    hrefs <> [] /\
    Forall (fun f => Common.opendap Fixtures.data_server (Measure.opendap_url f) <> None)
           hrefs /\
    Fixtures.merged_state
    = Common.mkState
        (S (Common.sent Fixtures.start_state))
        (rev (map (fun f => Common.Open (Measure.opendap_url f)) hrefs)
         ++ Common.Get catalog :: Common.log Fixtures.start_state)%list.
Proof.
  apply (m2m_collect_opens_every_match Fixtures.data_server Fixtures.plain_re
           Fixtures.descriptor "\.nc$" Fixtures.start_state Fixtures.merged_state
           Fixtures.merged).
  vm_compute. reflexivity.
Defined.



(** X8: the global attributes of a dataset [process_file] returns are
    those of the served file with six entries set to fixed texts and five
    stale entries absent; every other attribute is carried over
    unchanged. *)
Theorem process_file_global_attributes
        (remote : Common.Remote) (catalog_file : string) (st st' : Common.State)
        (ds : Xr.Dataset) :
  Common.process_file remote (Some catalog_file) st = (Py.Ok ds, st') ->
  exists xrd,
    Common.opendap remote (Measure.opendap_url catalog_file) = Some xrd /\
    Py.get "cdm_data_type"%string (Xr.attrs ds) = Some (Xr.AStr "Station") /\
    Py.get "featureType"%string (Xr.attrs ds) = Some (Xr.AStr "timeSeries") /\
    Py.get "acknowledgement"%string (Xr.attrs ds)
    = Some (Xr.AStr "National Science Foundation") /\
    Py.get "comment"%string (Xr.attrs ds)
    = Some (Xr.AStr "Data collected from the OOI M2M API and reworked for use in locally stored NetCDF files.") /\
    Py.get "publisher_email"%string (Xr.attrs ds)
    = Some (Xr.AStr "ooice.platforms@gmail.com") /\
    Py.get "creator_email"%string (Xr.attrs ds)
    = Some (Xr.AStr "ooice.platforms@gmail.com") /\
    (forall key,
        In key ["DODS.strlen"; "DODS.dimName"; "DODS_EXTRA.Unlimited_Dimension";
                "_NCProperties"; "feature_Type"]%string ->
        Py.get key (Xr.attrs ds) = None) /\
    (forall key,
        ~ In key ["cdm_data_type"; "featureType"; "acknowledgement"; "comment";
                  "publisher_email"; "creator_email";
                  "DODS.strlen"; "DODS.dimName"; "DODS_EXTRA.Unlimited_Dimension";
                  "_NCProperties"; "feature_Type"]%string ->
        Py.get key (Xr.attrs ds) = Py.get key (Xr.attrs xrd)).
Proof.
  intros H. apply FileAttrFacts.process_file_variables in H.
  destruct H as (f & xrd & t & keys & Hf & Hx & _ & _ & _ & _ & _ & Ha & _).
  injection Hf as <-. exists xrd. split; [assumption|]. rewrite Ha.
  repeat (split; [rewrite FileAttrFacts.get_file_attrs; reflexivity|]).
  split.
  - intros key Hin. rewrite FileAttrFacts.get_file_attrs.
    cbn in Hin. decompose [or] Hin; subst; try contradiction; reflexivity.
  - intros key Hin. rewrite FileAttrFacts.get_file_attrs.
    repeat match goal with
    | |- context [String.eqb key ?k] =>
        destruct (String.eqb_spec key k) as [->|_];
        [exfalso; apply Hin; cbn; tauto|]
    end.
    destruct (Py.str_in key Common.stale_keys) eqn:E; [|reflexivity].
    exfalso. apply Hin. apply DictFacts.str_in_In in E. cbn in E. cbn. tauto.
Qed.

Lemma process_file_global_attributes_witness :
  exists xrd,
    Common.opendap Fixtures.data_server
                   (Measure.opendap_url "catalog.html?dataset=ooi/a.nc") = Some xrd /\
    Py.get "cdm_data_type"%string (Xr.attrs Fixtures.processed_a)
    = Some (Xr.AStr "Station") /\
    Py.get "featureType"%string (Xr.attrs Fixtures.processed_a)
    = Some (Xr.AStr "timeSeries") /\
    Py.get "acknowledgement"%string (Xr.attrs Fixtures.processed_a)
    = Some (Xr.AStr "National Science Foundation") /\
    Py.get "comment"%string (Xr.attrs Fixtures.processed_a)
    = Some (Xr.AStr "Data collected from the OOI M2M API and reworked for use in locally stored NetCDF files.") /\
    Py.get "publisher_email"%string (Xr.attrs Fixtures.processed_a)
    = Some (Xr.AStr "ooice.platforms@gmail.com") /\
    Py.get "creator_email"%string (Xr.attrs Fixtures.processed_a)
    = Some (Xr.AStr "ooice.platforms@gmail.com") /\
    (forall key,
        In key ["DODS.strlen"; "DODS.dimName"; "DODS_EXTRA.Unlimited_Dimension";
                "_NCProperties"; "feature_Type"]%string ->
        Py.get key (Xr.attrs Fixtures.processed_a) = None) /\
    (forall key,
        ~ In key ["cdm_data_type"; "featureType"; "acknowledgement"; "comment";
                  "publisher_email"; "creator_email";
                  "DODS.strlen"; "DODS.dimName"; "DODS_EXTRA.Unlimited_Dimension";
                  "_NCProperties"; "feature_Type"]%string ->
        Py.get key (Xr.attrs Fixtures.processed_a) = Py.get key (Xr.attrs xrd)).
Proof.
  apply (process_file_global_attributes Fixtures.data_server
           "catalog.html?dataset=ooi/a.nc" Fixtures.start_state
           (Common.mkState 0
              [Common.Open "https://opendap.oceanobservatories.org/thredds/dodsC/ooi/a.nc"])
           Fixtures.processed_a).
  vm_compute. reflexivity.
Defined.

(** X9: [process_file] keeps the rows of the served file aligned.  The
    time values of the result are those of the file in non-decreasing
    order; the variables of the result are those of the file without the
    six bookkeeping names; and every kept variable whose leading dimension
    is [obs] has its rows reordered by the same permutation that sorts the
    time values, its attributes unchanged. *)
Theorem process_file_rows_stay_aligned
        (remote : Common.Remote) (catalog_file : string) (st st' : Common.State)
        (ds : Xr.Dataset) :
  Common.process_file remote (Some catalog_file) st = (Py.Ok ds, st') ->
  exists xrd t keys order,
    Common.opendap remote (Measure.opendap_url catalog_file) = Some xrd /\
    Py.get "time"%string (Xr.variables xrd) = Some t /\
    Xr.var_keys t = Some keys /\
    Permutation order (seq 0 (List.length keys)) /\
    Xr.time_keys ds = Some (map (fun i => nth i keys 0%Z) order) /\
    Sorted Z.le (map (fun i => nth i keys 0%Z) order) /\
    (forall k,
        Py.mem k (Xr.variables ds)
        = negb (Py.str_in k Common.bookkeeping) && Py.mem k (Xr.variables xrd)) /\
    (forall k v rest rows,
        Py.get k (Xr.variables xrd) = Some v ->
        Py.str_in k Common.bookkeeping = false ->
        Xr.dims v = ("obs"%string :: rest) -> ~ In "obs"%string rest ->
        Xr.values v = Xr.Arr rows ->
        Py.get k (Xr.variables ds)
        = Some (Xr.mkVar ("time"%string :: rest) (Xr.Arr (Xr.take order rows))
                         (Xr.var_attrs v))).
Proof.
  intros H. apply FileAttrFacts.process_file_variables in H.
  destruct H as (f & xrd & t & keys & Hf & Hx & Ht & Htd & Hk & _ & _ & _ & Hkeys & Hget).
  injection Hf as <-.
  exists xrd, t, keys, (Xr.argsort keys).
  split; [assumption|]. split; [assumption|]. split; [assumption|].
  split; [apply SortFacts.argsort_perm|].
  split.
  { unfold Xr.time_keys. rewrite Hget. cbn. rewrite Ht. cbn [option_map].
    apply XrFacts.isel_keys.
    - cbn [Xr.rename_dim Xr.dims]. rewrite Htd. reflexivity.
    - exact Hk. }
  split; [apply SortFacts.argsort_sorted|].
  split.
  { intros k. unfold Py.mem. rewrite Hget.
    destruct (Py.str_in k Common.bookkeeping); [reflexivity|].
    destruct (Py.get k (Xr.variables xrd)); reflexivity. }
  intros k v rest rows Hv Hb Hd Hrest Hval.
  rewrite Hget, Hb, Hv. cbn [option_map]. f_equal.
  unfold Xr.isel, Xr.rename_dim. cbn [Xr.dims Xr.values Xr.var_attrs].
  rewrite Hd, Hval. cbn [map]. cbn [String.eqb Ascii.eqb Bool.eqb].
  assert (Hmap : map (fun d => if String.eqb d "obs" then "time"%string else d) rest = rest).
  { clear -Hrest. induction rest as [|d rest IH]; [reflexivity|].
    cbn [map]. destruct (String.eqb_spec d "obs") as [->|_].
    - exfalso. apply Hrest. left. reflexivity.
    - rewrite IH; [reflexivity|]. intros Hin. apply Hrest. right. exact Hin. }
  rewrite Hmap, ConcatFacts.along_leading. reflexivity.
Qed.

Lemma process_file_rows_stay_aligned_witness :
  exists xrd t keys order,
    Common.opendap Fixtures.spectral_server
                   (Measure.opendap_url "catalog.html?dataset=ooi/c.nc") = Some xrd /\
    Py.get "time"%string (Xr.variables xrd) = Some t /\
    Xr.var_keys t = Some keys /\
    Permutation order (seq 0 (List.length keys)) /\
    Xr.time_keys Fixtures.processed_c = Some (map (fun i => nth i keys 0%Z) order) /\
    Sorted Z.le (map (fun i => nth i keys 0%Z) order) /\
    (forall k,
        Py.mem k (Xr.variables Fixtures.processed_c)
        = negb (Py.str_in k Common.bookkeeping) && Py.mem k (Xr.variables xrd)) /\
    (forall k v rest rows,
        Py.get k (Xr.variables xrd) = Some v ->
        Py.str_in k Common.bookkeeping = false ->
        Xr.dims v = ("obs"%string :: rest) -> ~ In "obs"%string rest ->
        Xr.values v = Xr.Arr rows ->
        Py.get k (Xr.variables Fixtures.processed_c)
        = Some (Xr.mkVar ("time"%string :: rest) (Xr.Arr (Xr.take order rows))
                         (Xr.var_attrs v))).
Proof.
  apply (process_file_rows_stay_aligned Fixtures.spectral_server
           "catalog.html?dataset=ooi/c.nc" Fixtures.start_state
           (Common.mkState 0
              [Common.Open "https://opendap.oceanobservatories.org/thredds/dodsC/ooi/c.nc"])
           Fixtures.processed_c).
  vm_compute. reflexivity.
Defined.

(** X10: [process_file] returns only for an entry with an address, a file
    the server holds, in which [obs] is a dimension, all six bookkeeping
    names are variables, and [time] lies along [obs] alone; on any other
    input it raises. *)
Theorem process_file_requires
        (remote : Common.Remote) (catalog_file : option string)
        (st st' : Common.State) (ds : Xr.Dataset) :
  Common.process_file remote catalog_file st = (Py.Ok ds, st') ->
  exists f xrd t,
    catalog_file = Some f /\
    Common.opendap remote (Measure.opendap_url f) = Some xrd /\
    Xr.has_dim "obs" xrd = true /\
    (forall name,
        In name ["obs"; "id"; "driver_timestamp"; "ingestion_timestamp";
                 "port_timestamp"; "preferred_timestamp"]%string ->
        Py.mem name (Xr.variables xrd) = true) /\
    Py.get "time"%string (Xr.variables xrd) = Some t /\
    Xr.dims t = ["obs"%string].
Proof.
  intros H. apply FileAttrFacts.process_file_variables in H.
  destruct H as (f & xrd & t & keys & Hf & Hx & Ht & Htd & _ & Hb & Hobs & _).
  exists f, xrd, t. auto 10.
Qed.

Lemma process_file_requires_witness :
  exists f xrd t,
    Some "catalog.html?dataset=ooi/a.nc"%string = Some f /\
    Common.opendap Fixtures.data_server (Measure.opendap_url f) = Some xrd /\
    Xr.has_dim "obs" xrd = true /\
    (forall name,
        In name ["obs"; "id"; "driver_timestamp"; "ingestion_timestamp";
                 "port_timestamp"; "preferred_timestamp"]%string ->
        Py.mem name (Xr.variables xrd) = true) /\
    Py.get "time"%string (Xr.variables xrd) = Some t /\
    Xr.dims t = ["obs"%string].
Proof.
  apply (process_file_requires Fixtures.data_server
           (Some "catalog.html?dataset=ooi/a.nc"%string) Fixtures.start_state
           (Common.mkState 0
              [Common.Open "https://opendap.oceanobservatories.org/thredds/dodsC/ooi/a.nc"])
           Fixtures.processed_a).
  vm_compute. reflexivity.
Defined.

(* ================================================================== *)
(** * Facts about the time axis                                         *)
(* ================================================================== *)

Module TimeAxisFacts.
Import Py Re Xr Common DictFacts XrFacts ReFacts QcFacts PositionFacts QcDataFacts.
Local Open Scope string_scope.

(** The last steps of [update_dataset]: the time values of the dataset the
    QC loop leaves are converted and stored under the time attributes. *)
Lemma update_dataset_time_steps (ds : Dataset) (depth : scalar) (out : Dataset) :
  update_dataset ds depth = Ok out ->
  exists da time d epts,
    (forall k, re_match qc_regex k = false -> k <> "station" ->
       ~ In k ["lat"; "lon"; "z"; "station"] ->
       forall v, get k (variables ds) = Some v ->
       exists v', get k (variables da) = Some v' /\
                  dims v' = (if str_in k (coord_names ds) then dims v
                             else "station" :: dims v) /\
                  values v' = (if str_in k (coord_names ds) then values v
                               else Arr [values v])) /\
    get "time" (variables da) = Some time /\
    dims time = [d] /\
    dt64_epoch time = Ok epts /\
    get "time" (variables out)
    = Some (mkVar ["time"] (Arr (map (fun f => Item (SFloat f)) epts)) time_attrs).
Proof.
  intros H0. pose proof H0 as H. apply update_dataset_steps in H.
  destruct H as [d1 [sa [d2 [loc [sub [geo [d3 [d4 [db [da [x [dt H]]]]]]]]]]]].
  destruct H as [H1 [H2 [Hloc [Hgeo [H3 [H4 [H5 [Hloop [Hmem [Hset Hrep]]]]]]]]]].
  unfold update_dataset in H0.
  rewrite H1 in H0. cbn [rbind] in H0.
  apply rbind_ok in H0. destruct H0 as [subsite [_ H0]].
  apply rbind_ok in H0. destruct H0 as [sa' [_ H0]].
  apply rbind_ok in H0. destruct H0 as [d2' [H2' H0]].
  apply rbind_ok in H0. destruct H0 as [loc' [Hloc' H0]].
  apply rbind_ok in H0. destruct H0 as [sub' [_ H0]].
  apply rbind_ok in H0. destruct H0 as [geo' [Hgeo' H0]].
  apply rbind_ok in H0. destruct H0 as [d3' [H3' H0]].
  apply rbind_ok in H0. destruct H0 as [d4' [H4' H0]].
  apply rbind_ok in H0. destruct H0 as [db' [H5' H0]].
  rewrite compile_qc, compile_executed, compile_results in H0. cbn [rbind] in H0.
  apply rbind_ok in H0. destruct H0 as [da' [Hloop' H0]].
  apply rbind_ok in H0. destruct H0 as [time [Htime H0]].
  apply getitem_ok in Htime.
  destruct (dims time) as [|d [|]] eqn:Hdt; try discriminate.
  apply rbind_ok in H0. destruct H0 as [epts [Hepts H0]].
  apply rbind_ok in H0. destruct H0 as [dt' [Hset' Hrep']].
  exists da', time, d, epts.
  split; [|split; [exact Htime|split; [exact Hdt|split; [exact Hepts|]]]].
  - intros k Hq Hks Hnames v Hv.
    assert (Hv' : get k (variables (set_scalar_coord "station" (SInt 0) ds)) = Some v).
    { cbn [set_scalar_coord variables]. rewrite get_set_other; assumption. }
    destruct (expand_dims_data_var "station" k _ d1 v H1 Hks Hv') as [_ Hv1].
    cbn [set_scalar_coord coord_names] in Hv1.
    rewrite str_in_add_name in Hv1 by assumption.
    destruct (replace_var_attrs_shapes _ _ _ _ H2' k _ Hv1) as [v2 [Hv2 [Hd2 Hx2]]].
    rewrite <- (locate_keeps_variables _ _ Hloc') in Hv2.
    rewrite <- (merge_absent _ _ _ k H3' (geo_coords_names _ _ _ _ _ k Hgeo' Hnames)) in Hv2.
    destruct (coordinates_loop_shapes _ _ _ H4' k v2 Hv2) as [v4 [Hv4 [Hd4 Hx4]]].
    destruct (set_var_attr_shapes _ _ _ _ _ H5' k v4 Hv4) as [v5 [Hv5 [Hd5 Hx5]]].
    exists v5. split.
    + rewrite (qc_loop_other k _ _ _ Hq Hloop'). exact Hv5.
    + destruct (str_in k (coord_names ds)); cbn [dims values] in Hd2, Hx2;
        split; congruence.
  - apply setitem_ok in Hset'. subst dt'.
    unfold replace_var_attrs in Hrep'. apply rbind_ok in Hrep'.
    destruct Hrep' as [tv [Htv Hrep']]. apply getitem_ok in Htv.
    cbn [set_var variables] in Htv. rewrite get_set_same in Htv. injection Htv as <-.
    injection Hrep' as <-. cbn [set_var variables dims values].
    apply get_set_same.
Qed.

Lemma dt64_epoch_values_only (v w : Var) :
  values v = values w -> dt64_epoch v = dt64_epoch w.
Proof. unfold dt64_epoch. intros ->. reflexivity. Qed.

(** A float that is a whole number of at most 53 bits denotes it. *)
Lemma to_int_exact_whole (sx : bool) (u : Z) :
  (0 < u)%Z -> (F64.digits u <= 53)%Z ->
  F64.to_int_exact (F64.fnorm sx u 0) = Some (cond_Zopp sx u).
Proof.
  intros Hu Hd. pose proof (F64Facts.digits_pos u Hu) as Hdp.
  unfold F64.to_int_exact, F64.fnorm. rewrite F64Facts.fnorm_mantissa by assumption.
  unfold F64.prec. destruct (0 <=? 0 + F64.digits u - 53)%Z eqn:E.
  - apply Z.leb_le in E.
    replace (F64.digits u) with 53%Z by lia. cbn. do 2 f_equal. lia.
  - apply Z.leb_gt in E.
    replace (- (0 + F64.digits u - 53))%Z with (53 - F64.digits u)%Z by lia.
    rewrite Z.mod_mul, Z.div_mul by (apply Z.pow_nonzero; lia).
    reflexivity.
Qed.

(** The seconds of a whole-second timestamp below 2^62 ns are exact. *)
Lemma to_seconds_whole (s : Z) :
  (Z.abs s * 5 ^ 9 < 2 ^ 53)%Z ->
  F64.to_int_exact (F64.to_seconds (s * 10 ^ 9)) = Some s.
Proof.
  intros Hb. unfold F64.to_seconds, F64.of_int.
  destruct s as [|p|p].
  - reflexivity.
  - assert (Hd : (F64.digits (Zpos p * 5 ^ 9) <= 53)%Z)
      by (apply F64Facts.digits_bound; lia).
    assert (Hd' : (F64.digits (Zpos p) <= 53)%Z)
      by (apply F64Facts.digits_bound; lia).
    change (Zpos p * 10 ^ 9)%Z with (Zpos (p * 10 ^ 9)). cbn [binary_normalize].
    rewrite (F64Facts.of_int_exact false (p * 10 ^ 9) (Zpos p * 5 ^ 9) 9) by lia.
    rewrite F64Facts.div_1e9_exact by lia.
    rewrite to_int_exact_whole by lia. reflexivity.
  - assert (Hd : (F64.digits (Zpos p * 5 ^ 9) <= 53)%Z)
      by (apply F64Facts.digits_bound; lia).
    assert (Hd' : (F64.digits (Zpos p) <= 53)%Z)
      by (apply F64Facts.digits_bound; lia).
    change (Zneg p * 10 ^ 9)%Z with (Zneg (p * 10 ^ 9)). cbn [binary_normalize].
    rewrite (F64Facts.of_int_exact true (p * 10 ^ 9) (Zpos p * 5 ^ 9) 9) by lia.
    rewrite F64Facts.div_1e9_exact by lia.
    rewrite to_int_exact_whole by lia. reflexivity.
Qed.

End TimeAxisFacts.

(** X11: when the input holds [time] as a coordinate, the dataset
    [update_dataset] returns holds [time] along the dimension time alone,
    with the values [dt64_epoch] computes from the input's time values
    (seconds as floats, in the input's order) and exactly the five time
    attributes: long name, standard name, units, axis, calendar. *)
Theorem update_dataset_time_in_seconds
        (ds : Xr.Dataset) (depth : Xr.scalar) (out : Xr.Dataset) (t0 : Xr.Var) :
  Common.update_dataset ds depth = Py.Ok out ->
  Py.get "time"%string (Xr.variables ds) = Some t0 ->
  Py.str_in "time" (Xr.coord_names ds) = true ->
  exists epts,
    Common.dt64_epoch t0 = Py.Ok epts /\
    Py.get "time"%string (Xr.variables out)
    = Some (Xr.mkVar ["time"%string]
              (Xr.Arr (map (fun f => Xr.Item (Xr.SFloat f)) epts))
              [("long_name", Xr.AStr "Time");
               ("standard_name", Xr.AStr "time");
               ("units", Xr.AStr "seconds since 1970-01-01 00:00:00 0:00");
               ("axis", Xr.AStr "T");
               ("calendar", Xr.AStr "gregorian")]%string).
Proof.
  intros H Ht Hc.
  destruct (TimeAxisFacts.update_dataset_time_steps _ _ _ H)
    as (da & time & d & epts & Hkeep & Htime & Hd & Hepts & Hout).
  destruct (Hkeep "time"%string) with (v := t0) as [t' [Ht' [_ Hx']]];
    try reflexivity; try discriminate; try assumption.
  { intros Hin. cbn in Hin. decompose [or] Hin; try discriminate; contradiction. }
  rewrite Htime in Ht'. injection Ht' as <-. rewrite Hc in Hx'.
  exists epts. split; [|exact Hout].
  rewrite <- Hepts. symmetry. apply TimeAxisFacts.dt64_epoch_values_only. exact Hx'.
Qed.

Lemma update_dataset_time_in_seconds_witness :
  exists epts,
    Common.dt64_epoch
      (Xr.mkVar ["time"%string]
                (Xr.Arr [Xr.Item (Xr.STime 0); Xr.Item (Xr.STime 1000000000)]) [])
    = Py.Ok epts /\
    Py.get "time"%string (Xr.variables Fixtures.position_updated)
    = Some (Xr.mkVar ["time"%string]
              (Xr.Arr (map (fun f => Xr.Item (Xr.SFloat f)) epts))
              [("long_name", Xr.AStr "Time");
               ("standard_name", Xr.AStr "time");
               ("units", Xr.AStr "seconds since 1970-01-01 00:00:00 0:00");
               ("axis", Xr.AStr "T");
               ("calendar", Xr.AStr "gregorian")]%string).
Proof.
  apply (update_dataset_time_in_seconds Fixtures.with_position (Xr.SInt 7)
           Fixtures.position_updated); reflexivity.
Defined.

(** X12: for timestamps that are whole seconds and smaller in magnitude
    than 2^62 ns, the floats [dt64_epoch] returns are exactly the whole
    numbers of seconds: the division by 1e9 loses nothing. *)
Theorem dt64_epoch_whole_seconds (secs : list Z) :
  Forall (fun s => Z.abs s * 5 ^ 9 < 2 ^ 53)%Z secs ->
  exists epts,
    Common.dt64_epoch (Fixtures.time_var (map (fun s => s * 10 ^ 9)%Z secs)) = Py.Ok epts /\
    map F64.to_int_exact epts = map Some secs.
Proof.
  intros Hall. exists (map F64.to_seconds (map (fun s => s * 10 ^ 9)%Z secs)). split.
  - apply TimeFacts.dt64_epoch_values.
  - rewrite !map_map. induction Hall as [|s secs Hs _ IH]; [reflexivity|].
    cbn [map]. rewrite IH, TimeAxisFacts.to_seconds_whole by assumption. reflexivity.
Qed.

Lemma dt64_epoch_whole_seconds_witness :
  exists epts,
    Common.dt64_epoch
      (Fixtures.time_var (map (fun s => s * 10 ^ 9)%Z [0; 1; 1600000000; -86400]%Z))
    = Py.Ok epts /\
    map F64.to_int_exact epts = map Some [0; 1; 1600000000; -86400]%Z.
Proof.
  apply dt64_epoch_whole_seconds.
  repeat constructor; vm_compute; congruence.
Defined.

(* ================================================================== *)
(** * Facts about [dict_update]                                         *)
(* ================================================================== *)

Module NestedFacts.
Import Py Nested DictFacts XrFacts.
Local Open Scope string_scope.

Lemma dict_update_nil (legacy : bool) (source : value) :
  dict_update legacy source (Mapping []) = Ok source.
Proof. reflexivity. Qed.

Lemma dict_update_cons (key : string) (v : value) (rest : list (string * value))
      (d : list (string * value)) :
  dict_update true (Mapping d) (Mapping ((key, v) :: rest))
  = rbind (update_key true key v d)
          (fun s => dict_update true s (Mapping rest)).
Proof.
  unfold dict_update, update_key. cbn [dict_update_with negb].
  destruct (is_filled_mapping v); reflexivity.
Qed.

Lemma dict_update_atom (legacy : bool) (a : string) (key : string) (v : value)
      (rest : list (string * value)) :
  exists e, dict_update legacy (Atom a) (Mapping ((key, v) :: rest)) = Raise e.
Proof.
  unfold dict_update. cbn [dict_update_with].
  destruct legacy; cbn [negb]; [|eexists; reflexivity].
  destruct (is_filled_mapping v); cbn [rbind]; eexists; reflexivity.
Qed.

Lemma update_key_ok (key : string) (v : value) (d : list (string * value)) (s : value) :
  update_key true key v d = Ok s ->
  exists x, s = Mapping (set key x d) /\
            (is_filled_mapping v = false -> x = v) /\
            (is_filled_mapping v = true ->
             dict_update true (get_or_empty key d) v = Ok x).
Proof.
  unfold update_key. destruct (is_filled_mapping v).
  - intros H. apply rbind_ok in H. destruct H as [x [Hx H]]. injection H as <-.
    exists x. split; [reflexivity|]. split; [discriminate|]. intros _. exact Hx.
  - intros [= <-]. exists v. split; [reflexivity|]. split; [reflexivity|discriminate].
Qed.

Lemma In_keys_set {V : Type} (k key : string) (x : V) (d : dict V) :
  In k (keys d) -> In k (keys (set key x d)).
Proof.
  unfold keys. induction d as [|[k0 v0] d IH]; [intros []|].
  cbn [set map fst]. destruct (String.eqb_spec key k0) as [->|Hne].
  - intros H. exact H.
  - cbn [map fst]. intros [H|H]; [left; exact H|right; apply IH; exact H].
Qed.

(** The result of the loop, key by key. *)
Lemma dict_update_loop (o : list (string * value)) (d : list (string * value))
      (r : value) :
  NoDup (keys o) ->
  dict_update true (Mapping d) (Mapping o) = Ok r ->
  exists d',
    r = Mapping d' /\
    (forall k, In k (keys d) -> In k (keys d')) /\
    (forall k, get k o = None -> get k d' = get k d) /\
    (forall k v, get k o = Some v -> is_filled_mapping v = false -> get k d' = Some v) /\
    (forall k v, get k o = Some v -> is_filled_mapping v = true ->
       exists x, dict_update true (get_or_empty k d) v = Ok x /\ get k d' = Some x).
Proof.
  revert d. induction o as [|[key v] o IH]; intros d Hnd H.
  - rewrite dict_update_nil in H. injection H as <-. exists d.
    split; [reflexivity|]. split; [auto|]. split; [reflexivity|].
    split; intros k v0 Hk; discriminate.
  - rewrite dict_update_cons in H. apply rbind_ok in H. destruct H as [s [Hs H]].
    apply update_key_ok in Hs. destruct Hs as [x [-> [Hplain Hfilled]]].
    cbn [keys map fst] in Hnd. inversion Hnd as [|? ? Hnotin Hnd']. subst.
    destruct (IH _ Hnd' H) as [d' [-> [Hkeys [Hnone [Hp Hf]]]]].
    assert (Hkey : get key o = None).
    { destruct (get key o) as [w|] eqn:E; [|reflexivity].
      exfalso. apply Hnotin. apply mem_keys. unfold mem. rewrite E. reflexivity. }
    exists d'. split; [reflexivity|].
    split; [intros k Hk; apply Hkeys, In_keys_set, Hk|].
    split; [|split].
    + intros k Hk. cbn [get] in Hk. destruct (String.eqb k key) eqn:E; [discriminate|].
      apply String.eqb_neq in E.
      rewrite (Hnone k Hk). apply get_set_other. exact E.
    + intros k v0 Hk Hv0. cbn [get] in Hk. destruct (String.eqb k key) eqn:E.
      * apply String.eqb_eq in E. subst k.
        injection Hk as <-. rewrite (Hnone key Hkey), get_set_same.
        rewrite (Hplain Hv0). reflexivity.
      * apply (Hp k v0 Hk Hv0).
    + intros k v0 Hk Hv0. cbn [get] in Hk. destruct (String.eqb k key) eqn:E.
      * apply String.eqb_eq in E. subst k.
        injection Hk as <-. exists x. split; [apply Hfilled; exact Hv0|].
        rewrite (Hnone key Hkey). apply get_set_same.
      * apply String.eqb_neq in E.
        destruct (Hf k v0 Hk Hv0) as [y [Hy Hgy]]. exists y. split; [|exact Hgy].
        unfold get_or_empty in *. rewrite get_set_other in Hy by exact E. exact Hy.
Qed.

(** An entry that asks to merge into something that is not a mapping
    stops the loop. *)
Lemma dict_update_conflict (o : list (string * value)) (d : list (string * value))
      (k a : string) (v : value) :
  get k d = Some (Atom a) -> get k o = Some v -> is_filled_mapping v = true ->
  exists e, dict_update true (Mapping d) (Mapping o) = Raise e.
Proof.
  revert d. induction o as [|[key w] o IH]; intros d Hd Ho Hv; [discriminate|].
  rewrite dict_update_cons. cbn [get] in Ho.
  destruct (String.eqb k key) eqn:E.
  - apply String.eqb_eq in E. subst key.
    injection Ho as ->. unfold update_key. rewrite Hv.
    unfold get_or_empty. rewrite Hd.
    destruct v as [|[|[k1 v1] inner]]; try discriminate.
    destruct (dict_update_atom true a k1 v1 inner) as [e He].
    rewrite He. exists e. reflexivity.
  - apply String.eqb_neq in E.
    destruct (update_key true key w d) as [s|e] eqn:Hs; [|exists e; reflexivity].
    cbn [rbind]. apply update_key_ok in Hs. destruct Hs as [x [-> _]].
    apply IH; [|assumption|assumption].
    rewrite get_set_other by exact E. exact Hd.
Qed.

(** On an interpreter without [collections.Mapping] (Python 3.10 and
    later) [dict_update] returns [source] unchanged for empty overrides and
    raises an [AttributeError] for any others. *)
Lemma dict_update_without_mapping_class (source : value) (o : list (string * value)) :
  dict_update false source (Mapping o)
  = match o with
    | [] => Ok source
    | _ :: _ => Raise (AttributeError "Mapping")
    end.
Proof. destruct o as [|[key v] o]; reflexivity. Qed.

End NestedFacts.

(** X13: what [dict_update] returns, key by key, on an interpreter that
    has [collections.Mapping].  The result is a mapping that keeps every
    key of [source]; a key the overrides lack keeps its value; a key whose
    override is not a mapping, or an empty one, gets the override; and a
    key whose override is a non-empty mapping gets [dict_update] of the
    value [source] had there (an empty mapping if it had none) and that
    override. *)
Theorem dict_update_key_by_key
        (d o : list (string * Nested.value)) (r : Nested.value) :
  NoDup (Py.keys o) ->
  Nested.dict_update true (Nested.Mapping d) (Nested.Mapping o) = Py.Ok r ->
  exists d',
    r = Nested.Mapping d' /\
    (forall k, In k (Py.keys d) -> In k (Py.keys d')) /\
    (forall k, Py.get k o = None -> Py.get k d' = Py.get k d) /\
    (forall k v, Py.get k o = Some v -> Nested.is_filled_mapping v = false ->
                 Py.get k d' = Some v) /\
    (forall k v, Py.get k o = Some v -> Nested.is_filled_mapping v = true ->
       exists x,
         Nested.dict_update true (Nested.get_or_empty k d) v = Py.Ok x /\
         Py.get k d' = Some x).
Proof. intros Hnd H. exact (NestedFacts.dict_update_loop o d r Hnd H). Qed.

Lemma dict_update_key_by_key_witness :
  exists d',
    Nested.Mapping
      [("name", Nested.Atom "'ctd'");
       ("attrs", Nested.Mapping [("units", Nested.Atom "'m'");
                                 ("axis", Nested.Atom "'Z'")]);
       ("depth", Nested.Atom "7")]%string
    = Nested.Mapping d' /\
    (forall k, In k (Py.keys [("name", Nested.Atom "'ctd'");
                              ("attrs", Nested.Mapping [("units", Nested.Atom "'dbar'")])]%string) ->
               In k (Py.keys d')) /\
    (forall k,
        Py.get k [("attrs", Nested.Mapping [("units", Nested.Atom "'m'");
                                            ("axis", Nested.Atom "'Z'")]);
                  ("depth", Nested.Atom "7")]%string = None ->
        Py.get k d'
        = Py.get k [("name", Nested.Atom "'ctd'");
                    ("attrs", Nested.Mapping [("units", Nested.Atom "'dbar'")])]%string) /\
    (forall k v,
        Py.get k [("attrs", Nested.Mapping [("units", Nested.Atom "'m'");
                                            ("axis", Nested.Atom "'Z'")]);
                  ("depth", Nested.Atom "7")]%string = Some v ->
        Nested.is_filled_mapping v = false -> Py.get k d' = Some v) /\
    (forall k v,
        Py.get k [("attrs", Nested.Mapping [("units", Nested.Atom "'m'");
                                            ("axis", Nested.Atom "'Z'")]);
                  ("depth", Nested.Atom "7")]%string = Some v ->
        Nested.is_filled_mapping v = true ->
        exists x,
          Nested.dict_update true
            (Nested.get_or_empty k
               [("name", Nested.Atom "'ctd'");
                ("attrs", Nested.Mapping [("units", Nested.Atom "'dbar'")])]%string) v
          = Py.Ok x /\
          Py.get k d' = Some x).
Proof.
  apply (dict_update_key_by_key
           [("name", Nested.Atom "'ctd'");
            ("attrs", Nested.Mapping [("units", Nested.Atom "'dbar'")])]%string
           [("attrs", Nested.Mapping [("units", Nested.Atom "'m'");
                                      ("axis", Nested.Atom "'Z'")]);
            ("depth", Nested.Atom "7")]%string).
  - repeat constructor; cbn; intuition discriminate.
  - reflexivity.
Defined.

(** X14: [dict_update] cannot put a mapping where [source] holds
    something else.  When, on an interpreter that has
    [collections.Mapping], some key has a value that is not a mapping in
    [source] and a non-empty mapping in the overrides, the call raises
    instead of replacing the value. *)
Theorem dict_update_refuses_mapping_over_value
        (d o : list (string * Nested.value)) (k a : string) (v : Nested.value) :
  Py.get k d = Some (Nested.Atom a) ->
  Py.get k o = Some v ->
  Nested.is_filled_mapping v = true ->
  exists e, Nested.dict_update true (Nested.Mapping d) (Nested.Mapping o) = Py.Raise e.
Proof. intros Hd Ho Hv. exact (NestedFacts.dict_update_conflict o d k a v Hd Ho Hv). Qed.

Lemma dict_update_refuses_mapping_over_value_witness :
  exists e,
    Nested.dict_update true
      (Nested.Mapping [("depth", Nested.Atom "7")]%string)
      (Nested.Mapping [("depth", Nested.Mapping [("units", Nested.Atom "'m'")])]%string)
    = Py.Raise e.
Proof.
  apply (dict_update_refuses_mapping_over_value
           [("depth", Nested.Atom "7")]%string
           [("depth", Nested.Mapping [("units", Nested.Atom "'m'")])]%string
           "depth" "7" (Nested.Mapping [("units", Nested.Atom "'m'")]%string));
    reflexivity.
Defined.
